(** * LoadablePluginPlaceholder: the load gate of a plugin placeholder

    A shallow embedding of
    [components/plugins/renderer/loadable_plugin_placeholder.cc].

    The placeholder object is a record of its member variables.  Every
    member function is a computation in a small monad that threads the
    record, accumulates the calls made into objects owned by the host
    (container, plugins, throttler, render frame, metrics) and may stop on a
    failed assertion or a null dereference.  What the host answers to a
    query is read from a [Host] record; what the host does when it is called
    is not part of this file, a call is only recorded.  In particular a
    callback the host makes while it is being called (the placeholder's
    plugin calling [PluginDestroyed] back from its [destroy]) is a separate
    activation of the member function concerned.

    All member functions run on the render thread, one at a time. *)

From Stdlib Require Import Bool List ZArith String Lia.
Import ListNotations.

(** ** Values exchanged with the host *)

(** [blink::WebPlugin*] that is not null: pointers are compared for identity
    only. *)
Definition WebPlugin := nat.

(** [url::Origin]. *)
Definition Origin := string.

Module gfx.
Record Rect := { x : Z; y : Z; width : Z; height : Z }.

(** [operator==] on [gfx::Rect]. *)
Definition eqb (a b : Rect) : bool :=
  (x a =? x b)%Z && (y a =? y b)%Z &&
  (width a =? width b)%Z && (height a =? height b)%Z.

End gfx.

(** The constants of [PluginInstanceThrottler::PowerSaverUnthrottleMethod]
    that the file names; [UNTHROTTLE_METHOD_OTHER] stands for any further
    constant of the enumeration. *)
Inductive PowerSaverUnthrottleMethod : Type :=
| UNTHROTTLE_METHOD_DO_NOT_RECORD
| UNTHROTTLE_METHOD_NEVER
| UNTHROTTLE_METHOD_BY_CLICK
| UNTHROTTLE_METHOD_BY_WHITELIST
| UNTHROTTLE_METHOD_BY_SIZE_CHANGE
| UNTHROTTLE_METHOD_OTHER (n : nat).

Definition is_DO_NOT_RECORD (m : PowerSaverUnthrottleMethod) : bool :=
  match m with UNTHROTTLE_METHOD_DO_NOT_RECORD => true | _ => false end.

(** [content::RenderFrame::PeripheralContentStatus]: the two constants the
    file names, and [CONTENT_STATUS_OTHER] for the remaining (essential)
    ones. *)
Inductive PeripheralContentStatus : Type :=
| CONTENT_STATUS_PERIPHERAL
| CONTENT_STATUS_ESSENTIAL_CROSS_ORIGIN_BIG
| CONTENT_STATUS_OTHER (n : nat).

Definition is_PERIPHERAL (st : PeripheralContentStatus) : bool :=
  match st with CONTENT_STATUS_PERIPHERAL => true | _ => false end.

Definition is_ESSENTIAL_CROSS_ORIGIN_BIG (st : PeripheralContentStatus) : bool :=
  match st with CONTENT_STATUS_ESSENTIAL_CROSS_ORIGIN_BIG => true | _ => false end.

(** [content::PluginInstanceThrottler*] that is not null.  [GetWebPlugin]
    may answer null. *)
Record PluginInstanceThrottler : Type := {
  throttler_id : nat;
  GetWebPlugin : option WebPlugin
}.

(** Pointer comparison of two possibly null plugins. *)
Definition same_plugin (a b : option WebPlugin) : bool :=
  match a, b with
  | Some p, Some q => Nat.eqb p q
  | None, None => true
  | _, _ => false
  end.

(** The two scripts the placeholder runs in its own web view:
    ["window.setMessage(" + quoted message + ")"] and
    ["window.resizePoster('%dpx', '%dpx', '%dpx', '%dpx')"]. *)
Inductive Script : Type :=
| SetMessageScript (message : string)
| ResizePosterScript (x y width height : Z).

(** Calls into the host, in the order they are made. *)
Inductive HostCall : Type :=
| RegisterPeripheralPlugin (origin : Origin)
| ThrottlerMarkPluginEssential (t : PluginInstanceThrottler)
                               (method : PowerSaverUnthrottleMethod)
| RecordUnthrottleMethodMetric (method : PowerSaverUnthrottleMethod)
| SetHiddenForPlaceholder (t : PluginInstanceThrottler) (hidden : bool)
| CreatePlugin
| ContainerSetPlugin (p : WebPlugin)
| PluginInitialize (p : WebPlugin)
| PluginDestroy (p : WebPlugin)
| RestoreTitleText
| ContainerInvalidate
| ContainerReportGeometry
| ReplayReceivedData (p : option WebPlugin)
| ExecuteScript (script : Script)
| GetPeripheralContentStatus (top content : Origin) (width height : Z)
| OnLoadedRectUpdate (rect : gfx.Rect) (status : PeripheralContentStatus)
| WhitelistContentOrigin (origin : Origin)
| RecordAction (action : string)
| SetPlaceholderReadyAttribute
| EnqueueMessageEvent
| BasePluginDestroyed.

(** ** The placeholder object *)

(** The members of the base class [PluginPlaceholderBase] that the file
    reads: [plugin()] (null once the placeholder's own plugin is gone) and
    [hidden()]. *)
Record PluginPlaceholderBase : Type := {
  plugin : option WebPlugin;
  hidden : bool
}.

Record LoadablePluginPlaceholder : Type := {
  base : PluginPlaceholderBase;
  plugin_info_ : string;
  message_ : string;
  is_delayed_placeholder_ : bool;
  is_blocked_for_background_tab_ : bool;
  is_blocked_for_prerendering_ : bool;
  is_blocked_for_power_saver_poster_ : bool;
  power_saver_enabled_ : bool;
  premade_throttler_ : option PluginInstanceThrottler;
  allow_loading_ : bool;
  finished_loading_ : bool;
  identifier_ : string;
  unobscured_rect_ : gfx.Rect;
  heuristic_run_before_ : bool
}.

Abbreviation Placeholder := LoadablePluginPlaceholder.

Definition set_base (v : PluginPlaceholderBase) (s : Placeholder) : Placeholder :=
  {| base := v; plugin_info_ := plugin_info_ s; message_ := message_ s;
     is_delayed_placeholder_ := is_delayed_placeholder_ s;
     is_blocked_for_background_tab_ := is_blocked_for_background_tab_ s;
     is_blocked_for_prerendering_ := is_blocked_for_prerendering_ s;
     is_blocked_for_power_saver_poster_ := is_blocked_for_power_saver_poster_ s;
     power_saver_enabled_ := power_saver_enabled_ s;
     premade_throttler_ := premade_throttler_ s;
     allow_loading_ := allow_loading_ s;
     finished_loading_ := finished_loading_ s;
     identifier_ := identifier_ s; unobscured_rect_ := unobscured_rect_ s;
     heuristic_run_before_ := heuristic_run_before_ s |}.

Definition set_plugin_info_ (v : string) (s : Placeholder) : Placeholder :=
  {| base := base s; plugin_info_ := v; message_ := message_ s;
     is_delayed_placeholder_ := is_delayed_placeholder_ s;
     is_blocked_for_background_tab_ := is_blocked_for_background_tab_ s;
     is_blocked_for_prerendering_ := is_blocked_for_prerendering_ s;
     is_blocked_for_power_saver_poster_ := is_blocked_for_power_saver_poster_ s;
     power_saver_enabled_ := power_saver_enabled_ s;
     premade_throttler_ := premade_throttler_ s;
     allow_loading_ := allow_loading_ s;
     finished_loading_ := finished_loading_ s;
     identifier_ := identifier_ s; unobscured_rect_ := unobscured_rect_ s;
     heuristic_run_before_ := heuristic_run_before_ s |}.

Definition set_message_ (v : string) (s : Placeholder) : Placeholder :=
  {| base := base s; plugin_info_ := plugin_info_ s; message_ := v;
     is_delayed_placeholder_ := is_delayed_placeholder_ s;
     is_blocked_for_background_tab_ := is_blocked_for_background_tab_ s;
     is_blocked_for_prerendering_ := is_blocked_for_prerendering_ s;
     is_blocked_for_power_saver_poster_ := is_blocked_for_power_saver_poster_ s;
     power_saver_enabled_ := power_saver_enabled_ s;
     premade_throttler_ := premade_throttler_ s;
     allow_loading_ := allow_loading_ s;
     finished_loading_ := finished_loading_ s;
     identifier_ := identifier_ s; unobscured_rect_ := unobscured_rect_ s;
     heuristic_run_before_ := heuristic_run_before_ s |}.

Definition set_is_delayed_placeholder_ (v : bool) (s : Placeholder) : Placeholder :=
  {| base := base s; plugin_info_ := plugin_info_ s; message_ := message_ s;
     is_delayed_placeholder_ := v;
     is_blocked_for_background_tab_ := is_blocked_for_background_tab_ s;
     is_blocked_for_prerendering_ := is_blocked_for_prerendering_ s;
     is_blocked_for_power_saver_poster_ := is_blocked_for_power_saver_poster_ s;
     power_saver_enabled_ := power_saver_enabled_ s;
     premade_throttler_ := premade_throttler_ s;
     allow_loading_ := allow_loading_ s;
     finished_loading_ := finished_loading_ s;
     identifier_ := identifier_ s; unobscured_rect_ := unobscured_rect_ s;
     heuristic_run_before_ := heuristic_run_before_ s |}.

Definition set_is_blocked_for_background_tab_ (v : bool) (s : Placeholder) : Placeholder :=
  {| base := base s; plugin_info_ := plugin_info_ s; message_ := message_ s;
     is_delayed_placeholder_ := is_delayed_placeholder_ s;
     is_blocked_for_background_tab_ := v;
     is_blocked_for_prerendering_ := is_blocked_for_prerendering_ s;
     is_blocked_for_power_saver_poster_ := is_blocked_for_power_saver_poster_ s;
     power_saver_enabled_ := power_saver_enabled_ s;
     premade_throttler_ := premade_throttler_ s;
     allow_loading_ := allow_loading_ s;
     finished_loading_ := finished_loading_ s;
     identifier_ := identifier_ s; unobscured_rect_ := unobscured_rect_ s;
     heuristic_run_before_ := heuristic_run_before_ s |}.

Definition set_is_blocked_for_prerendering_ (v : bool) (s : Placeholder) : Placeholder :=
  {| base := base s; plugin_info_ := plugin_info_ s; message_ := message_ s;
     is_delayed_placeholder_ := is_delayed_placeholder_ s;
     is_blocked_for_background_tab_ := is_blocked_for_background_tab_ s;
     is_blocked_for_prerendering_ := v;
     is_blocked_for_power_saver_poster_ := is_blocked_for_power_saver_poster_ s;
     power_saver_enabled_ := power_saver_enabled_ s;
     premade_throttler_ := premade_throttler_ s;
     allow_loading_ := allow_loading_ s;
     finished_loading_ := finished_loading_ s;
     identifier_ := identifier_ s; unobscured_rect_ := unobscured_rect_ s;
     heuristic_run_before_ := heuristic_run_before_ s |}.

Definition set_is_blocked_for_power_saver_poster_ (v : bool) (s : Placeholder) : Placeholder :=
  {| base := base s; plugin_info_ := plugin_info_ s; message_ := message_ s;
     is_delayed_placeholder_ := is_delayed_placeholder_ s;
     is_blocked_for_background_tab_ := is_blocked_for_background_tab_ s;
     is_blocked_for_prerendering_ := is_blocked_for_prerendering_ s;
     is_blocked_for_power_saver_poster_ := v;
     power_saver_enabled_ := power_saver_enabled_ s;
     premade_throttler_ := premade_throttler_ s;
     allow_loading_ := allow_loading_ s;
     finished_loading_ := finished_loading_ s;
     identifier_ := identifier_ s; unobscured_rect_ := unobscured_rect_ s;
     heuristic_run_before_ := heuristic_run_before_ s |}.

Definition set_power_saver_enabled_ (v : bool) (s : Placeholder) : Placeholder :=
  {| base := base s; plugin_info_ := plugin_info_ s; message_ := message_ s;
     is_delayed_placeholder_ := is_delayed_placeholder_ s;
     is_blocked_for_background_tab_ := is_blocked_for_background_tab_ s;
     is_blocked_for_prerendering_ := is_blocked_for_prerendering_ s;
     is_blocked_for_power_saver_poster_ := is_blocked_for_power_saver_poster_ s;
     power_saver_enabled_ := v;
     premade_throttler_ := premade_throttler_ s;
     allow_loading_ := allow_loading_ s;
     finished_loading_ := finished_loading_ s;
     identifier_ := identifier_ s; unobscured_rect_ := unobscured_rect_ s;
     heuristic_run_before_ := heuristic_run_before_ s |}.

Definition set_premade_throttler_ (v : option PluginInstanceThrottler)
  (s : Placeholder) : Placeholder :=
  {| base := base s; plugin_info_ := plugin_info_ s; message_ := message_ s;
     is_delayed_placeholder_ := is_delayed_placeholder_ s;
     is_blocked_for_background_tab_ := is_blocked_for_background_tab_ s;
     is_blocked_for_prerendering_ := is_blocked_for_prerendering_ s;
     is_blocked_for_power_saver_poster_ := is_blocked_for_power_saver_poster_ s;
     power_saver_enabled_ := power_saver_enabled_ s;
     premade_throttler_ := v;
     allow_loading_ := allow_loading_ s;
     finished_loading_ := finished_loading_ s;
     identifier_ := identifier_ s; unobscured_rect_ := unobscured_rect_ s;
     heuristic_run_before_ := heuristic_run_before_ s |}.

Definition set_allow_loading_ (v : bool) (s : Placeholder) : Placeholder :=
  {| base := base s; plugin_info_ := plugin_info_ s; message_ := message_ s;
     is_delayed_placeholder_ := is_delayed_placeholder_ s;
     is_blocked_for_background_tab_ := is_blocked_for_background_tab_ s;
     is_blocked_for_prerendering_ := is_blocked_for_prerendering_ s;
     is_blocked_for_power_saver_poster_ := is_blocked_for_power_saver_poster_ s;
     power_saver_enabled_ := power_saver_enabled_ s;
     premade_throttler_ := premade_throttler_ s;
     allow_loading_ := v;
     finished_loading_ := finished_loading_ s;
     identifier_ := identifier_ s; unobscured_rect_ := unobscured_rect_ s;
     heuristic_run_before_ := heuristic_run_before_ s |}.

Definition set_finished_loading_ (v : bool) (s : Placeholder) : Placeholder :=
  {| base := base s; plugin_info_ := plugin_info_ s; message_ := message_ s;
     is_delayed_placeholder_ := is_delayed_placeholder_ s;
     is_blocked_for_background_tab_ := is_blocked_for_background_tab_ s;
     is_blocked_for_prerendering_ := is_blocked_for_prerendering_ s;
     is_blocked_for_power_saver_poster_ := is_blocked_for_power_saver_poster_ s;
     power_saver_enabled_ := power_saver_enabled_ s;
     premade_throttler_ := premade_throttler_ s;
     allow_loading_ := allow_loading_ s;
     finished_loading_ := v;
     identifier_ := identifier_ s; unobscured_rect_ := unobscured_rect_ s;
     heuristic_run_before_ := heuristic_run_before_ s |}.

Definition set_identifier_ (v : string) (s : Placeholder) : Placeholder :=
  {| base := base s; plugin_info_ := plugin_info_ s; message_ := message_ s;
     is_delayed_placeholder_ := is_delayed_placeholder_ s;
     is_blocked_for_background_tab_ := is_blocked_for_background_tab_ s;
     is_blocked_for_prerendering_ := is_blocked_for_prerendering_ s;
     is_blocked_for_power_saver_poster_ := is_blocked_for_power_saver_poster_ s;
     power_saver_enabled_ := power_saver_enabled_ s;
     premade_throttler_ := premade_throttler_ s;
     allow_loading_ := allow_loading_ s;
     finished_loading_ := finished_loading_ s;
     identifier_ := v; unobscured_rect_ := unobscured_rect_ s;
     heuristic_run_before_ := heuristic_run_before_ s |}.

Definition set_unobscured_rect_ (v : gfx.Rect) (s : Placeholder) : Placeholder :=
  {| base := base s; plugin_info_ := plugin_info_ s; message_ := message_ s;
     is_delayed_placeholder_ := is_delayed_placeholder_ s;
     is_blocked_for_background_tab_ := is_blocked_for_background_tab_ s;
     is_blocked_for_prerendering_ := is_blocked_for_prerendering_ s;
     is_blocked_for_power_saver_poster_ := is_blocked_for_power_saver_poster_ s;
     power_saver_enabled_ := power_saver_enabled_ s;
     premade_throttler_ := premade_throttler_ s;
     allow_loading_ := allow_loading_ s;
     finished_loading_ := finished_loading_ s;
     identifier_ := identifier_ s; unobscured_rect_ := v;
     heuristic_run_before_ := heuristic_run_before_ s |}.

Definition set_heuristic_run_before_ (v : bool) (s : Placeholder) : Placeholder :=
  {| base := base s; plugin_info_ := plugin_info_ s; message_ := message_ s;
     is_delayed_placeholder_ := is_delayed_placeholder_ s;
     is_blocked_for_background_tab_ := is_blocked_for_background_tab_ s;
     is_blocked_for_prerendering_ := is_blocked_for_prerendering_ s;
     is_blocked_for_power_saver_poster_ := is_blocked_for_power_saver_poster_ s;
     power_saver_enabled_ := power_saver_enabled_ s;
     premade_throttler_ := premade_throttler_ s;
     allow_loading_ := allow_loading_ s;
     finished_loading_ := finished_loading_ s;
     identifier_ := identifier_ s; unobscured_rect_ := unobscured_rect_ s;
     heuristic_run_before_ := v |}.

(** ** What the host answers

    One record holds the answers of the host to the queries a member
    function makes while it runs. *)
Record Host : Type := {
  (** [url::Origin(GetPluginParams().url)] *)
  content_origin : Origin;
  (** [render_frame()->GetWebFrame()->top()->getSecurityOrigin()] *)
  top_origin : Origin;
  (** [plugin()->container()] is not null when an event handler asks *)
  plugin_container : bool;
  (** [v |-> roundf(v / zoom_factor)] for the container's
      [pageZoomFactor()] *)
  unzoom : Z -> Z;
  (** [render_frame()->GetPeripheralContentStatus(top, content, size)] *)
  peripheral_content_status :
    Origin -> Origin -> Z -> Z -> PeripheralContentStatus;
  (** what the embedder's [CreatePlugin()] returns *)
  created_plugin : option WebPlugin;
  (** [plugin()->container()] is not null when [ReplacePlugin] asks *)
  plugin_container_at_swap : bool;
  (** [new_plugin->initialize(container)] *)
  initialize : WebPlugin -> bool;
  (** [new_plugin->container()] is not null after a failed
      initialization *)
  new_plugin_container : WebPlugin -> bool;
  (** [element.pluginContainer()] is not null after the initialization
      step *)
  element_plugin_container : bool;
  (** [container->plugin()] after the initialization step *)
  container_plugin : option WebPlugin;
  (** what [PluginPlaceholderBase::PluginDestroyed] does to the members of
      the base class *)
  base_PluginDestroyed : PluginPlaceholderBase -> PluginPlaceholderBase
}.

(** [DCHECK] and [NOTREACHED] are fatal where [DCHECK_IS_ON()], and
    compiled out otherwise; [CHECK] is fatal in every build. *)
Inductive Build : Type := DcheckOn | DcheckOff.

Inductive Failure : Type :=
| CheckFailed
| DcheckFailed
| NotReached
| NullDereference.

(** ** The monad of member functions *)

(** A member function returns with a new object, or stops; either way the
    calls it made into the host so far are known. *)
Inductive Outcome (A : Type) : Type :=
| Returns (a : A) (s : Placeholder) (calls : list HostCall)
| Stops (f : Failure) (calls : list HostCall).

Arguments Returns {A} a s calls.
Arguments Stops {A} f calls.

Definition calls_of {A} (o : Outcome A) : list HostCall :=
  match o with
  | Returns _ _ calls => calls
  | Stops _ calls => calls
  end.

Definition M (A : Type) : Type := Placeholder -> Outcome A.

Definition ret {A} (a : A) : M A := fun s => Returns a s [].

Definition bind {A B} (m : M A) (k : A -> M B) : M B :=
  fun s =>
    match m s with
    | Returns a s1 c1 =>
        match k a s1 with
        | Returns b s2 c2 => Returns b s2 (c1 ++ c2)
        | Stops f c2 => Stops f (c1 ++ c2)
        end
    | Stops f c1 => Stops f c1
    end.

Declare Scope member_scope.
Delimit Scope member_scope with member.
Bind Scope member_scope with M.

Notation "x <- m ;; k" := (bind m (fun x => k))
  (at level 61, m at next level, right associativity) : member_scope.
Notation "m ;; k" := (bind m (fun _ => k))
  (at level 61, right associativity) : member_scope.

Open Scope member_scope.

Definition get : M Placeholder := fun s => Returns s s [].
Definition modify (f : Placeholder -> Placeholder) : M unit :=
  fun s => Returns tt (f s) [].
Definition call (c : HostCall) : M unit := fun s => Returns tt s [c].
Definition stop {A} (f : Failure) : M A := fun _ => Stops f [].
Definition done : M unit := ret tt.

(** An outcome reached after the calls [c] were made. *)
Definition after {A} (c : list HostCall) (o : Outcome A) : Outcome A :=
  match o with
  | Returns a s c2 => Returns a s (c ++ c2)
  | Stops f c2 => Stops f (c ++ c2)
  end.

(** ** The member functions *)

Section Members.

Variable build : Build.
Variable host : Host.

Definition CHECK (c : bool) : M unit :=
  if c then done else stop CheckFailed.

Definition DCHECK (c : bool) : M unit :=
  match build with
  | DcheckOn => if c then done else stop DcheckFailed
  | DcheckOff => done
  end.

Definition NOTREACHED : M unit :=
  match build with
  | DcheckOn => stop NotReached
  | DcheckOff => done
  end.

Definition is_some {A} (o : option A) : bool :=
  match o with Some _ => true | None => false end.

Definition BlockForPowerSaverPoster : M unit :=
  s <- get ;;
  DCHECK (negb (is_blocked_for_power_saver_poster_ s)) ;;
  modify (set_is_blocked_for_power_saver_poster_ true) ;;
  call (RegisterPeripheralPlugin (content_origin host)).

Definition SetPremadePlugin (throttler : option PluginInstanceThrottler)
  : M unit :=
  s <- get ;;
  DCHECK (is_some throttler) ;;
  DCHECK (negb (is_some (premade_throttler_ s))) ;;
  modify (set_premade_throttler_ throttler).

(** The constructor, given the base-class subobject as built by
    [PluginPlaceholderBase]'s constructor.  The members are initialised in
    the order of the initialiser list, so [heuristic_run_before_] reads the
    [premade_throttler_] that was just set to [nullptr]. *)
Definition construct (b : PluginPlaceholderBase) : Placeholder :=
  let premade_throttler_0 : option PluginInstanceThrottler := None in
  {| base := b;
     plugin_info_ := EmptyString;
     message_ := EmptyString;
     is_delayed_placeholder_ := false;
     is_blocked_for_background_tab_ := false;
     is_blocked_for_prerendering_ := false;
     is_blocked_for_power_saver_poster_ := false;
     power_saver_enabled_ := false;
     premade_throttler_ := premade_throttler_0;
     allow_loading_ := false;
     finished_loading_ := false;
     identifier_ := EmptyString;
     unobscured_rect_ := {| gfx.x := 0; gfx.y := 0; gfx.width := 0; gfx.height := 0 |};
     heuristic_run_before_ := is_some premade_throttler_0 |}.

(** [plugin_needs_initialization] of [ReplacePlugin]. *)
Definition plugin_needs_initialization (s : Placeholder) (new_plugin : WebPlugin)
  : bool :=
  match premade_throttler_ s with
  | None => true
  | Some t => negb (same_plugin (Some new_plugin) (GetWebPlugin t))
  end.

(** [plugin()->destroy()] and [new_plugin->destroy()] are calls into host
    objects and are recorded as such.  What a destroyed plugin does in
    return is host code: when the placeholder's own plugin notifies the
    placeholder, that is an activation of [PluginDestroyed] of its own.  The
    object [ReplacePlugin] returns is the object as this function left it,
    before any such notification. *)
Definition ReplacePlugin (new_plugin : option WebPlugin) : M unit :=
  s <- get ;;
  match plugin (base s) with
  | None => stop CheckFailed
  | Some placeholder_plugin =>
      match new_plugin with
      | None => done
      | Some np =>
          if negb (plugin_container_at_swap host) then
            call (PluginDestroy np)
          else
            call (ContainerSetPlugin np) ;;
            init_failed <-
              (if plugin_needs_initialization s np
               then call (PluginInitialize np) ;;
                    ret (negb (initialize host np))
               else ret false) ;;
            if (init_failed : bool) then
              if new_plugin_container host np then
                call (ContainerSetPlugin placeholder_plugin) ;;
                call (PluginDestroy np)
              else done
            else if negb (element_plugin_container host) then
              call (PluginDestroy placeholder_plugin)
            else
              call RestoreTitleText ;;
              call ContainerInvalidate ;;
              call ContainerReportGeometry ;;
              call (ReplayReceivedData (container_plugin host)) ;;
              call (PluginDestroy placeholder_plugin)
      end
  end.

Definition LoadingBlocked : M bool :=
  s <- get ;;
  DCHECK (allow_loading_ s) ;;
  ret (is_blocked_for_background_tab_ s ||
       is_blocked_for_power_saver_poster_ s ||
       is_blocked_for_prerendering_ s).

Definition LoadPlugin : M unit :=
  s <- get ;;
  if hidden (base s) then done
  else if negb (is_some (plugin (base s))) then done
  else if negb (allow_loading_ s) then NOTREACHED
  else
    match premade_throttler_ s with
    | Some t =>
        call (SetHiddenForPlaceholder t false) ;;
        ReplacePlugin (GetWebPlugin t) ;;
        modify (set_premade_throttler_ None)
    | None =>
        call CreatePlugin ;;
        ReplacePlugin (created_plugin host)
    end.

Definition MarkPluginEssential (method : PowerSaverUnthrottleMethod) : M unit :=
  s <- get ;;
  if negb (power_saver_enabled_ s) then done
  else
    modify (set_power_saver_enabled_ false) ;;
    match premade_throttler_ s with
    | Some t => call (ThrottlerMarkPluginEssential t method)
    | None =>
        if negb (is_DO_NOT_RECORD method)
        then call (RecordUnthrottleMethodMetric method)
        else done
    end ;;
    if is_blocked_for_power_saver_poster_ s then
      modify (set_is_blocked_for_power_saver_poster_ false) ;;
      blocked <- LoadingBlocked ;;
      if (blocked : bool) then done else LoadPlugin
    else done.

Definition UpdateMessage : M unit :=
  s <- get ;;
  match plugin (base s) with
  | None => done
  | Some _ => call (ExecuteScript (SetMessageScript (message_ s)))
  end.

Definition SetMessage (message : string) : M unit :=
  modify (set_message_ message) ;;
  s <- get ;;
  if finished_loading_ s then UpdateMessage else done.

Definition PluginDestroyed : M unit :=
  s <- get ;;
  (if power_saver_enabled_ s then
     match premade_throttler_ s with
     | Some t =>
         match GetWebPlugin t with
         | Some p => call (PluginDestroy p)
         | None => stop NullDereference
         end ;;
         modify (set_premade_throttler_ None)
     | None =>
         if is_blocked_for_power_saver_poster_ s
         then call (RecordUnthrottleMethodMetric UNTHROTTLE_METHOD_NEVER)
         else done
     end ;;
     modify (set_power_saver_enabled_ false)
   else done) ;;
  call BasePluginDestroyed ;;
  modify (fun s => set_base (base_PluginDestroyed host (base s)) s).

(** The plugin whose [v8ScriptableObject] is handed out, if any. *)
Definition GetV8ScriptableObject (s : Placeholder) : option WebPlugin :=
  match premade_throttler_ s with
  | Some t => GetWebPlugin t
  | None => None
  end.

(** [DCHECK(content::RenderThread::Get())] at the head of the function
    asserts that it runs on the render thread, as every member function
    here does. *)
Definition OnUnobscuredRectUpdate (unobscured_rect : gfx.Rect) : M unit :=
  s <- get ;;
  if negb (is_some (plugin (base s))) || negb (finished_loading_ s) then done
  else if gfx.eqb (unobscured_rect_ s) unobscured_rect then done
  else
    modify (set_unobscured_rect_ unobscured_rect) ;;
    (if plugin_container host then done else stop NullDereference) ;;
    let width := unzoom host (gfx.width unobscured_rect) in
    let height := unzoom host (gfx.height unobscured_rect) in
    let x := unzoom host (gfx.x unobscured_rect) in
    let y := unzoom host (gfx.y unobscured_rect) in
    call (GetPeripheralContentStatus (top_origin host) (content_origin host)
                                     width height) ;;
    let status :=
      peripheral_content_status host (top_origin host) (content_origin host)
                                width height in
    if is_delayed_placeholder_ s then
      call (OnLoadedRectUpdate
              {| gfx.x := x; gfx.y := y; gfx.width := width; gfx.height := height |}
              status) ;;
      modify (set_is_delayed_placeholder_ false)
    else if is_blocked_for_power_saver_poster_ s then
      call (ExecuteScript (ResizePosterScript x y width height)) ;;
      (if negb (is_PERIPHERAL status) then
         s1 <- get ;;
         MarkPluginEssential
           (if heuristic_run_before_ s1
            then UNTHROTTLE_METHOD_BY_SIZE_CHANGE
            else UNTHROTTLE_METHOD_DO_NOT_RECORD) ;;
         s2 <- get ;;
         if negb (heuristic_run_before_ s2) &&
            is_ESSENTIAL_CROSS_ORIGIN_BIG status
         then call (WhitelistContentOrigin (content_origin host))
         else done
       else done) ;;
      modify (set_heuristic_run_before_ true)
    else done.

Definition WasShown : M unit :=
  s <- get ;;
  if is_blocked_for_background_tab_ s then
    modify (set_is_blocked_for_background_tab_ false) ;;
    blocked <- LoadingBlocked ;;
    if (blocked : bool) then done else LoadPlugin
  else done.

Definition OnLoadBlockedPlugins (identifier : string) : M unit :=
  s <- get ;;
  if negb (String.eqb identifier EmptyString) &&
     negb (String.eqb identifier (identifier_ s))
  then done
  else
    call (RecordAction "Plugin_Load_UI") ;;
    LoadPlugin.

Definition OnSetIsPrerendering (is_prerendering : bool) : M unit :=
  DCHECK (negb is_prerendering) ;;
  s <- get ;;
  if is_blocked_for_prerendering_ s then
    modify (set_is_blocked_for_prerendering_ false) ;;
    blocked <- LoadingBlocked ;;
    if (blocked : bool) then done else LoadPlugin
  else done.

Definition LoadCallback : M unit :=
  call (RecordAction "Plugin_Load_Click") ;;
  MarkPluginEssential UNTHROTTLE_METHOD_BY_CLICK ;;
  LoadPlugin.

Definition DidFinishLoadingCallback : M unit :=
  modify (set_finished_loading_ true) ;;
  s <- get ;;
  (if (0 <? String.length (message_ s))%nat then UpdateMessage else done) ;;
  match premade_throttler_ s with
  | Some t =>
      if power_saver_enabled_ s
      then call (SetHiddenForPlaceholder t true)
      else done
  | None => done
  end ;;
  if is_some (plugin (base s)) then
    CHECK (plugin_container host) ;;
    call ContainerReportGeometry
  else done.

Definition DidFinishIconRepositionForTestingCallback : M unit :=
  s <- get ;;
  match plugin (base s) with
  | None => stop NullDereference
  | Some _ =>
      if plugin_container host then
        call SetPlaceholderReadyAttribute ;;
        call EnqueueMessageEvent
      else stop NullDereference
  end.

Definition SetPluginInfo (plugin_info : string) : M unit :=
  modify (set_plugin_info_ plugin_info).

Definition GetPluginInfo (s : Placeholder) : string := plugin_info_ s.

Definition SetIdentifier (identifier : string) : M unit :=
  modify (set_identifier_ identifier).

Definition GetIdentifier (s : Placeholder) : string := identifier_ s.

End Members.

(** ** Reading outcomes *)

(** The first call [LoadPlugin] makes once it is past its guards: the
    premade plugin is unhidden, or the embedder is asked for a new plugin.
    No other member function makes either call. *)
Definition starts_load (c : HostCall) : bool :=
  match c with
  | CreatePlugin => true
  | SetHiddenForPlaceholder _ false => true
  | _ => false
  end.

(** The load transition fired during the activation: [LoadPlugin] got past
    its guards and handed a plugin to [ReplacePlugin].  Whether the swap then
    completes is [ReplacePlugin]'s matter. *)
Definition load_fires {A} (o : Outcome A) : bool :=
  existsb starts_load (calls_of o).

Definition is_fatal {A} (o : Outcome A) : bool :=
  match o with
  | Returns _ _ _ => false
  | Stops _ _ => true
  end.

(** A call made through the premade throttler. *)
Definition through_throttler (c : HostCall) : bool :=
  match c with
  | ThrottlerMarkPluginEssential _ _ => true
  | SetHiddenForPlaceholder _ _ => true
  | _ => false
  end.

(** No load blocker is set. *)
Definition no_blocker (s : Placeholder) : bool :=
  negb (is_blocked_for_background_tab_ s ||
        is_blocked_for_power_saver_poster_ s ||
        is_blocked_for_prerendering_ s).

(** The check every blocker-clearing handler makes once it has cleared its
    blocker: [if (!LoadingBlocked()) LoadPlugin();]. *)
Definition load_unless_blocked (b : Build) (h : Host) : M unit :=
  blocked <- LoadingBlocked b ;;
  if (blocked : bool) then done else LoadPlugin b h.

(** The calls by which [MarkPluginEssential] reports the method: through
    the premade throttler when there is one, else to the metric unless the
    method is the sentinel. *)
Definition essential_report (s : Placeholder) (method : PowerSaverUnthrottleMethod)
  : list HostCall :=
  match premade_throttler_ s with
  | Some t => [ThrottlerMarkPluginEssential t method]
  | None =>
      if is_DO_NOT_RECORD method then []
      else [RecordUnthrottleMethodMetric method]
  end.

(** The size and the classification that [OnUnobscuredRectUpdate] computes
    for a rect. *)
Definition classification (h : Host) (rect : gfx.Rect) : PeripheralContentStatus :=
  peripheral_content_status h (top_origin h) (content_origin h)
    (unzoom h (gfx.width rect)) (unzoom h (gfx.height rect)).

(** The calls [OnUnobscuredRectUpdate] makes for a rect before it looks at
    the classification: the query to the classifier and, for a poster, the
    [resizePoster] script. *)
Definition classify_call (h : Host) (rect : gfx.Rect) : HostCall :=
  GetPeripheralContentStatus (top_origin h) (content_origin h)
    (unzoom h (gfx.width rect)) (unzoom h (gfx.height rect)).

Definition resize_call (h : Host) (rect : gfx.Rect) : HostCall :=
  ExecuteScript
    (ResizePosterScript (unzoom h (gfx.x rect)) (unzoom h (gfx.y rect))
       (unzoom h (gfx.width rect)) (unzoom h (gfx.height rect))).

Definition is_whitelist (c : HostCall) : bool :=
  match c with WhitelistContentOrigin _ => true | _ => false end.

(** The member functions that act on the object, [SetPremadePlugin] apart. *)
Inductive Operation : Type :=
| OpBlockForPowerSaverPoster
| OpMarkPluginEssential (method : PowerSaverUnthrottleMethod)
| OpReplacePlugin (new_plugin : option WebPlugin)
| OpSetMessage (message : string)
| OpUpdateMessage
| OpPluginDestroyed
| OpOnUnobscuredRectUpdate (unobscured_rect : gfx.Rect)
| OpWasShown
| OpOnLoadBlockedPlugins (identifier : string)
| OpOnSetIsPrerendering (is_prerendering : bool)
| OpLoadPlugin
| OpLoadCallback
| OpDidFinishLoadingCallback
| OpDidFinishIconRepositionForTestingCallback
| OpSetPluginInfo (plugin_info : string)
| OpSetIdentifier (identifier : string).

Definition perform (b : Build) (h : Host) (op : Operation) : M unit :=
  match op with
  | OpBlockForPowerSaverPoster => BlockForPowerSaverPoster b h
  | OpMarkPluginEssential method => MarkPluginEssential b h method
  | OpReplacePlugin new_plugin => ReplacePlugin h new_plugin
  | OpSetMessage message => SetMessage message
  | OpUpdateMessage => UpdateMessage
  | OpPluginDestroyed => PluginDestroyed h
  | OpOnUnobscuredRectUpdate rect => OnUnobscuredRectUpdate b h rect
  | OpWasShown => WasShown b h
  | OpOnLoadBlockedPlugins identifier => OnLoadBlockedPlugins b h identifier
  | OpOnSetIsPrerendering is_prerendering =>
      OnSetIsPrerendering b h is_prerendering
  | OpLoadPlugin => LoadPlugin b h
  | OpLoadCallback => LoadCallback b h
  | OpDidFinishLoadingCallback => DidFinishLoadingCallback h
  | OpDidFinishIconRepositionForTestingCallback =>
      DidFinishIconRepositionForTestingCallback h
  | OpSetPluginInfo plugin_info => SetPluginInfo plugin_info
  | OpSetIdentifier identifier => SetIdentifier identifier
  end.

(** ** Further readings of a trace *)

Definition is_destroy (c : HostCall) : bool :=
  match c with PluginDestroy _ => true | _ => false end.

Definition is_initialize (c : HostCall) : bool :=
  match c with PluginInitialize _ => true | _ => false end.

(** A report of how the plugin was unthrottled: to the metric, or to the
    premade throttler, which records it. *)
Definition is_report (c : HostCall) : bool :=
  match c with
  | RecordUnthrottleMethodMetric _ => true
  | ThrottlerMarkPluginEssential _ _ => true
  | _ => false
  end.

(** The sentinel sent to the metric. *)
Definition records_sentinel (c : HostCall) : bool :=
  match c with
  | RecordUnthrottleMethodMetric UNTHROTTLE_METHOD_DO_NOT_RECORD => true
  | _ => false
  end.

(** A call that goes through [plugin()]: to the placeholder's plugin, its
    container or its web view, or to the classifier and the embedder on its
    behalf. *)
Definition uses_plugin (c : HostCall) : bool :=
  match c with
  | CreatePlugin | ContainerSetPlugin _ | PluginInitialize _
  | RestoreTitleText | ContainerInvalidate | ContainerReportGeometry
  | ReplayReceivedData _ | ExecuteScript _ | GetPeripheralContentStatus _ _ _ _
  | OnLoadedRectUpdate _ _ | WhitelistContentOrigin _
  | SetPlaceholderReadyAttribute | EnqueueMessageEvent => true
  | _ => false
  end.

(** No call of the outcome satisfies [P]. *)
Definition silent {A} (P : HostCall -> bool) (o : Outcome A) : Prop :=
  existsb P (calls_of o) = false.

(** If the function returned, the object it left is related to [s]. *)
Definition keeps {A} (R : Placeholder -> Placeholder -> Prop) (s : Placeholder)
  (o : Outcome A) : Prop :=
  match o with
  | Returns _ s1 _ => R s s1
  | Stops _ _ => True
  end.

(** The members no handler ever writes back: from [s] to [s1] loading stays
    allowed or not as it was, no blocker is set (the poster blocker apart,
    which [advances] adds), power saver is not enabled again, the
    placeholder does not become delayed again, and [finished_loading_] and
    [heuristic_run_before_] are not reset. *)
Definition advances_but_poster (s s1 : Placeholder) : Prop :=
  allow_loading_ s1 = allow_loading_ s /\
  (is_blocked_for_background_tab_ s1 = true ->
   is_blocked_for_background_tab_ s = true) /\
  (is_blocked_for_prerendering_ s1 = true ->
   is_blocked_for_prerendering_ s = true) /\
  (power_saver_enabled_ s1 = true -> power_saver_enabled_ s = true) /\
  (is_delayed_placeholder_ s1 = true -> is_delayed_placeholder_ s = true) /\
  (finished_loading_ s = true -> finished_loading_ s1 = true) /\
  (heuristic_run_before_ s = true -> heuristic_run_before_ s1 = true).

Definition advances (s s1 : Placeholder) : Prop :=
  advances_but_poster s s1 /\
  (is_blocked_for_power_saver_poster_ s1 = true ->
   is_blocked_for_power_saver_poster_ s = true).

(** The members [MarkPluginEssential] and the load leave alone: all but
    [power_saver_enabled_], the poster blocker and [premade_throttler_]. *)
Definition same_outside_gate (s s1 : Placeholder) : Prop :=
  base s1 = base s /\ plugin_info_ s1 = plugin_info_ s /\
  message_ s1 = message_ s /\
  is_delayed_placeholder_ s1 = is_delayed_placeholder_ s /\
  is_blocked_for_background_tab_ s1 = is_blocked_for_background_tab_ s /\
  is_blocked_for_prerendering_ s1 = is_blocked_for_prerendering_ s /\
  allow_loading_ s1 = allow_loading_ s /\
  finished_loading_ s1 = finished_loading_ s /\
  identifier_ s1 = identifier_ s /\
  unobscured_rect_ s1 = unobscured_rect_ s /\
  heuristic_run_before_ s1 = heuristic_run_before_ s.

(** The objects [MarkPluginEssential] can return from [s]. *)
Definition marked_from (s s1 : Placeholder) : Prop :=
  s1 = s \/
  s1 = set_power_saver_enabled_ false s \/
  s1 = set_is_blocked_for_power_saver_poster_ false
         (set_power_saver_enabled_ false s) \/
  s1 = set_premade_throttler_ None
         (set_is_blocked_for_power_saver_poster_ false
            (set_power_saver_enabled_ false s)).

(** The early returns of [OnUnobscuredRectUpdate]: the plugin is gone, the
    placeholder has not finished loading, or the rect is the cached one. *)
Definition ignores (s : Placeholder) (rect : gfx.Rect) : bool :=
  negb (is_some (plugin (base s))) || negb (finished_loading_ s) ||
  gfx.eqb (unobscured_rect_ s) rect.

(** The objects [OnUnobscuredRectUpdate] can return from [s] once it is past
    its early returns. *)
Definition updated_from (rect : gfx.Rect) (s s1 : Placeholder) : Prop :=
  (is_delayed_placeholder_ s = true /\
   s1 = set_is_delayed_placeholder_ false (set_unobscured_rect_ rect s)) \/
  (is_delayed_placeholder_ s = false /\
   is_blocked_for_power_saver_poster_ s = false /\
   s1 = set_unobscured_rect_ rect s) \/
  (is_delayed_placeholder_ s = false /\
   is_blocked_for_power_saver_poster_ s = true /\
   exists s', marked_from (set_unobscured_rect_ rect s) s' /\
              s1 = set_heuristic_run_before_ true s').

(** The calls [ReplacePlugin] can make. *)
Definition swap_call (c : HostCall) : bool :=
  match c with
  | ContainerSetPlugin _ | PluginInitialize _ | PluginDestroy _
  | RestoreTitleText | ContainerInvalidate | ContainerReportGeometry
  | ReplayReceivedData _ => true
  | _ => false
  end.

(** The calls [LoadPlugin] can make. *)
Definition load_call (c : HostCall) : bool := starts_load c || swap_call c.

(** The guards of [LoadPlugin] let a load through. *)
Definition may_load (s : Placeholder) : bool :=
  allow_loading_ s && negb (hidden (base s)) && is_some (plugin (base s)).

(** The operations that never report how the plugin was unthrottled: all
    but [MarkPluginEssential], its two callers and [PluginDestroyed]. *)
Definition reports_nothing (op : Operation) : bool :=
  match op with
  | OpMarkPluginEssential _ | OpPluginDestroyed | OpOnUnobscuredRectUpdate _
  | OpLoadCallback => false
  | _ => true
  end.

(** The number of reports among the calls of an outcome. *)
Definition reports {A} (o : Outcome A) : nat :=
  List.length (filter is_report (calls_of o)).

(** The outcome is not a null dereference. *)
Definition no_null_dereference {A} (o : Outcome A) : Prop :=
  match o with
  | Stops NullDereference _ => False
  | _ => True
  end.

(** A sequence of operations, one after the other; a failure ends it. *)
Fixpoint perform_all (b : Build) (h : Host) (ops : list Operation) : M unit :=
  match ops with
  | [] => done
  | op :: rest => perform b h op ;; perform_all b h rest
  end.

(** ** A sample page *)

Module Sample.

Definition placeholder_plugin : WebPlugin := 1%nat.
Definition flash_plugin : WebPlugin := 2%nat.
Definition throttled_plugin : WebPlugin := 3%nat.

Definition throttler : PluginInstanceThrottler :=
  {| throttler_id := 7; GetWebPlugin := Some throttled_plugin |}.

(** A host with zoom factor 1 that classifies content of at least 400x300
    as large cross-origin content, anything smaller as peripheral, and in
    which creating and initializing plugins succeeds. *)
Definition host : Host :=
  {| content_origin := "http://video.example"%string;
     top_origin := "http://news.example"%string;
     plugin_container := true;
     unzoom := fun v => v;
     peripheral_content_status := fun _ _ w h =>
       if ((400 <=? w) && (300 <=? h))%Z
       then CONTENT_STATUS_ESSENTIAL_CROSS_ORIGIN_BIG
       else CONTENT_STATUS_PERIPHERAL;
     created_plugin := Some flash_plugin;
     plugin_container_at_swap := true;
     initialize := fun _ => true;
     new_plugin_container := fun _ => true;
     element_plugin_container := true;
     container_plugin := Some flash_plugin;
     base_PluginDestroyed := fun b => {| plugin := None; hidden := hidden b |} |}.

(** The same page when the new plugin fails to initialize. *)
Definition host_init_fails (container_survives : bool) : Host :=
  {| content_origin := content_origin host;
     top_origin := top_origin host;
     plugin_container := true;
     unzoom := unzoom host;
     peripheral_content_status := peripheral_content_status host;
     created_plugin := Some flash_plugin;
     plugin_container_at_swap := true;
     initialize := fun _ => false;
     new_plugin_container := fun _ => container_survives;
     element_plugin_container := container_survives;
     container_plugin := Some flash_plugin;
     base_PluginDestroyed := base_PluginDestroyed host |}.

(** The same page once the container is gone. *)
Definition host_no_container : Host :=
  {| content_origin := content_origin host;
     top_origin := top_origin host;
     plugin_container := false;
     unzoom := unzoom host;
     peripheral_content_status := peripheral_content_status host;
     created_plugin := Some flash_plugin;
     plugin_container_at_swap := false;
     initialize := initialize host;
     new_plugin_container := fun _ => false;
     element_plugin_container := false;
     container_plugin := None;
     base_PluginDestroyed := base_PluginDestroyed host |}.

(** A freshly constructed placeholder that was then allowed to load. *)
Definition fresh : Placeholder :=
  set_allow_loading_ true
    (construct {| plugin := Some placeholder_plugin; hidden := false |}).

Definition big : gfx.Rect :=
  {| gfx.x := 0; gfx.y := 0; gfx.width := 800; gfx.height := 600 |}.

Definition small : gfx.Rect :=
  {| gfx.x := 0; gfx.y := 0; gfx.width := 10; gfx.height := 10 |}.

(** The placeholder of a plugin in a background tab. *)
Definition in_background : Placeholder :=
  set_is_blocked_for_background_tab_ true fresh.

(** The placeholder of a prerendered page. *)
Definition prerendered : Placeholder :=
  set_is_blocked_for_prerendering_ true fresh.

(** A power-saver poster: throttling is on and the poster blocks loading. *)
Definition poster : Placeholder :=
  set_is_blocked_for_power_saver_poster_ true
    (set_power_saver_enabled_ true fresh).

(** The poster once its own page has finished loading. *)
Definition poster_loaded : Placeholder := set_finished_loading_ true poster.

(** A poster in a background tab. *)
Definition in_background_poster : Placeholder :=
  set_is_blocked_for_background_tab_ true poster.

Definition poster_loaded_with_message : Placeholder :=
  set_finished_loading_ true (set_message_ "Click to run" poster).

(** A poster backed by a premade, throttled plugin, in a background tab. *)
Definition throttled_in_background : Placeholder :=
  set_premade_throttler_ (Some throttler) in_background_poster.

(** The same poster in the foreground. *)
Definition throttled_poster : Placeholder :=
  set_premade_throttler_ (Some throttler) poster.

(** A placeholder without blockers whose page has finished loading. *)
Definition loaded : Placeholder := set_finished_loading_ true fresh.

(** The loaded poster after a first size update that found it peripheral. *)
Definition poster_seen : Placeholder :=
  set_heuristic_run_before_ true (set_unobscured_rect_ small poster_loaded).

(** A placeholder whose own plugin has been destroyed. *)
Definition torn_down : Placeholder :=
  set_base {| plugin := None; hidden := false |} poster_loaded.

(** A host whose embedder creates no plugin. *)
Definition host_creates_nothing : Host :=
  {| content_origin := content_origin host;
     top_origin := top_origin host;
     plugin_container := true;
     unzoom := unzoom host;
     peripheral_content_status := peripheral_content_status host;
     created_plugin := None;
     plugin_container_at_swap := true;
     initialize := initialize host;
     new_plugin_container := new_plugin_container host;
     element_plugin_container := true;
     container_plugin := None;
     base_PluginDestroyed := base_PluginDestroyed host |}.

(** A throttler that has no plugin (yet). *)
Definition empty_throttler : PluginInstanceThrottler :=
  {| throttler_id := 8; GetWebPlugin := None |}.

Definition empty_throttler_poster : Placeholder :=
  set_premade_throttler_ (Some empty_throttler) poster.

(** A poster that was closed by the user. *)
Definition hidden_poster : Placeholder :=
  set_base {| plugin := Some placeholder_plugin; hidden := true |} poster_loaded.

(** A placeholder blocked for the poster on which power saver was never
    enabled: [BlockForPowerSaverPoster] on a fresh one. *)
Definition poster_without_power_saver : Placeholder :=
  set_is_blocked_for_power_saver_poster_ true fresh.

Definition poster_without_power_saver_loaded : Placeholder :=
  set_finished_loading_ true poster_without_power_saver.


End Sample.

(** ** General facts *)

Lemma gfx_eqb_eq (a b : gfx.Rect) : gfx.eqb a b = true <-> a = b.
Proof.
  destruct a as [xa ya wa ha], b as [xb yb wb hb]; unfold gfx.eqb; simpl.
  rewrite !andb_true_iff, !Z.eqb_eq. split.
  - intros [[[-> ->] ->] ->]. reflexivity.
  - intros E. injection E as -> -> -> ->. auto.
Qed.

Lemma gfx_eqb_refl (a : gfx.Rect) : gfx.eqb a a = true.
Proof. apply gfx_eqb_eq. reflexivity. Qed.

Lemma after_nil {A} (o : Outcome A) : after [] o = o.
Proof. destruct o; reflexivity. Qed.

Lemma after_after {A} (c1 c2 : list HostCall) (o : Outcome A) :
  after c1 (after c2 o) = after (c1 ++ c2) o.
Proof. destruct o; simpl; rewrite app_assoc; reflexivity. Qed.

Lemma calls_of_after {A} (c : list HostCall) (o : Outcome A) :
  calls_of (after c o) = c ++ calls_of o.
Proof. destruct o; reflexivity. Qed.

(** How [bind] runs the primitive steps. *)
Lemma bind_ret {A B} (a : A) (k : A -> M B) (s : Placeholder) :
  bind (ret a) k s = k a s.
Proof. unfold bind, ret. destruct (k a s); reflexivity. Qed.

Lemma bind_done {B} (k : unit -> M B) (s : Placeholder) :
  bind done k s = k tt s.
Proof. apply bind_ret. Qed.

Lemma bind_get {B} (k : Placeholder -> M B) (s : Placeholder) :
  bind get k s = k s s.
Proof. unfold bind, get. destruct (k s s); reflexivity. Qed.

Lemma bind_modify {B} (f : Placeholder -> Placeholder) (k : unit -> M B)
  (s : Placeholder) :
  bind (modify f) k s = k tt (f s).
Proof. unfold bind, modify. destruct (k tt (f s)); reflexivity. Qed.

Lemma bind_call {B} (c : HostCall) (k : unit -> M B) (s : Placeholder) :
  bind (call c) k s = after [c] (k tt s).
Proof. reflexivity. Qed.

Lemma bind_stop {A B} (f : Failure) (k : A -> M B) (s : Placeholder) :
  bind (stop f) k s = Stops f [].
Proof. reflexivity. Qed.

Lemma bind_bind {A B C} (m : M A) (k : A -> M B) (k' : B -> M C)
  (s : Placeholder) :
  bind (bind m k) k' s = bind m (fun a => bind (k a) k') s.
Proof.
  unfold bind. destruct (m s) as [a s1 c1|f c1]; [|reflexivity].
  destruct (k a s1) as [x s2 c2|f c2]; [|reflexivity].
  destruct (k' x s2); rewrite app_assoc; reflexivity.
Qed.

Lemma bind_returns {A B} (m : M A) (k : A -> M B) (s s1 : Placeholder)
  (a : A) (c : list HostCall) :
  m s = Returns a s1 c -> bind m k s = after c (k a s1).
Proof. intros E. unfold bind. rewrite E. reflexivity. Qed.

Lemma bind_stops {A B} (m : M A) (k : A -> M B) (s : Placeholder)
  (f : Failure) (c : list HostCall) :
  m s = Stops f c -> bind m k s = Stops f c.
Proof. intros E. unfold bind. rewrite E. reflexivity. Qed.

(** ** General facts about the member functions *)

Lemma calls_of_bind {A B} (m : M A) (k : A -> M B) (s : Placeholder) :
  calls_of (bind m k s) =
  match m s with
  | Returns a s1 c1 => c1 ++ calls_of (k a s1)
  | Stops _ c1 => c1
  end.
Proof.
  unfold bind. destruct (m s) as [a s1 c1|f c1]; [|reflexivity].
  destruct (k a s1); reflexivity.
Qed.

(** With the placeholder's plugin alive, [ReplacePlugin] always returns, it
    leaves the members as they are, and it neither starts a load nor goes
    through the throttler. *)
Lemma ReplacePlugin_returns (h : Host) (np : option WebPlugin)
  (s : Placeholder) (p : WebPlugin) :
  plugin (base s) = Some p ->
  exists c, ReplacePlugin h np s = Returns tt s c /\
            existsb starts_load c = false /\
            existsb through_throttler c = false.
Proof.
  intros Hp. unfold ReplacePlugin, bind, get. rewrite Hp.
  destruct np as [n|]; [|eexists; repeat split; reflexivity].
  destruct (plugin_container_at_swap h); simpl;
    [|eexists; repeat split; reflexivity].
  destruct (plugin_needs_initialization s n); simpl.
  - destruct (initialize h n); simpl.
    + destruct (element_plugin_container h); simpl;
        eexists; repeat split; reflexivity.
    + destruct (new_plugin_container h n); simpl;
        eexists; repeat split; reflexivity.
  - destruct (element_plugin_container h); simpl;
      eexists; repeat split; reflexivity.
Qed.

(** What [LoadPlugin] does, guard by guard. *)
Lemma LoadPlugin_hidden (b : Build) (h : Host) (s : Placeholder) :
  hidden (base s) = true -> LoadPlugin b h s = Returns tt s [].
Proof. intros H. unfold LoadPlugin, bind, get. rewrite H. reflexivity. Qed.

Lemma LoadPlugin_no_plugin (b : Build) (h : Host) (s : Placeholder) :
  plugin (base s) = None -> LoadPlugin b h s = Returns tt s [].
Proof.
  intros H. unfold LoadPlugin, bind, get. rewrite H.
  destruct (hidden (base s)); reflexivity.
Qed.

Lemma LoadPlugin_not_allowed (b : Build) (h : Host) (s : Placeholder) (p : WebPlugin) :
  hidden (base s) = false -> plugin (base s) = Some p ->
  allow_loading_ s = false ->
  LoadPlugin b h s =
  match b with
  | DcheckOn => Stops NotReached []
  | DcheckOff => Returns tt s []
  end.
Proof.
  intros H1 H2 H3. unfold LoadPlugin, bind, get. rewrite H1, H2, H3.
  destruct b; reflexivity.
Qed.

Lemma LoadPlugin_premade (b : Build) (h : Host) (s : Placeholder)
  (p : WebPlugin) (t : PluginInstanceThrottler) :
  hidden (base s) = false -> plugin (base s) = Some p ->
  allow_loading_ s = true -> premade_throttler_ s = Some t ->
  exists c,
    ReplacePlugin h (GetWebPlugin t) s = Returns tt s c /\
    LoadPlugin b h s =
    Returns tt (set_premade_throttler_ None s)
            (SetHiddenForPlaceholder t false :: c).
Proof.
  intros H1 H2 H3 H4.
  destruct (ReplacePlugin_returns h (GetWebPlugin t) s p H2) as (c & Hc & _).
  exists c. split; [exact Hc|].
  unfold LoadPlugin, bind, get, call, modify. rewrite H1, H2, H3, H4. simpl.
  rewrite Hc. simpl. rewrite app_nil_r. reflexivity.
Qed.

Lemma LoadPlugin_create (b : Build) (h : Host) (s : Placeholder) (p : WebPlugin) :
  hidden (base s) = false -> plugin (base s) = Some p ->
  allow_loading_ s = true -> premade_throttler_ s = None ->
  exists c,
    ReplacePlugin h (created_plugin h) s = Returns tt s c /\
    LoadPlugin b h s = Returns tt s (CreatePlugin :: c).
Proof.
  intros H1 H2 H3 H4.
  destruct (ReplacePlugin_returns h (created_plugin h) s p H2) as (c & Hc & _).
  exists c. split; [exact Hc|].
  unfold LoadPlugin, bind, get, call. rewrite H1, H2, H3, H4. simpl.
  rewrite Hc. reflexivity.
Qed.

Lemma LoadPlugin_fires (b : Build) (h : Host) (s : Placeholder) :
  load_fires (LoadPlugin b h s) =
  negb (hidden (base s)) && is_some (plugin (base s)) && allow_loading_ s.
Proof.
  destruct (hidden (base s)) eqn:H1.
  { rewrite LoadPlugin_hidden by assumption. reflexivity. }
  destruct (plugin (base s)) as [p|] eqn:H2.
  2:{ rewrite LoadPlugin_no_plugin by assumption. reflexivity. }
  destruct (allow_loading_ s) eqn:H3.
  2:{ rewrite (LoadPlugin_not_allowed b h s p H1 H2 H3). destruct b; reflexivity. }
  destruct (premade_throttler_ s) as [t|] eqn:H4.
  - destruct (LoadPlugin_premade b h s p t H1 H2 H3 H4) as (c & _ & ->). reflexivity.
  - destruct (LoadPlugin_create b h s p H1 H2 H3 H4) as (c & _ & ->). reflexivity.
Qed.

Lemma LoadPlugin_fatal (b : Build) (h : Host) (s : Placeholder) :
  is_fatal (LoadPlugin b h s) =
  match b with
  | DcheckOn =>
      negb (hidden (base s)) && is_some (plugin (base s)) &&
      negb (allow_loading_ s)
  | DcheckOff => false
  end.
Proof.
  destruct (hidden (base s)) eqn:H1.
  { rewrite LoadPlugin_hidden by assumption. destruct b; reflexivity. }
  destruct (plugin (base s)) as [p|] eqn:H2.
  2:{ rewrite LoadPlugin_no_plugin by assumption. destruct b; reflexivity. }
  destruct (allow_loading_ s) eqn:H3.
  2:{ rewrite (LoadPlugin_not_allowed b h s p H1 H2 H3). destruct b; reflexivity. }
  destruct (premade_throttler_ s) as [t|] eqn:H4.
  - destruct (LoadPlugin_premade b h s p t H1 H2 H3 H4) as (c & _ & ->).
    destruct b; reflexivity.
  - destruct (LoadPlugin_create b h s p H1 H2 H3 H4) as (c & _ & ->).
    destruct b; reflexivity.
Qed.

(** ** Running the handlers symbolically *)

Ltac run_step :=
  first [ rewrite bind_bind | rewrite bind_get | rewrite bind_modify
        | rewrite bind_call | rewrite bind_done | rewrite bind_ret
        | rewrite bind_stop | rewrite after_after | rewrite after_nil ].

Ltac run := repeat (run_step; cbv beta).

Lemma DCHECK_true (b : Build) : DCHECK b true = done.
Proof. destruct b; reflexivity. Qed.

Lemma DCHECK_off (c : bool) : DCHECK DcheckOff c = done.
Proof. reflexivity. Qed.

Lemma DCHECK_on_false : DCHECK DcheckOn false = stop DcheckFailed.
Proof. reflexivity. Qed.

Lemma load_fires_after {A} (c : list HostCall) (o : Outcome A) :
  load_fires (after c o) = existsb starts_load c || load_fires o.
Proof. unfold load_fires. rewrite calls_of_after. apply existsb_app. Qed.

Lemma LoadingBlocked_allowed (b : Build) (s : Placeholder) :
  allow_loading_ s = true ->
  LoadingBlocked b s = Returns (negb (no_blocker s)) s [].
Proof.
  intros Ha. unfold LoadingBlocked, no_blocker. run. rewrite Ha, DCHECK_true.
  run. rewrite negb_involutive. reflexivity.
Qed.

Lemma load_unless_blocked_allowed (b : Build) (h : Host) (s : Placeholder) :
  allow_loading_ s = true ->
  load_unless_blocked b h s =
  if no_blocker s then LoadPlugin b h s else Returns tt s [].
Proof.
  intros Ha. unfold load_unless_blocked.
  rewrite (bind_returns _ _ _ _ _ _ (LoadingBlocked_allowed b s Ha)), after_nil.
  destruct (no_blocker s); reflexivity.
Qed.

Lemma load_unless_blocked_fires (b : Build) (h : Host) (s : Placeholder) :
  allow_loading_ s = true ->
  load_fires (load_unless_blocked b h s) =
  no_blocker s && negb (hidden (base s)) && is_some (plugin (base s)).
Proof.
  intros Ha. rewrite load_unless_blocked_allowed by assumption.
  destruct (no_blocker s); [|reflexivity].
  rewrite LoadPlugin_fires, Ha, andb_true_r. reflexivity.
Qed.

Lemma WasShown_blocked (b : Build) (h : Host) (s : Placeholder) :
  is_blocked_for_background_tab_ s = true ->
  WasShown b h s =
  load_unless_blocked b h (set_is_blocked_for_background_tab_ false s).
Proof.
  intros Hb. unfold WasShown. run. rewrite Hb. run. reflexivity.
Qed.

Lemma WasShown_not_blocked (b : Build) (h : Host) (s : Placeholder) :
  is_blocked_for_background_tab_ s = false -> WasShown b h s = Returns tt s [].
Proof. intros Hb. unfold WasShown. run. rewrite Hb. reflexivity. Qed.

Lemma OnSetIsPrerendering_blocked (b : Build) (h : Host) (s : Placeholder) :
  is_blocked_for_prerendering_ s = true ->
  OnSetIsPrerendering b h false s =
  load_unless_blocked b h (set_is_blocked_for_prerendering_ false s).
Proof.
  intros Hb. unfold OnSetIsPrerendering. simpl negb. rewrite DCHECK_true.
  run. rewrite Hb. run. reflexivity.
Qed.

Lemma OnSetIsPrerendering_not_blocked (b : Build) (h : Host) (s : Placeholder) :
  is_blocked_for_prerendering_ s = false ->
  OnSetIsPrerendering b h false s = Returns tt s [].
Proof.
  intros Hb. unfold OnSetIsPrerendering. simpl negb. rewrite DCHECK_true.
  run. rewrite Hb. reflexivity.
Qed.

Lemma MarkPluginEssential_disabled (b : Build) (h : Host)
  (m : PowerSaverUnthrottleMethod) (s : Placeholder) :
  power_saver_enabled_ s = false ->
  MarkPluginEssential b h m s = Returns tt s [].
Proof.
  intros Hp. unfold MarkPluginEssential. run. rewrite Hp. reflexivity.
Qed.

Lemma MarkPluginEssential_enabled (b : Build) (h : Host)
  (m : PowerSaverUnthrottleMethod) (s : Placeholder) :
  power_saver_enabled_ s = true ->
  MarkPluginEssential b h m s =
  after (essential_report s m)
    (if is_blocked_for_power_saver_poster_ s
     then load_unless_blocked b h
            (set_is_blocked_for_power_saver_poster_ false
               (set_power_saver_enabled_ false s))
     else Returns tt (set_power_saver_enabled_ false s) []).
Proof.
  intros Hp. unfold MarkPluginEssential, essential_report. run.
  rewrite Hp. cbn [negb]. run.
  fold (load_unless_blocked b h).
  destruct (premade_throttler_ s) as [t|]; [|destruct (is_DO_NOT_RECORD m)];
    cbn [negb]; run;
    destruct (is_blocked_for_power_saver_poster_ s); run; reflexivity.
Qed.

(** ** The load gate *)

Lemma essential_report_no_load (s : Placeholder) (m : PowerSaverUnthrottleMethod) :
  existsb starts_load (essential_report s m) = false.
Proof.
  unfold essential_report.
  destruct (premade_throttler_ s); [reflexivity|].
  destruct (is_DO_NOT_RECORD m); reflexivity.
Qed.

(** C1, as stated, fails.  A placeholder still blocked for the background
    tab, allowed to load, visible and with its plugin alive: [LoadPlugin]
    asks the embedder for the plugin and swaps it in, so the load fires
    although the set of blockers is not empty. *)
Lemma LoadPlugin_ignores_blockers_counterexample :
  no_blocker Sample.in_background = false /\
  LoadPlugin DcheckOn Sample.host Sample.in_background =
    Returns tt Sample.in_background
      [CreatePlugin; ContainerSetPlugin Sample.flash_plugin;
       PluginInitialize Sample.flash_plugin; RestoreTitleText;
       ContainerInvalidate; ContainerReportGeometry;
       ReplayReceivedData (Some Sample.flash_plugin);
       PluginDestroy Sample.placeholder_plugin] /\
  ~ (load_fires (LoadPlugin DcheckOn Sample.host Sample.in_background) = true <->
     no_blocker Sample.in_background = true /\
     allow_loading_ Sample.in_background = true /\
     hidden (base Sample.in_background) = false /\
     plugin (base Sample.in_background) <> None).
Proof.
  split; [reflexivity|]. split; [reflexivity|].
  intros [H _]. destruct (H eq_refl) as [E _]. discriminate E.
Qed.

(** C1, amended.  [LoadPlugin] does not look at the blockers: the load fires
    exactly when loading is allowed, the placeholder is not hidden and its
    plugin is alive; it is fatal exactly in a build with [DCHECK]s on, when
    the placeholder is not hidden, its plugin is alive and loading is not yet
    allowed; in every other case it returns having changed and called
    nothing.  The blockers are looked at by the handlers that clear one.
    With loading allowed, [WasShown] and [OnSetIsPrerendering(false)], when
    their own blocker is set, fire the load exactly when no other blocker is
    set, the placeholder is not hidden and its plugin is alive;
    [MarkPluginEssential], when the poster blocker is set, fires it exactly
    when, in addition, power saver is still enabled: with power saver off it
    returns at once and the poster blocker stays. *)
Theorem LoadPlugin_gate (b : Build) (h : Host) (s : Placeholder) :
  load_fires (LoadPlugin b h s) =
    allow_loading_ s && negb (hidden (base s)) && is_some (plugin (base s))
  /\ is_fatal (LoadPlugin b h s) =
       match b with
       | DcheckOn =>
           negb (allow_loading_ s) && negb (hidden (base s)) &&
           is_some (plugin (base s))
       | DcheckOff => false
       end
  /\ (load_fires (LoadPlugin b h s) = false ->
      is_fatal (LoadPlugin b h s) = false ->
      LoadPlugin b h s = Returns tt s [])
  /\ (allow_loading_ s = true ->
      is_blocked_for_background_tab_ s = true ->
      load_fires (WasShown b h s) =
        negb (is_blocked_for_power_saver_poster_ s) &&
        negb (is_blocked_for_prerendering_ s) &&
        negb (hidden (base s)) && is_some (plugin (base s)))
  /\ (allow_loading_ s = true ->
      is_blocked_for_prerendering_ s = true ->
      load_fires (OnSetIsPrerendering b h false s) =
        negb (is_blocked_for_background_tab_ s) &&
        negb (is_blocked_for_power_saver_poster_ s) &&
        negb (hidden (base s)) && is_some (plugin (base s)))
  /\ (allow_loading_ s = true ->
      is_blocked_for_power_saver_poster_ s = true ->
      forall m,
        load_fires (MarkPluginEssential b h m s) =
          power_saver_enabled_ s &&
          negb (is_blocked_for_background_tab_ s) &&
          negb (is_blocked_for_prerendering_ s) &&
          negb (hidden (base s)) && is_some (plugin (base s))).
Proof.
  assert (F := LoadPlugin_fires b h s).
  assert (G := LoadPlugin_fatal b h s).
  split; [|split; [|split; [|split; [|split]]]].
  - rewrite F. clear F G.
    destruct (allow_loading_ s), (hidden (base s)), (plugin (base s));
      reflexivity.
  - rewrite G. clear F G. destruct b; [|reflexivity].
    destruct (allow_loading_ s), (hidden (base s)), (plugin (base s));
      reflexivity.
  - intros Hf Hg. rewrite F in Hf. rewrite G in Hg.
    destruct (hidden (base s)) eqn:H1.
    { apply LoadPlugin_hidden; assumption. }
    destruct (plugin (base s)) as [p|] eqn:H2.
    2:{ apply LoadPlugin_no_plugin; assumption. }
    destruct (allow_loading_ s) eqn:H3; [discriminate Hf|].
    rewrite (LoadPlugin_not_allowed b h s p H1 H2 H3).
    destruct b; [discriminate Hg|reflexivity].
  - intros Ha Hb. rewrite WasShown_blocked by assumption.
    rewrite load_unless_blocked_fires by exact Ha.
    unfold no_blocker. simpl.
    destruct (is_blocked_for_power_saver_poster_ s),
      (is_blocked_for_prerendering_ s); reflexivity.
  - intros Ha Hb. rewrite OnSetIsPrerendering_blocked by assumption.
    rewrite load_unless_blocked_fires by exact Ha.
    unfold no_blocker. simpl.
    destruct (is_blocked_for_background_tab_ s),
      (is_blocked_for_power_saver_poster_ s); reflexivity.
  - intros Ha Hb m. destruct (power_saver_enabled_ s) eqn:Hp.
    + rewrite MarkPluginEssential_enabled by assumption.
      rewrite Hb, load_fires_after, essential_report_no_load.
      rewrite load_unless_blocked_fires by exact Ha.
      unfold no_blocker. simpl.
      destruct (is_blocked_for_background_tab_ s),
        (is_blocked_for_prerendering_ s); reflexivity.
    + rewrite MarkPluginEssential_disabled by assumption. reflexivity.
Qed.

Lemma LoadPlugin_gate_witness :
  load_fires (LoadPlugin DcheckOn Sample.host Sample.prerendered) = true /\
  load_fires (WasShown DcheckOn Sample.host Sample.in_background) = true /\
  load_fires (OnSetIsPrerendering DcheckOn Sample.host false Sample.prerendered) = true /\
  load_fires (MarkPluginEssential DcheckOn Sample.host UNTHROTTLE_METHOD_BY_CLICK
                Sample.poster) = true /\
  load_fires (MarkPluginEssential DcheckOn Sample.host UNTHROTTLE_METHOD_BY_CLICK
                Sample.poster_without_power_saver) = false.
Proof.
  destruct (LoadPlugin_gate DcheckOn Sample.host
              Sample.poster_without_power_saver)
    as (_ & _ & _ & _ & _ & E').
  destruct (LoadPlugin_gate DcheckOn Sample.host Sample.prerendered)
    as (F & _ & _ & _ & P & _).
  destruct (LoadPlugin_gate DcheckOn Sample.host Sample.in_background)
    as (_ & _ & _ & W & _).
  destruct (LoadPlugin_gate DcheckOn Sample.host Sample.poster)
    as (_ & _ & _ & _ & _ & E).
  split; [rewrite F; reflexivity|].
  split; [rewrite (W eq_refl eq_refl); reflexivity|].
  split; [rewrite (P eq_refl eq_refl); reflexivity|].
  split; [rewrite (E eq_refl eq_refl UNTHROTTLE_METHOD_BY_CLICK); reflexivity|].
  rewrite (E' eq_refl eq_refl UNTHROTTLE_METHOD_BY_CLICK). reflexivity.
Defined.

(** ** What the load can do to the object *)

Lemma LoadingBlocked_cases (b : Build) (s : Placeholder) :
  LoadingBlocked b s = Returns (negb (no_blocker s)) s [] \/
  LoadingBlocked b s = Stops DcheckFailed [].
Proof.
  unfold LoadingBlocked, no_blocker. run. rewrite negb_involutive.
  destruct b, (allow_loading_ s); simpl DCHECK; run; auto.
Qed.

Lemma LoadPlugin_cases (b : Build) (h : Host) (s : Placeholder) :
  (exists c, LoadPlugin b h s = Returns tt s c) \/
  (exists c, LoadPlugin b h s = Returns tt (set_premade_throttler_ None s) c) \/
  LoadPlugin b h s = Stops NotReached [].
Proof.
  destruct (hidden (base s)) eqn:H1.
  { left. exists []. apply LoadPlugin_hidden; assumption. }
  destruct (plugin (base s)) as [p|] eqn:H2.
  2:{ left. exists []. apply LoadPlugin_no_plugin; assumption. }
  destruct (allow_loading_ s) eqn:H3.
  2:{ rewrite (LoadPlugin_not_allowed b h s p H1 H2 H3).
      destruct b; [right; right; reflexivity|left; exists []; reflexivity]. }
  destruct (premade_throttler_ s) as [t|] eqn:H4.
  - destruct (LoadPlugin_premade b h s p t H1 H2 H3 H4) as (c & _ & ->).
    right; left. eexists; reflexivity.
  - destruct (LoadPlugin_create b h s p H1 H2 H3 H4) as (c & _ & ->).
    left. eexists; reflexivity.
Qed.

Lemma load_unless_blocked_cases (b : Build) (h : Host) (s : Placeholder) :
  (exists c, load_unless_blocked b h s = Returns tt s c) \/
  (exists c, load_unless_blocked b h s =
             Returns tt (set_premade_throttler_ None s) c) \/
  (exists f, load_unless_blocked b h s = Stops f []).
Proof.
  unfold load_unless_blocked.
  destruct (LoadingBlocked_cases b s) as [E|E].
  - rewrite (bind_returns _ _ _ _ _ _ E), after_nil.
    destruct (negb (no_blocker s)).
    + left. exists []. reflexivity.
    + destruct (LoadPlugin_cases b h s) as [[c ->]|[[c ->]| ->]]; eauto.
  - rewrite (bind_stops _ _ _ _ _ E). eauto.
Qed.

(** [MarkPluginEssential] always leaves power saver disabled. *)
Lemma MarkPluginEssential_returns_disabled (b : Build) (h : Host)
  (m : PowerSaverUnthrottleMethod) (s s1 : Placeholder) (c : list HostCall) :
  MarkPluginEssential b h m s = Returns tt s1 c ->
  power_saver_enabled_ s1 = false.
Proof.
  destruct (power_saver_enabled_ s) eqn:Hp.
  - rewrite MarkPluginEssential_enabled by assumption.
    destruct (is_blocked_for_power_saver_poster_ s).
    + destruct (load_unless_blocked_cases b h
                  (set_is_blocked_for_power_saver_poster_ false
                     (set_power_saver_enabled_ false s)))
        as [[c' ->]|[[c' ->]|[f ->]]]; simpl; intros E;
        [injection E as <- _|injection E as <- _|discriminate E]; reflexivity.
    + simpl. intros E. injection E as <- _. reflexivity.
  - rewrite MarkPluginEssential_disabled by assumption.
    intros E. injection E as <- _. assumption.
Qed.

(** [MarkPluginEssential] never touches [heuristic_run_before_]. *)
Lemma MarkPluginEssential_heuristic (b : Build) (h : Host)
  (m : PowerSaverUnthrottleMethod) (s s1 : Placeholder) (c : list HostCall) :
  MarkPluginEssential b h m s = Returns tt s1 c ->
  heuristic_run_before_ s1 = heuristic_run_before_ s.
Proof.
  destruct (power_saver_enabled_ s) eqn:Hp.
  - rewrite MarkPluginEssential_enabled by assumption.
    destruct (is_blocked_for_power_saver_poster_ s).
    + destruct (load_unless_blocked_cases b h
                  (set_is_blocked_for_power_saver_poster_ false
                     (set_power_saver_enabled_ false s)))
        as [[c' ->]|[[c' ->]|[f ->]]]; simpl; intros E;
        [injection E as <- _|injection E as <- _|discriminate E]; reflexivity.
    + simpl. intros E. injection E as <- _. reflexivity.
  - rewrite MarkPluginEssential_disabled by assumption.
    intros E. injection E as <- _. reflexivity.
Qed.

(** With loading allowed, [MarkPluginEssential] returns. *)
Lemma MarkPluginEssential_returns (b : Build) (h : Host)
  (m : PowerSaverUnthrottleMethod) (s : Placeholder) :
  allow_loading_ s = true ->
  exists s1 c, MarkPluginEssential b h m s = Returns tt s1 c.
Proof.
  intros Ha. destruct (power_saver_enabled_ s) eqn:Hp.
  - rewrite MarkPluginEssential_enabled by assumption.
    destruct (is_blocked_for_power_saver_poster_ s).
    + rewrite load_unless_blocked_allowed by exact Ha.
      destruct (no_blocker _); [|simpl; eauto].
      match goal with |- context [LoadPlugin b h ?s'] =>
        destruct (LoadPlugin_cases b h s') as [[c' E]|[[c' E]|E]];
        [rewrite E; simpl; eauto|rewrite E; simpl; eauto|];
        assert (G := LoadPlugin_fatal b h s'); rewrite E in G
      end.
      simpl in G. rewrite Ha in G. simpl in G. rewrite andb_false_r in G.
      destruct b; discriminate G.
    + simpl. eauto.
  - rewrite MarkPluginEssential_disabled by assumption. eauto.
Qed.

(** ** The constructor *)

(** C2.  Whatever premade plugin is handed to the placeholder, the flag stays
    false: the constructor reads [premade_throttler_] right after setting it
    to null, and [SetPremadePlugin], the only way to supply the plugin, does
    not touch the flag. *)
Theorem heuristic_run_before_never_seeded (b : Build)
  (pb : PluginPlaceholderBase) (t : PluginInstanceThrottler) :
  heuristic_run_before_ (construct pb) = false /\
  exists s, SetPremadePlugin b (Some t) (construct pb) = Returns tt s [] /\
            premade_throttler_ s = Some t /\
            heuristic_run_before_ s = false.
Proof.
  split; [reflexivity|].
  exists (set_premade_throttler_ (Some t) (construct pb)).
  split; [|split; reflexivity].
  unfold SetPremadePlugin. run. simpl. rewrite !DCHECK_true. run. reflexivity.
Qed.

(** ** Marking the plugin essential *)

(** C6.  With power saver already disabled, [MarkPluginEssential] returns at
    once: no call into the host (no metric, nothing through the throttler, no
    load) and no member changed.  Every call that returns leaves power saver
    disabled, so a call that follows it is such a no-op. *)
Theorem MarkPluginEssential_once (b : Build) (h : Host)
  (m m' : PowerSaverUnthrottleMethod) (s : Placeholder) :
  (power_saver_enabled_ s = false ->
   MarkPluginEssential b h m s = Returns tt s []) /\
  (forall s1 c, MarkPluginEssential b h m s = Returns tt s1 c ->
                MarkPluginEssential b h m' s1 = Returns tt s1 []) /\
  (allow_loading_ s = true ->
   exists s1 c, MarkPluginEssential b h m s = Returns tt s1 c /\
                calls_of (bind (MarkPluginEssential b h m)
                               (fun _ => MarkPluginEssential b h m') s) = c).
Proof.
  split; [apply MarkPluginEssential_disabled|]. split.
  - intros s1 c E. apply MarkPluginEssential_disabled.
    exact (MarkPluginEssential_returns_disabled b h m s s1 c E).
  - intros Ha. destruct (MarkPluginEssential_returns b h m s Ha) as (s1 & c & E).
    exists s1, c. split; [exact E|].
    rewrite (bind_returns _ _ _ _ _ _ E), calls_of_after.
    rewrite MarkPluginEssential_disabled
      by exact (MarkPluginEssential_returns_disabled b h m s s1 c E).
    apply app_nil_r.
Qed.

Lemma MarkPluginEssential_once_witness :
  MarkPluginEssential DcheckOn Sample.host UNTHROTTLE_METHOD_BY_CLICK Sample.fresh
    = Returns tt Sample.fresh [] /\
  exists s1,
    MarkPluginEssential DcheckOn Sample.host UNTHROTTLE_METHOD_BY_CLICK
      Sample.in_background_poster
    = Returns tt s1 [RecordUnthrottleMethodMetric UNTHROTTLE_METHOD_BY_CLICK] /\
    MarkPluginEssential DcheckOn Sample.host UNTHROTTLE_METHOD_BY_SIZE_CHANGE s1
    = Returns tt s1 [].
Proof.
  destruct (MarkPluginEssential_once DcheckOn Sample.host
              UNTHROTTLE_METHOD_BY_CLICK UNTHROTTLE_METHOD_BY_CLICK Sample.fresh)
    as (Hnoop & _ & _).
  destruct (MarkPluginEssential_once DcheckOn Sample.host
              UNTHROTTLE_METHOD_BY_CLICK UNTHROTTLE_METHOD_BY_SIZE_CHANGE
              Sample.in_background_poster)
    as (_ & Hagain & _).
  split; [exact (Hnoop eq_refl)|].
  eexists. split; [reflexivity|].
  apply (Hagain _ [RecordUnthrottleMethodMetric UNTHROTTLE_METHOD_BY_CLICK]).
  reflexivity.
Defined.

(** ** The swap procedure *)

(** C4.  [ReplacePlugin] with the placeholder's plugin alive and a target
    [np].  Container gone at entry: the target is destroyed, nothing else is
    done.  Target in need of initialization whose initialization fails: with
    the target's container still there the placeholder's plugin is put back
    into the container and the target destroyed; with the container gone
    nothing more is done.  Every run returns, with the members unchanged. *)
Theorem ReplacePlugin_abort_paths (h : Host) (s : Placeholder)
  (p np : WebPlugin) :
  plugin (base s) = Some p ->
  (plugin_container_at_swap h = false ->
   ReplacePlugin h (Some np) s = Returns tt s [PluginDestroy np]) /\
  (plugin_container_at_swap h = true ->
   plugin_needs_initialization s np = true ->
   initialize h np = false ->
   new_plugin_container h np = true ->
   ReplacePlugin h (Some np) s =
   Returns tt s [ContainerSetPlugin np; PluginInitialize np;
                 ContainerSetPlugin p; PluginDestroy np]) /\
  (plugin_container_at_swap h = true ->
   plugin_needs_initialization s np = true ->
   initialize h np = false ->
   new_plugin_container h np = false ->
   ReplacePlugin h (Some np) s =
   Returns tt s [ContainerSetPlugin np; PluginInitialize np]) /\
  (forall target, is_fatal (ReplacePlugin h target s) = false).
Proof.
  intros Hp. repeat split.
  - intros Hc. unfold ReplacePlugin. run. rewrite Hp, Hc. reflexivity.
  - intros Hc Hn Hi Hk. unfold ReplacePlugin. run. rewrite Hp, Hc. cbn [negb].
    run. rewrite Hn. run. rewrite Hi. cbn [negb]. rewrite Hk. reflexivity.
  - intros Hc Hn Hi Hk. unfold ReplacePlugin. run. rewrite Hp, Hc. cbn [negb].
    run. rewrite Hn. run. rewrite Hi. cbn [negb]. rewrite Hk. reflexivity.
  - intros target.
    destruct (ReplacePlugin_returns h target s p Hp) as (c & -> & _).
    reflexivity.
Qed.

Lemma ReplacePlugin_abort_paths_witness :
  ReplacePlugin Sample.host_no_container (Some Sample.flash_plugin) Sample.fresh
    = Returns tt Sample.fresh [PluginDestroy Sample.flash_plugin] /\
  ReplacePlugin (Sample.host_init_fails true) (Some Sample.flash_plugin)
    Sample.fresh
    = Returns tt Sample.fresh
        [ContainerSetPlugin Sample.flash_plugin;
         PluginInitialize Sample.flash_plugin;
         ContainerSetPlugin Sample.placeholder_plugin;
         PluginDestroy Sample.flash_plugin] /\
  ReplacePlugin (Sample.host_init_fails false) (Some Sample.flash_plugin)
    Sample.fresh
    = Returns tt Sample.fresh
        [ContainerSetPlugin Sample.flash_plugin;
         PluginInitialize Sample.flash_plugin].
Proof.
  destruct (ReplacePlugin_abort_paths Sample.host_no_container Sample.fresh
              Sample.placeholder_plugin Sample.flash_plugin eq_refl)
    as (Gone & _).
  destruct (ReplacePlugin_abort_paths (Sample.host_init_fails true) Sample.fresh
              Sample.placeholder_plugin Sample.flash_plugin eq_refl)
    as (_ & Restore & _).
  destruct (ReplacePlugin_abort_paths (Sample.host_init_fails false) Sample.fresh
              Sample.placeholder_plugin Sample.flash_plugin eq_refl)
    as (_ & _ & Quiet & _).
  split; [exact (Gone eq_refl)|].
  split; [exact (Restore eq_refl eq_refl eq_refl eq_refl)|].
  exact (Quiet eq_refl eq_refl eq_refl eq_refl).
Defined.

(** ** Prerendering *)

(** C8, as stated, fails.  In a build without [DCHECK]s the notification
    that prerendering became active is not fatal: the assertion is compiled
    out, the blocker is cleared and the plugin is loaded, just as for the
    notification that prerendering ended. *)
Lemma OnSetIsPrerendering_release_counterexample :
  is_fatal (OnSetIsPrerendering DcheckOff Sample.host true Sample.prerendered)
    = false /\
  OnSetIsPrerendering DcheckOff Sample.host true Sample.prerendered =
    LoadPlugin DcheckOff Sample.host Sample.fresh /\
  load_fires (OnSetIsPrerendering DcheckOff Sample.host true Sample.prerendered)
    = true.
Proof. repeat split. Qed.

(** C8, amended.  In a build with [DCHECK]s on, the notification that
    prerendering became active is fatal; in a build without them it is
    handled as the notification that prerendering ended.  The notification
    that it ended, on a placeholder allowed to load and blocked for
    prerendering, clears that blocker and then runs [LoadPlugin] if no
    blocker is left, and does nothing more if one is. *)
Theorem OnSetIsPrerendering_ended (b : Build) (h : Host) (s : Placeholder) :
  OnSetIsPrerendering DcheckOn h true s = Stops DcheckFailed [] /\
  OnSetIsPrerendering DcheckOff h true s = OnSetIsPrerendering DcheckOff h false s /\
  (allow_loading_ s = true ->
   is_blocked_for_prerendering_ s = true ->
   OnSetIsPrerendering b h false s =
   if is_blocked_for_background_tab_ s || is_blocked_for_power_saver_poster_ s
   then Returns tt (set_is_blocked_for_prerendering_ false s) []
   else LoadPlugin b h (set_is_blocked_for_prerendering_ false s)).
Proof.
  split; [|split].
  - unfold OnSetIsPrerendering. simpl negb. rewrite DCHECK_on_false.
    apply bind_stop.
  - reflexivity.
  - intros Ha Hb. rewrite OnSetIsPrerendering_blocked by assumption.
    rewrite load_unless_blocked_allowed by exact Ha.
    unfold no_blocker. simpl.
    destruct (is_blocked_for_background_tab_ s),
      (is_blocked_for_power_saver_poster_ s); reflexivity.
Qed.

Lemma OnSetIsPrerendering_ended_witness :
  OnSetIsPrerendering DcheckOn Sample.host false Sample.prerendered =
  LoadPlugin DcheckOn Sample.host Sample.fresh /\
  is_blocked_for_prerendering_ Sample.fresh = false /\
  load_fires (LoadPlugin DcheckOn Sample.host Sample.fresh) = true.
Proof.
  split; [|split; reflexivity].
  destruct (OnSetIsPrerendering_ended DcheckOn Sample.host Sample.prerendered)
    as (_ & _ & Ended).
  exact (Ended eq_refl eq_refl).
Defined.

(** ** The status message *)

(** C9.  [SetMessage] always stores the message.  Before the placeholder has
    finished loading it does nothing else.  Afterwards it runs the
    [setMessage] script with the new message at once, in the placeholder's
    web view as long as that exists.  [DidFinishLoadingCallback] sets
    [finished_loading_] and starts by running the script with the stored
    message when that is not empty; with an empty message it runs no
    script. *)
Theorem SetMessage_deferred (h : Host) (message : string) (s : Placeholder) :
  (finished_loading_ s = false ->
   SetMessage message s = Returns tt (set_message_ message s) []) /\
  (finished_loading_ s = true ->
   SetMessage message s =
   Returns tt (set_message_ message s)
     (match plugin (base s) with
      | Some _ => [ExecuteScript (SetMessageScript message)]
      | None => []
      end)) /\
  (message <> EmptyString ->
   forall p, plugin (base s) = Some p ->
   exists rest,
     calls_of (DidFinishLoadingCallback h (set_message_ message s)) =
     ExecuteScript (SetMessageScript message) :: rest /\
     (plugin_container h = true ->
      DidFinishLoadingCallback h (set_message_ message s) =
      Returns tt (set_finished_loading_ true (set_message_ message s))
        (ExecuteScript (SetMessageScript message) :: rest))) /\
  (message_ s = EmptyString ->
   forall script,
     ~ In (ExecuteScript script) (calls_of (DidFinishLoadingCallback h s))).
Proof.
  split; [|split; [|split]].
  - intros Hf. unfold SetMessage. run. simpl. rewrite Hf. reflexivity.
  - intros Hf. unfold SetMessage. run. simpl. rewrite Hf.
    unfold UpdateMessage. run. simpl.
    destruct (plugin (base s)); reflexivity.
  - intros Hm p Hp.
    assert (L : (0 <? String.length message)%nat = true).
    { destruct message; [contradiction Hm; reflexivity|reflexivity]. }
    unfold DidFinishLoadingCallback. run. simpl. rewrite L, Hp.
    unfold UpdateMessage. simpl is_some. cbv iota. run. simpl. rewrite Hp.
    run.
    destruct (premade_throttler_ s) as [t|]; [destruct (power_saver_enabled_ s)|];
      run; unfold CHECK; destruct (plugin_container h); run;
      eexists; (split; [reflexivity|]); intros E;
      first [reflexivity|discriminate E].
  - intros Hm script. unfold DidFinishLoadingCallback. run. simpl.
    rewrite Hm. simpl. run.
    destruct (premade_throttler_ s) as [t|]; [destruct (power_saver_enabled_ s)|];
      run; destruct (plugin (base s)); simpl is_some; cbv iota;
      unfold CHECK; try destruct (plugin_container h); run; simpl;
      intuition discriminate.
Qed.

Lemma SetMessage_deferred_witness :
  SetMessage "Click to run" Sample.poster
    = Returns tt (set_message_ "Click to run" Sample.poster) [] /\
  SetMessage "Click to run" Sample.poster_loaded
    = Returns tt (set_message_ "Click to run" Sample.poster_loaded)
        [ExecuteScript (SetMessageScript "Click to run")] /\
  (exists rest,
     DidFinishLoadingCallback Sample.host
       (set_message_ "Click to run" Sample.poster)
     = Returns tt Sample.poster_loaded_with_message
         (ExecuteScript (SetMessageScript "Click to run") :: rest)) /\
  calls_of (DidFinishLoadingCallback Sample.host Sample.poster)
    = [ContainerReportGeometry].
Proof.
  destruct (SetMessage_deferred Sample.host "Click to run" Sample.poster)
    as (Before & _ & Flush & _).
  destruct (SetMessage_deferred Sample.host "Click to run" Sample.poster_loaded)
    as (_ & After & _).
  split; [exact (Before eq_refl)|].
  split; [exact (After eq_refl)|].
  split; [|reflexivity].
  destruct (Flush ltac:(discriminate) Sample.placeholder_plugin eq_refl)
    as (rest & _ & Done).
  exists rest. exact (Done eq_refl).
Defined.

(** ** Size and visibility updates *)

(** C10.  An update with the cached rect, or one that arrives before the
    placeholder has finished loading or after its plugin is gone, returns at
    once: every member is as before and no call is made into the host. *)
Theorem OnUnobscuredRectUpdate_ignored (b : Build) (h : Host)
  (rect : gfx.Rect) (s : Placeholder) :
  rect = unobscured_rect_ s \/ finished_loading_ s = false \/
  plugin (base s) = None ->
  OnUnobscuredRectUpdate b h rect s = Returns tt s [].
Proof.
  intros H. unfold OnUnobscuredRectUpdate. run.
  destruct (plugin (base s)) as [p|]; [|reflexivity].
  destruct (finished_loading_ s); [|reflexivity].
  simpl. destruct H as [->|[H|H]]; try discriminate H.
  rewrite gfx_eqb_refl. reflexivity.
Qed.

Lemma OnUnobscuredRectUpdate_ignored_witness :
  OnUnobscuredRectUpdate DcheckOn Sample.host Sample.big Sample.poster
    = Returns tt Sample.poster [] /\
  OnUnobscuredRectUpdate DcheckOn Sample.host
    (unobscured_rect_ Sample.poster_loaded) Sample.poster_loaded
    = Returns tt Sample.poster_loaded [].
Proof.
  split.
  - apply (OnUnobscuredRectUpdate_ignored DcheckOn Sample.host Sample.big
             Sample.poster).
    right; left; reflexivity.
  - apply (OnUnobscuredRectUpdate_ignored DcheckOn Sample.host
             (unobscured_rect_ Sample.poster_loaded) Sample.poster_loaded).
    left; reflexivity.
Defined.

(** ** The premade plugin *)

(** C5.  The code does not keep the claim.  A poster backed by a premade
    plugin, in a background tab, is marked essential by the whitelist: power
    saver goes off, the tab blocker keeps the plugin from loading, the
    premade plugin stays held.  When the container is then torn down,
    [PluginDestroyed] neither destroys the premade plugin nor clears the
    field, although that plugin is detached from the container and is not
    destroyed along with the page. *)
Theorem PluginDestroyed_leaks_premade :
  exists s1 s2,
    MarkPluginEssential DcheckOn Sample.host UNTHROTTLE_METHOD_BY_WHITELIST
      Sample.throttled_in_background
    = Returns tt s1
        [ThrottlerMarkPluginEssential Sample.throttler
           UNTHROTTLE_METHOD_BY_WHITELIST] /\
    premade_throttler_ s1 = Some Sample.throttler /\
    PluginDestroyed Sample.host s1 = Returns tt s2 [BasePluginDestroyed] /\
    premade_throttler_ s2 = Some Sample.throttler /\
    ~ In (PluginDestroy Sample.throttled_plugin)
         (calls_of (PluginDestroyed Sample.host s1)).
Proof.
  eexists. eexists.
  split; [reflexivity|]. split; [reflexivity|].
  split; [reflexivity|]. split; [reflexivity|].
  simpl. intros [E|[]]. discriminate E.
Qed.

(** ** The size heuristic *)

(** An update that gets past the early returns, on a poster that is not a
    delayed placeholder. *)
Lemma OnUnobscuredRectUpdate_poster (b : Build) (h : Host) (rect : gfx.Rect)
  (s : Placeholder) (p : WebPlugin) :
  plugin (base s) = Some p -> finished_loading_ s = true ->
  rect <> unobscured_rect_ s -> plugin_container h = true ->
  is_delayed_placeholder_ s = false ->
  is_blocked_for_power_saver_poster_ s = true ->
  OnUnobscuredRectUpdate b h rect s =
  after [classify_call h rect; resize_call h rect]
    (if is_PERIPHERAL (classification h rect)
     then Returns tt
            (set_heuristic_run_before_ true (set_unobscured_rect_ rect s)) []
     else
       bind (MarkPluginEssential b h
               (if heuristic_run_before_ s
                then UNTHROTTLE_METHOD_BY_SIZE_CHANGE
                else UNTHROTTLE_METHOD_DO_NOT_RECORD))
            (fun _ =>
               (s2 <- get ;;
                if negb (heuristic_run_before_ s2) &&
                   is_ESSENTIAL_CROSS_ORIGIN_BIG (classification h rect)
                then call (WhitelistContentOrigin (content_origin h))
                else done) ;;
               modify (set_heuristic_run_before_ true))
            (set_unobscured_rect_ rect s)).
Proof.
  intros Hp Hf Hr Hc Hd Hb. unfold OnUnobscuredRectUpdate. run.
  rewrite Hp, Hf. simpl.
  assert (E : gfx.eqb (unobscured_rect_ s) rect = false).
  { destruct (gfx.eqb (unobscured_rect_ s) rect) eqn:E; [|reflexivity].
    apply gfx_eqb_eq in E. symmetry in E. contradiction. }
  rewrite E. run. rewrite Hc. run. rewrite Hd, Hb. run.
  fold (classification h rect). fold (classify_call h rect).
  fold (resize_call h rect).
  destruct (is_PERIPHERAL (classification h rect)); simpl negb; cbv iota; run;
    reflexivity.
Qed.

(** An update that gets past the early returns on a placeholder that is
    neither delayed nor a poster only records the rect and asks for the
    classification. *)
Lemma OnUnobscuredRectUpdate_no_poster (b : Build) (h : Host) (rect : gfx.Rect)
  (s : Placeholder) (p : WebPlugin) :
  plugin (base s) = Some p -> finished_loading_ s = true ->
  rect <> unobscured_rect_ s -> plugin_container h = true ->
  is_delayed_placeholder_ s = false ->
  is_blocked_for_power_saver_poster_ s = false ->
  OnUnobscuredRectUpdate b h rect s =
  Returns tt (set_unobscured_rect_ rect s) [classify_call h rect].
Proof.
  intros Hp Hf Hr Hc Hd Hb. unfold OnUnobscuredRectUpdate. run.
  rewrite Hp, Hf. simpl.
  assert (E : gfx.eqb (unobscured_rect_ s) rect = false).
  { destruct (gfx.eqb (unobscured_rect_ s) rect) eqn:E; [|reflexivity].
    apply gfx_eqb_eq in E. symmetry in E. contradiction. }
  rewrite E. run. rewrite Hc. run. rewrite Hd, Hb. reflexivity.
Qed.

(** A delayed placeholder hands the decision to [OnLoadedRectUpdate]. *)
Lemma OnUnobscuredRectUpdate_delayed (b : Build) (h : Host) (rect : gfx.Rect)
  (s : Placeholder) (p : WebPlugin) :
  plugin (base s) = Some p -> finished_loading_ s = true ->
  rect <> unobscured_rect_ s -> plugin_container h = true ->
  is_delayed_placeholder_ s = true ->
  OnUnobscuredRectUpdate b h rect s =
  Returns tt (set_is_delayed_placeholder_ false (set_unobscured_rect_ rect s))
    [classify_call h rect;
     OnLoadedRectUpdate
       {| gfx.x := unzoom h (gfx.x rect); gfx.y := unzoom h (gfx.y rect);
          gfx.width := unzoom h (gfx.width rect);
          gfx.height := unzoom h (gfx.height rect) |}
       (classification h rect)].
Proof.
  intros Hp Hf Hr Hc Hd. unfold OnUnobscuredRectUpdate. run.
  rewrite Hp, Hf. simpl.
  assert (E : gfx.eqb (unobscured_rect_ s) rect = false).
  { destruct (gfx.eqb (unobscured_rect_ s) rect) eqn:E; [|reflexivity].
    apply gfx_eqb_eq in E. symmetry in E. contradiction. }
  rewrite E. run. rewrite Hc. run. rewrite Hd. run. reflexivity.
Qed.

(** The calls of [MarkPluginEssential] never allow-list an origin. *)
Lemma ReplacePlugin_no_whitelist (h : Host) (np : option WebPlugin)
  (s : Placeholder) :
  existsb is_whitelist (calls_of (ReplacePlugin h np s)) = false.
Proof.
  unfold ReplacePlugin. run. destruct (plugin (base s)); [|reflexivity].
  destruct np as [n|]; [|reflexivity].
  destruct (plugin_container_at_swap h); simpl negb; cbv iota; [|reflexivity].
  run. destruct (plugin_needs_initialization s n); run.
  - destruct (initialize h n); simpl negb; cbv iota.
    + destruct (element_plugin_container h); reflexivity.
    + destruct (new_plugin_container h n); reflexivity.
  - destruct (element_plugin_container h); reflexivity.
Qed.

Lemma LoadPlugin_no_whitelist (b : Build) (h : Host) (s : Placeholder) :
  existsb is_whitelist (calls_of (LoadPlugin b h s)) = false.
Proof.
  unfold LoadPlugin. run.
  destruct (hidden (base s)); [reflexivity|].
  destruct (negb (is_some (plugin (base s)))); [reflexivity|].
  destruct (negb (allow_loading_ s)); [destruct b; reflexivity|].
  destruct (premade_throttler_ s) as [t|]; run.
  - rewrite calls_of_after, calls_of_bind.
    assert (W := ReplacePlugin_no_whitelist h (GetWebPlugin t) s).
    destruct (ReplacePlugin h (GetWebPlugin t) s); simpl in *;
      [rewrite app_nil_r|]; exact W.
  - rewrite calls_of_after. simpl. apply ReplacePlugin_no_whitelist.
Qed.

Lemma MarkPluginEssential_no_whitelist (b : Build) (h : Host)
  (m : PowerSaverUnthrottleMethod) (s : Placeholder) :
  existsb is_whitelist (calls_of (MarkPluginEssential b h m s)) = false.
Proof.
  destruct (power_saver_enabled_ s) eqn:Hp.
  - rewrite MarkPluginEssential_enabled by assumption.
    rewrite calls_of_after, existsb_app.
    replace (existsb is_whitelist (essential_report s m)) with false
      by (unfold essential_report; destruct (premade_throttler_ s);
          [|destruct (is_DO_NOT_RECORD m)]; reflexivity).
    destruct (is_blocked_for_power_saver_poster_ s); [|reflexivity].
    simpl. unfold load_unless_blocked.
    match goal with |- context [bind _ _ ?s'] =>
      destruct (LoadingBlocked_cases b s') as [E|E] end.
    + rewrite (bind_returns _ _ _ _ _ _ E), after_nil.
      destruct (negb (no_blocker _)); [reflexivity|].
      apply LoadPlugin_no_whitelist.
    + rewrite (bind_stops _ _ _ _ _ E). reflexivity.
  - rewrite MarkPluginEssential_disabled by assumption. reflexivity.
Qed.

(** C3, as stated, fails.  A placeholder that has finished loading and has
    no blocker set: the update asks for the classification of the new size,
    and the flag is false afterwards. *)
Lemma OnUnobscuredRectUpdate_flag_counterexample :
  exists s1,
    OnUnobscuredRectUpdate DcheckOn Sample.host Sample.big Sample.loaded =
    Returns tt s1
      [GetPeripheralContentStatus "http://news.example"%string
         "http://video.example"%string 800 600] /\
    classification Sample.host Sample.big =
      CONTENT_STATUS_ESSENTIAL_CROSS_ORIGIN_BIG /\
    heuristic_run_before_ s1 = false.
Proof. eexists. repeat split. Qed.

(** C3, amended.  An update that gets past the early returns, with the
    container present, on a placeholder that is not delayed: when the poster
    blocker is set (and loading has been allowed) it returns with
    [heuristic_run_before_] true, whatever the classification and the other
    two blockers; when the poster blocker is not set it only records the
    rect and asks for the classification, and the flag is as before. *)
Theorem OnUnobscuredRectUpdate_sets_flag (b : Build) (h : Host)
  (rect : gfx.Rect) (s : Placeholder) (p : WebPlugin) :
  plugin (base s) = Some p -> finished_loading_ s = true ->
  rect <> unobscured_rect_ s -> plugin_container h = true ->
  is_delayed_placeholder_ s = false ->
  (is_blocked_for_power_saver_poster_ s = true -> allow_loading_ s = true ->
   exists s1 c,
     OnUnobscuredRectUpdate b h rect s =
     Returns tt s1 (classify_call h rect :: c) /\
     heuristic_run_before_ s1 = true) /\
  (is_blocked_for_power_saver_poster_ s = false ->
   OnUnobscuredRectUpdate b h rect s =
   Returns tt (set_unobscured_rect_ rect s) [classify_call h rect] /\
   heuristic_run_before_ (set_unobscured_rect_ rect s) = heuristic_run_before_ s).
Proof.
  intros Hp Hf Hr Hc Hd. split.
  - intros Hb Ha.
    rewrite (OnUnobscuredRectUpdate_poster b h rect s p Hp Hf Hr Hc Hd Hb).
    destruct (is_PERIPHERAL (classification h rect)).
    + simpl. eexists. eexists. split; reflexivity.
    + destruct (MarkPluginEssential_returns b h
                  (if heuristic_run_before_ s
                   then UNTHROTTLE_METHOD_BY_SIZE_CHANGE
                   else UNTHROTTLE_METHOD_DO_NOT_RECORD)
                  (set_unobscured_rect_ rect s) Ha) as (s1 & c & E).
      rewrite (bind_returns _ _ _ _ _ _ E). run.
      destruct (negb (heuristic_run_before_ s1) && _); run; simpl;
        eexists; eexists; split; reflexivity.
  - intros Hb. split; [|reflexivity].
    exact (OnUnobscuredRectUpdate_no_poster b h rect s p Hp Hf Hr Hc Hd Hb).
Qed.

Lemma OnUnobscuredRectUpdate_sets_flag_witness :
  (exists s1 c,
     OnUnobscuredRectUpdate DcheckOn Sample.host Sample.small Sample.poster_loaded
     = Returns tt s1 (classify_call Sample.host Sample.small :: c) /\
     heuristic_run_before_ s1 = true) /\
  OnUnobscuredRectUpdate DcheckOn Sample.host Sample.small Sample.loaded
  = Returns tt (set_unobscured_rect_ Sample.small Sample.loaded)
      [classify_call Sample.host Sample.small].
Proof.
  split.
  - destruct (OnUnobscuredRectUpdate_sets_flag DcheckOn Sample.host Sample.small
                Sample.poster_loaded Sample.placeholder_plugin
                eq_refl eq_refl ltac:(discriminate) eq_refl eq_refl)
      as (Poster & _).
    exact (Poster eq_refl eq_refl).
  - destruct (OnUnobscuredRectUpdate_sets_flag DcheckOn Sample.host Sample.small
                Sample.loaded Sample.placeholder_plugin
                eq_refl eq_refl ltac:(discriminate) eq_refl eq_refl)
      as (_ & Plain).
    exact (proj1 (Plain eq_refl)).
Defined.

(** The first size update of a large cross-origin poster: no metric, the
    plugin is loaded, the origin is allow-listed. *)
Example first_size_update :
  calls_of (OnUnobscuredRectUpdate DcheckOn Sample.host Sample.big
              Sample.poster_loaded) =
  [GetPeripheralContentStatus "http://news.example"%string
     "http://video.example"%string 800 600;
   ExecuteScript (ResizePosterScript 0 0 800 600);
   CreatePlugin; ContainerSetPlugin Sample.flash_plugin;
   PluginInitialize Sample.flash_plugin; RestoreTitleText;
   ContainerInvalidate; ContainerReportGeometry;
   ReplayReceivedData (Some Sample.flash_plugin);
   PluginDestroy Sample.placeholder_plugin;
   WhitelistContentOrigin "http://video.example"%string].
Proof. reflexivity. Qed.

(** A later size update of the same poster: the size-change method goes to
    the metric, and nothing is allow-listed. *)
Example later_size_update :
  calls_of (OnUnobscuredRectUpdate DcheckOn Sample.host Sample.big
              Sample.poster_seen) =
  [GetPeripheralContentStatus "http://news.example"%string
     "http://video.example"%string 800 600;
   ExecuteScript (ResizePosterScript 0 0 800 600);
   RecordUnthrottleMethodMetric UNTHROTTLE_METHOD_BY_SIZE_CHANGE;
   CreatePlugin; ContainerSetPlugin Sample.flash_plugin;
   PluginInitialize Sample.flash_plugin; RestoreTitleText;
   ContainerInvalidate; ContainerReportGeometry;
   ReplayReceivedData (Some Sample.flash_plugin);
   PluginDestroy Sample.placeholder_plugin].
Proof. reflexivity. Qed.

(** * Further properties of the code *)

(** ** Loading with nothing to swap in *)

(** X3.  A load that gets past the guards of [LoadPlugin] but has no plugin
    to install changes nothing on the page: when the embedder creates no
    plugin the only call is the request to it; when the premade throttler
    has no plugin the throttler is unhidden and the handle is given up all
    the same. *)
Theorem LoadPlugin_nothing_to_swap (b : Build) (h : Host) (s : Placeholder)
  (p : WebPlugin) :
  hidden (base s) = false -> plugin (base s) = Some p ->
  allow_loading_ s = true ->
  (premade_throttler_ s = None -> created_plugin h = None ->
   LoadPlugin b h s = Returns tt s [CreatePlugin]) /\
  (forall t, premade_throttler_ s = Some t -> GetWebPlugin t = None ->
   LoadPlugin b h s =
   Returns tt (set_premade_throttler_ None s) [SetHiddenForPlaceholder t false]).
Proof.
  intros H1 H2 H3. split.
  - intros H4 Hc.
    destruct (LoadPlugin_create b h s p H1 H2 H3 H4) as (c & Hr & ->).
    rewrite Hc in Hr. unfold ReplacePlugin in Hr. revert Hr. run. rewrite H2.
    intros Hr. injection Hr as <-. reflexivity.
  - intros t H4 Hw.
    destruct (LoadPlugin_premade b h s p t H1 H2 H3 H4) as (c & Hr & ->).
    rewrite Hw in Hr. unfold ReplacePlugin in Hr. revert Hr. run. rewrite H2.
    intros Hr. injection Hr as <-. reflexivity.
Qed.

Lemma LoadPlugin_nothing_to_swap_witness :
  LoadPlugin DcheckOn Sample.host_creates_nothing Sample.fresh
    = Returns tt Sample.fresh [CreatePlugin] /\
  LoadPlugin DcheckOn Sample.host Sample.empty_throttler_poster
    = Returns tt (set_premade_throttler_ None Sample.empty_throttler_poster)
        [SetHiddenForPlaceholder Sample.empty_throttler false].
Proof.
  destruct (LoadPlugin_nothing_to_swap DcheckOn Sample.host_creates_nothing
              Sample.fresh Sample.placeholder_plugin eq_refl eq_refl eq_refl)
    as (Created & _).
  destruct (LoadPlugin_nothing_to_swap DcheckOn Sample.host
              Sample.empty_throttler_poster Sample.placeholder_plugin
              eq_refl eq_refl eq_refl) as (_ & Premade).
  split.
  - exact (Created eq_refl eq_refl).
  - exact (Premade Sample.empty_throttler eq_refl eq_refl).
Defined.

(** X4.  A premade plugin is installed as it is: a load that consumes a
    premade throttler never initializes any plugin.  A newly created plugin
    is initialized as soon as it is in the container. *)
Theorem premade_plugin_not_initialized (b : Build) (h : Host) (s : Placeholder)
  (p : WebPlugin) :
  hidden (base s) = false -> plugin (base s) = Some p ->
  allow_loading_ s = true ->
  (forall t, premade_throttler_ s = Some t ->
             silent is_initialize (LoadPlugin b h s)) /\
  (forall np, premade_throttler_ s = None -> created_plugin h = Some np ->
              plugin_container_at_swap h = true ->
   exists c, calls_of (LoadPlugin b h s) =
             CreatePlugin :: ContainerSetPlugin np :: PluginInitialize np :: c).
Proof.
  intros H1 H2 H3. split.
  - intros t H4. unfold silent.
    destruct (LoadPlugin_premade b h s p t H1 H2 H3 H4) as (c & Hr & ->).
    simpl. assert (E : calls_of (ReplacePlugin h (GetWebPlugin t) s) = c)
      by (rewrite Hr; reflexivity).
    rewrite <- E. clear Hr E c. unfold ReplacePlugin. run. rewrite H2.
    destruct (GetWebPlugin t) as [wp|] eqn:Hw; [|reflexivity].
    destruct (plugin_container_at_swap h); cbn [negb]; [|reflexivity].
    run. unfold plugin_needs_initialization. rewrite H4, Hw. simpl.
    rewrite Nat.eqb_refl. simpl. run.
    destruct (element_plugin_container h); reflexivity.
  - intros np H4 Hc Hk.
    destruct (LoadPlugin_create b h s p H1 H2 H3 H4) as (c & Hr & ->).
    simpl. assert (E : calls_of (ReplacePlugin h (created_plugin h) s) = c)
      by (rewrite Hr; reflexivity).
    rewrite <- E. clear Hr E c. rewrite Hc. unfold ReplacePlugin. run.
    rewrite H2, Hk. cbn [negb]. run.
    unfold plugin_needs_initialization. rewrite H4. run.
    rewrite !calls_of_after. simpl. eexists. reflexivity.
Qed.

Lemma premade_plugin_not_initialized_witness :
  silent is_initialize (LoadPlugin DcheckOn Sample.host Sample.throttled_poster) /\
  exists c, calls_of (LoadPlugin DcheckOn Sample.host Sample.fresh) =
            CreatePlugin :: ContainerSetPlugin Sample.flash_plugin ::
            PluginInitialize Sample.flash_plugin :: c.
Proof.
  destruct (premade_plugin_not_initialized DcheckOn Sample.host
              Sample.throttled_poster Sample.placeholder_plugin
              eq_refl eq_refl eq_refl) as (Premade & _).
  destruct (premade_plugin_not_initialized DcheckOn Sample.host
              Sample.fresh Sample.placeholder_plugin
              eq_refl eq_refl eq_refl) as (_ & Created).
  split.
  - exact (Premade Sample.throttler eq_refl).
  - exact (Created Sample.flash_plugin eq_refl eq_refl eq_refl).
Defined.

(** ** What a handler can leave behind *)

Lemma silent_after {A} (P : HostCall -> bool) (c : list HostCall)
  (o : Outcome A) :
  existsb P c = false -> silent P o -> silent P (after c o).
Proof.
  unfold silent. intros Hc Ho. rewrite calls_of_after, existsb_app, Hc, Ho.
  reflexivity.
Qed.

Lemma silent_bind {A B} (P : HostCall -> bool) (m : M A) (k : A -> M B)
  (s : Placeholder) :
  silent P (m s) ->
  (forall a s1 c, m s = Returns a s1 c -> silent P (k a s1)) ->
  silent P (bind m k s).
Proof.
  intros Hm Hk. destruct (m s) as [a s1 c|f c] eqn:E.
  - rewrite (bind_returns _ _ _ _ _ _ E). apply silent_after; [exact Hm|].
    exact (Hk a s1 c eq_refl).
  - rewrite (bind_stops _ _ _ _ _ E). exact Hm.
Qed.

Lemma keeps_after {A} (R : Placeholder -> Placeholder -> Prop)
  (s : Placeholder) (c : list HostCall) (o : Outcome A) :
  keeps R s o -> keeps R s (after c o).
Proof. destruct o; exact (fun H => H). Qed.

Lemma LoadPlugin_states (b : Build) (h : Host) (s s1 : Placeholder)
  (c : list HostCall) :
  LoadPlugin b h s = Returns tt s1 c ->
  s1 = s \/ s1 = set_premade_throttler_ None s.
Proof.
  destruct (LoadPlugin_cases b h s) as [[c' ->]|[[c' ->]| ->]]; intros E;
    [injection E as <- _; auto|injection E as <- _; auto|discriminate E].
Qed.

Lemma load_unless_blocked_states (b : Build) (h : Host) (s s1 : Placeholder)
  (c : list HostCall) :
  load_unless_blocked b h s = Returns tt s1 c ->
  s1 = s \/ s1 = set_premade_throttler_ None s.
Proof.
  destruct (load_unless_blocked_cases b h s) as [[c' ->]|[[c' ->]|[f ->]]];
    intros E;
    [injection E as <- _; auto|injection E as <- _; auto|discriminate E].
Qed.

Lemma MarkPluginEssential_states (b : Build) (h : Host)
  (m : PowerSaverUnthrottleMethod) (s s1 : Placeholder) (c : list HostCall) :
  MarkPluginEssential b h m s = Returns tt s1 c -> marked_from s s1.
Proof.
  unfold marked_from. destruct (power_saver_enabled_ s) eqn:Hp.
  - rewrite MarkPluginEssential_enabled by assumption.
    destruct (is_blocked_for_power_saver_poster_ s).
    + destruct (load_unless_blocked b h _) as [[] s2 c2|f c2] eqn:E;
        simpl; intros E1; [|discriminate E1].
      injection E1 as <- _.
      destruct (load_unless_blocked_states b h _ _ _ E) as [->| ->]; auto.
    + simpl. intros E. injection E as <- _. auto.
  - rewrite MarkPluginEssential_disabled by assumption.
    intros E. injection E as <- _. auto.
Qed.

Lemma marked_from_frame (s s1 : Placeholder) :
  marked_from s s1 ->
  same_outside_gate s s1 /\
  (power_saver_enabled_ s1 = true -> power_saver_enabled_ s = true) /\
  (is_blocked_for_power_saver_poster_ s1 = true ->
   is_blocked_for_power_saver_poster_ s = true) /\
  (premade_throttler_ s1 = premade_throttler_ s \/ premade_throttler_ s1 = None).
Proof.
  unfold same_outside_gate.
  intros [->|[->|[->| ->]]]; simpl; repeat split; auto; discriminate.
Qed.

Lemma LoadPlugin_returns_allowed (b : Build) (h : Host) (s : Placeholder) :
  allow_loading_ s = true -> exists s1 c, LoadPlugin b h s = Returns tt s1 c.
Proof.
  intros Ha. destruct (LoadPlugin_cases b h s) as [[c E]|[[c E]|E]]; eauto.
  assert (G := LoadPlugin_fatal b h s). rewrite E in G. simpl in G.
  rewrite Ha, andb_false_r in G. destruct b; discriminate G.
Qed.

Lemma load_unless_blocked_returns (b : Build) (h : Host) (s : Placeholder) :
  allow_loading_ s = true ->
  exists s1 c, load_unless_blocked b h s = Returns tt s1 c.
Proof.
  intros Ha. rewrite load_unless_blocked_allowed by exact Ha.
  destruct (no_blocker s); [apply LoadPlugin_returns_allowed, Ha|eauto].
Qed.

(** ** Clearing a blocker twice *)

(** X5.  [WasShown] and [OnSetIsPrerendering(false)] are idempotent: a call
    that returns leaves its blocker clear, and the same call on the object
    it left changes nothing and calls nothing; in particular it does not
    load a second time.  With loading allowed both calls return. *)
Theorem blocker_cleared_once (b : Build) (h : Host) (s : Placeholder) :
  (forall s1 c, WasShown b h s = Returns tt s1 c ->
                is_blocked_for_background_tab_ s1 = false /\
                WasShown b h s1 = Returns tt s1 []) /\
  (forall s1 c, OnSetIsPrerendering b h false s = Returns tt s1 c ->
                is_blocked_for_prerendering_ s1 = false /\
                OnSetIsPrerendering b h false s1 = Returns tt s1 []) /\
  (allow_loading_ s = true ->
   (exists s1 c, WasShown b h s = Returns tt s1 c) /\
   (exists s1 c, OnSetIsPrerendering b h false s = Returns tt s1 c)).
Proof.
  split; [|split].
  - intros s1 c E.
    assert (C : is_blocked_for_background_tab_ s1 = false).
    { destruct (is_blocked_for_background_tab_ s) eqn:Hb.
      - rewrite WasShown_blocked in E by exact Hb.
        destruct (load_unless_blocked_states b h _ _ _ E) as [->| ->];
          reflexivity.
      - rewrite WasShown_not_blocked in E by exact Hb.
        injection E as <- _. exact Hb. }
    split; [exact C|]. apply WasShown_not_blocked, C.
  - intros s1 c E.
    assert (C : is_blocked_for_prerendering_ s1 = false).
    { destruct (is_blocked_for_prerendering_ s) eqn:Hb.
      - rewrite OnSetIsPrerendering_blocked in E by exact Hb.
        destruct (load_unless_blocked_states b h _ _ _ E) as [->| ->];
          reflexivity.
      - rewrite OnSetIsPrerendering_not_blocked in E by exact Hb.
        injection E as <- _. exact Hb. }
    split; [exact C|]. apply OnSetIsPrerendering_not_blocked, C.
  - intros Ha. split.
    + destruct (is_blocked_for_background_tab_ s) eqn:Hb.
      * rewrite WasShown_blocked by exact Hb.
        apply load_unless_blocked_returns. exact Ha.
      * rewrite WasShown_not_blocked by exact Hb. eauto.
    + destruct (is_blocked_for_prerendering_ s) eqn:Hb.
      * rewrite OnSetIsPrerendering_blocked by exact Hb.
        apply load_unless_blocked_returns. exact Ha.
      * rewrite OnSetIsPrerendering_not_blocked by exact Hb. eauto.
Qed.

Lemma blocker_cleared_once_witness :
  exists s1 c,
    WasShown DcheckOn Sample.host Sample.in_background = Returns tt s1 c /\
    load_fires (WasShown DcheckOn Sample.host Sample.in_background) = true /\
    WasShown DcheckOn Sample.host s1 = Returns tt s1 [].
Proof.
  destruct (blocker_cleared_once DcheckOn Sample.host Sample.in_background)
    as (Twice & _ & Returns).
  destruct (Returns eq_refl) as ((s1 & c & E) & _).
  exists s1, c. split; [exact E|]. split; [reflexivity|].
  exact (proj2 (Twice s1 c E)).
Defined.

(** ** The click *)

(** X6.  A click on the placeholder ([LoadCallback]), with loading allowed:
    the user action is recorded first, power saver is off afterwards, and
    the load fires exactly when the placeholder is not hidden and its plugin
    is alive, whichever of the three blockers are set. *)
Theorem LoadCallback_overrides_blockers (b : Build) (h : Host)
  (s : Placeholder) :
  allow_loading_ s = true ->
  exists s1 c,
    LoadCallback b h s = Returns tt s1 (RecordAction "Plugin_Load_Click" :: c) /\
    power_saver_enabled_ s1 = false /\
    load_fires (LoadCallback b h s) =
      negb (hidden (base s)) && is_some (plugin (base s)).
Proof.
  intros Ha. unfold LoadCallback. run.
  destruct (MarkPluginEssential_returns b h UNTHROTTLE_METHOD_BY_CLICK s Ha)
    as (s1 & c1 & E1).
  assert (St := MarkPluginEssential_states b h _ s s1 c1 E1).
  destruct (marked_from_frame s s1 St) as ((Fb & _ & _ & _ & _ & _ & Fa & _) & _).
  assert (Ha1 : allow_loading_ s1 = true) by (rewrite Fa; exact Ha).
  destruct (LoadPlugin_returns_allowed b h s1 Ha1) as (s2 & c2 & E2).
  rewrite (bind_returns _ _ _ _ _ _ E1), E2. simpl.
  exists s2, (c1 ++ c2). split; [reflexivity|]. split.
  - assert (P := MarkPluginEssential_returns_disabled b h _ s s1 c1 E1).
    destruct (LoadPlugin_states b h s1 s2 c2 E2) as [->| ->]; exact P.
  - unfold load_fires. simpl. rewrite existsb_app.
    assert (F2 := LoadPlugin_fires b h s1). rewrite E2 in F2.
    unfold load_fires in F2. simpl in F2. rewrite F2, Fb, Ha1, andb_true_r.
    assert (F1 : load_fires (MarkPluginEssential b h UNTHROTTLE_METHOD_BY_CLICK s)
                 = existsb starts_load c1) by (rewrite E1; reflexivity).
    rewrite <- F1. clear F1 F2.
    destruct (power_saver_enabled_ s) eqn:Hp.
    + rewrite MarkPluginEssential_enabled by exact Hp.
      rewrite load_fires_after, essential_report_no_load.
      destruct (is_blocked_for_power_saver_poster_ s).
      * rewrite load_unless_blocked_fires by exact Ha. simpl.
        destruct (no_blocker _), (hidden (base s)), (plugin (base s));
          reflexivity.
      * reflexivity.
    + rewrite MarkPluginEssential_disabled by exact Hp. reflexivity.
Qed.

Lemma LoadCallback_overrides_blockers_witness :
  exists s1 c,
    LoadCallback DcheckOn Sample.host Sample.in_background_poster =
    Returns tt s1 (RecordAction "Plugin_Load_Click" :: c) /\
    power_saver_enabled_ s1 = false /\
    load_fires (LoadCallback DcheckOn Sample.host Sample.in_background_poster)
    = true.
Proof.
  exact (LoadCallback_overrides_blockers DcheckOn Sample.host
           Sample.in_background_poster eq_refl).
Defined.

(** ** The broadcast *)

(** X7.  After [SetIdentifier id], the broadcast [OnLoadBlockedPlugins id']
    reaches the placeholder exactly when [id'] is empty or is [id]: then the
    user action is recorded and the load fires if loading is allowed, the
    placeholder is not hidden and its plugin is alive, whatever blockers are
    set; a broadcast for another identifier changes nothing and calls
    nothing. *)
Theorem OnLoadBlockedPlugins_identifier (b : Build) (h : Host)
  (id id' : string) (s : Placeholder) :
  let broadcast :=
    bind (SetIdentifier id) (fun _ => OnLoadBlockedPlugins b h id') s in
  (id' = EmptyString \/ id' = id ->
   broadcast =
   after [RecordAction "Plugin_Load_UI"] (LoadPlugin b h (set_identifier_ id s)) /\
   load_fires broadcast =
     allow_loading_ s && negb (hidden (base s)) && is_some (plugin (base s))) /\
  (id' <> EmptyString -> id' <> id ->
   broadcast = Returns tt (set_identifier_ id s) []).
Proof.
  cbv zeta. unfold SetIdentifier, OnLoadBlockedPlugins. run. simpl.
  split.
  - intros Hid.
    assert (E : negb (String.eqb id' "") && negb (String.eqb id' id) = false).
    { destruct Hid as [->| ->].
      - reflexivity.
      - rewrite String.eqb_refl. apply andb_false_r. }
    rewrite E. run. split; [reflexivity|].
    rewrite load_fires_after. simpl. rewrite LoadPlugin_fires. simpl.
    destruct (allow_loading_ s), (hidden (base s)), (plugin (base s));
      reflexivity.
  - intros H1 H2.
    apply String.eqb_neq in H1. apply String.eqb_neq in H2.
    rewrite H1, H2. reflexivity.
Qed.

Lemma OnLoadBlockedPlugins_identifier_witness :
  load_fires (bind (SetIdentifier "flash-1")
                (fun _ => OnLoadBlockedPlugins DcheckOn Sample.host "")
                Sample.in_background) = true /\
  bind (SetIdentifier "flash-1")
    (fun _ => OnLoadBlockedPlugins DcheckOn Sample.host "flash-2")
    Sample.in_background
  = Returns tt (set_identifier_ "flash-1" Sample.in_background) [].
Proof.
  destruct (OnLoadBlockedPlugins_identifier DcheckOn Sample.host
              "flash-1" "" Sample.in_background) as (Reached & _).
  destruct (OnLoadBlockedPlugins_identifier DcheckOn Sample.host
              "flash-1" "flash-2" Sample.in_background) as (_ & Missed).
  split.
  - rewrite (proj2 (Reached (or_introl eq_refl))). reflexivity.
  - apply Missed; discriminate.
Defined.

(** ** Teardown *)

(** X8.  [PluginDestroyed] counts the plugin as never unthrottled exactly
    when power saver is still enabled, the poster blocker is set and there is
    no premade throttler; it sends no other method to the metric.  The only
    run that does not return is the one that would destroy the plugin of a
    premade throttler that has none. *)
Theorem PluginDestroyed_never_metric (h : Host) (s : Placeholder) :
  (forall m,
     In (RecordUnthrottleMethodMetric m) (calls_of (PluginDestroyed h s)) <->
     m = UNTHROTTLE_METHOD_NEVER /\ power_saver_enabled_ s = true /\
     is_blocked_for_power_saver_poster_ s = true /\
     premade_throttler_ s = None) /\
  (is_fatal (PluginDestroyed h s) = true <->
   power_saver_enabled_ s = true /\
   exists t, premade_throttler_ s = Some t /\ GetWebPlugin t = None).
Proof.
  unfold PluginDestroyed. run.
  destruct (power_saver_enabled_ s); run.
  - destruct (premade_throttler_ s) as [t|]; run.
    + destruct (GetWebPlugin t) as [wp|] eqn:Hw; run; simpl.
      * split.
        -- intros m. split; [intros [E|[E|[]]]; discriminate E|].
           intros (_ & _ & _ & E). discriminate E.
        -- split; [discriminate|]. intros (_ & t' & E & Hn).
           injection E as <-. rewrite Hw in Hn. discriminate Hn.
      * split.
        -- intros m. split; [intros []|].
           intros (_ & _ & _ & E). discriminate E.
        -- split; [|reflexivity]. intros _. split; [reflexivity|].
           exists t. split; [reflexivity|exact Hw].
    + destruct (is_blocked_for_power_saver_poster_ s); run; simpl.
      * split.
        -- intros m. split.
           ++ intros [E|[E|[]]]; [|discriminate E].
              injection E as <-. repeat split.
           ++ intros (-> & _). left. reflexivity.
        -- split; [discriminate|]. intros (_ & t & E & _). discriminate E.
      * split.
        -- intros m. split; [intros [E|[]]; discriminate E|].
           intros (_ & _ & E & _). discriminate E.
        -- split; [discriminate|]. intros (_ & t & E & _). discriminate E.
  - simpl. split.
    + intros m. split; [intros [E|[]]; discriminate E|].
      intros (_ & E & _). discriminate E.
    + split; [discriminate|]. intros (E & _). discriminate E.
Qed.

Lemma PluginDestroyed_never_metric_witness :
  In (RecordUnthrottleMethodMetric UNTHROTTLE_METHOD_NEVER)
     (calls_of (PluginDestroyed Sample.host Sample.poster)) /\
  is_fatal (PluginDestroyed Sample.host Sample.empty_throttler_poster) = true.
Proof.
  destruct (PluginDestroyed_never_metric Sample.host Sample.poster)
    as (Never & _).
  destruct (PluginDestroyed_never_metric Sample.host
              Sample.empty_throttler_poster) as (_ & Fatal).
  split.
  - apply Never. repeat split.
  - apply Fatal. split; [reflexivity|].
    exists Sample.empty_throttler. split; reflexivity.
Defined.

(** X9.  Once [PluginDestroyed] has returned, power saver is off, and
    marking the plugin essential, by whatever method, changes nothing and
    reports nothing, whatever the base class did to its own members. *)
Theorem PluginDestroyed_ends_power_saver (b : Build) (h : Host)
  (s s1 : Placeholder) (c : list HostCall)
  (m : PowerSaverUnthrottleMethod) :
  PluginDestroyed h s = Returns tt s1 c ->
  power_saver_enabled_ s1 = false /\
  MarkPluginEssential b h m s1 = Returns tt s1 [] /\
  exists c', c = c' ++ [BasePluginDestroyed].
Proof.
  unfold PluginDestroyed. run.
  assert (G : forall s0 l,
            power_saver_enabled_ s0 = false ->
            (exists c', l = c' ++ [BasePluginDestroyed]) ->
            after l
              (modify (fun s2 => set_base (base_PluginDestroyed h (base s2)) s2)
                 s0) = Returns tt s1 c ->
            power_saver_enabled_ s1 = false /\
            MarkPluginEssential b h m s1 = Returns tt s1 [] /\
            exists c', c = c' ++ [BasePluginDestroyed]).
  { intros s0 l H0 [c' ->]. unfold modify. simpl. intros E.
    injection E as <- <-.
    split; [exact H0|]. split; [apply MarkPluginEssential_disabled; exact H0|].
    exists c'. rewrite ?app_nil_r. reflexivity. }
  destruct (power_saver_enabled_ s) eqn:Hp; run.
  - destruct (premade_throttler_ s) as [t|]; run.
    + destruct (GetWebPlugin t) as [wp|]; run; [|discriminate].
      apply G; [reflexivity|]. exists [PluginDestroy wp]. reflexivity.
    + destruct (is_blocked_for_power_saver_poster_ s); run.
      * apply G; [reflexivity|].
        exists [RecordUnthrottleMethodMetric UNTHROTTLE_METHOD_NEVER].
        reflexivity.
      * apply G; [reflexivity|]. exists []. reflexivity.
  - apply G; [exact Hp|]. exists []. reflexivity.
Qed.

Lemma PluginDestroyed_ends_power_saver_witness :
  exists s1,
    PluginDestroyed Sample.host Sample.poster =
    Returns tt s1
      [RecordUnthrottleMethodMetric UNTHROTTLE_METHOD_NEVER; BasePluginDestroyed] /\
    MarkPluginEssential DcheckOn Sample.host UNTHROTTLE_METHOD_BY_CLICK s1 =
    Returns tt s1 [].
Proof.
  eexists. split; [reflexivity|].
  apply (PluginDestroyed_ends_power_saver DcheckOn Sample.host Sample.poster _
           [RecordUnthrottleMethodMetric UNTHROTTLE_METHOD_NEVER;
            BasePluginDestroyed] UNTHROTTLE_METHOD_BY_CLICK eq_refl).
Defined.

(** ** The end of the placeholder's own load *)

(** X10.  [DidFinishLoadingCallback] is fatal, in every build, exactly when
    the placeholder's plugin is alive and has no container.  It hides a
    premade plugin behind the placeholder exactly when one is held and power
    saver is enabled.  When it returns, [finished_loading_] is set, no other
    member has changed, and with the plugin alive its last call asks the
    container to report the geometry again. *)
Theorem DidFinishLoadingCallback_edges (h : Host) (s : Placeholder) :
  is_fatal (DidFinishLoadingCallback h s) =
    is_some (plugin (base s)) && negb (plugin_container h) /\
  (forall t,
     In (SetHiddenForPlaceholder t true)
        (calls_of (DidFinishLoadingCallback h s)) <->
     premade_throttler_ s = Some t /\ power_saver_enabled_ s = true) /\
  (forall s1 c, DidFinishLoadingCallback h s = Returns tt s1 c ->
     s1 = set_finished_loading_ true s /\
     (plugin (base s) <> None -> exists c', c = c' ++ [ContainerReportGeometry])).
Proof.
  unfold DidFinishLoadingCallback, UpdateMessage. run. simpl.
  assert (N : forall t t' : PluginInstanceThrottler,
            SetHiddenForPlaceholder t' true = SetHiddenForPlaceholder t true ->
            Some t' = Some t) by (intros t t' E; injection E as ->; reflexivity).
  destruct (0 <? String.length (message_ s))%nat; run; simpl;
    destruct (plugin (base s)) as [p|]; cbn [is_some]; run;
    (destruct (premade_throttler_ s) as [t0|];
     [destruct (power_saver_enabled_ s)|]); run;
    unfold CHECK; try (destruct (plugin_container h)); run; simpl;
    (split; [reflexivity|]);
    (split;
     [intros t; split;
      [intros H; repeat (destruct H as [H|H]; try discriminate H);
       first [contradiction|split; [apply N; exact H|reflexivity]]
      |intros [E1 E2];
       first [discriminate E1|discriminate E2
             |injection E1 as ->; simpl; tauto]]
     |intros s1 c E;
      first [discriminate E
            |injection E as <- <-; split; [reflexivity|intros Hn]]]).
  all: try (contradiction Hn; reflexivity).
  all: try (eexists [_; _]; reflexivity).
  all: try (eexists [_]; reflexivity).
  all: try (exists []; reflexivity).
Qed.

Lemma DidFinishLoadingCallback_edges_witness :
  In (SetHiddenForPlaceholder Sample.throttler true)
     (calls_of (DidFinishLoadingCallback Sample.host Sample.throttled_poster)) /\
  exists c',
    calls_of (DidFinishLoadingCallback Sample.host Sample.throttled_poster) =
    c' ++ [ContainerReportGeometry].
Proof.
  destruct (DidFinishLoadingCallback_edges Sample.host Sample.throttled_poster)
    as (_ & Hide & Finished).
  split.
  - apply Hide. split; reflexivity.
  - destruct (Finished _ _ eq_refl) as (_ & Last).
    apply Last. discriminate.
Defined.

(** ** Handing over a premade plugin *)

(** X11.  [SetPremadePlugin] on a placeholder that holds no throttler stores
    the throttler, and from then on the scriptable object handed out is that
    of the throttler's plugin; once a load has got past the guards of
    [LoadPlugin] and returned, no scriptable object is handed out any more.
    In a build with [DCHECK]s on, a null throttler and a second throttler
    are fatal. *)
Theorem SetPremadePlugin_handover (b : Build) (h : Host)
  (t : PluginInstanceThrottler) (s : Placeholder) :
  premade_throttler_ s = None ->
  exists s1,
    SetPremadePlugin b (Some t) s = Returns tt s1 [] /\
    GetV8ScriptableObject s1 = GetWebPlugin t /\
    SetPremadePlugin DcheckOn None s = Stops DcheckFailed [] /\
    (forall t', SetPremadePlugin DcheckOn (Some t') s1 = Stops DcheckFailed []) /\
    (forall p s2 c, hidden (base s) = false -> plugin (base s) = Some p ->
                    allow_loading_ s = true ->
                    LoadPlugin b h s1 = Returns tt s2 c ->
                    GetV8ScriptableObject s2 = None).
Proof.
  intros Hn. exists (set_premade_throttler_ (Some t) s).
  split; [|split; [|split; [|split]]].
  - unfold SetPremadePlugin. run. rewrite Hn. simpl. rewrite !DCHECK_true.
    run. reflexivity.
  - reflexivity.
  - unfold SetPremadePlugin. run. reflexivity.
  - intros t'. unfold SetPremadePlugin. run. reflexivity.
  - intros p s2 c H1 H2 H3 E.
    destruct (LoadPlugin_premade b h (set_premade_throttler_ (Some t) s) p t
                H1 H2 H3 eq_refl) as (c' & _ & E').
    rewrite E' in E. injection E as <- _. reflexivity.
Qed.

Lemma SetPremadePlugin_handover_witness :
  exists s1,
    SetPremadePlugin DcheckOn (Some Sample.throttler) Sample.poster
      = Returns tt s1 [] /\
    GetV8ScriptableObject s1 = Some Sample.throttled_plugin.
Proof.
  destruct (SetPremadePlugin_handover DcheckOn Sample.host Sample.throttler
              Sample.poster eq_refl) as (s1 & Stored & Scriptable & _).
  exists s1. split; [exact Stored|exact Scriptable].
Defined.

(** ** Size updates, one after the other *)

Lemma OnUnobscuredRectUpdate_ignores (b : Build) (h : Host) (rect : gfx.Rect)
  (s : Placeholder) :
  ignores s rect = true -> OnUnobscuredRectUpdate b h rect s = Returns tt s [].
Proof.
  unfold ignores, OnUnobscuredRectUpdate. run.
  destruct (negb (is_some (plugin (base s))) || negb (finished_loading_ s));
    [reflexivity|].
  simpl. intros ->. reflexivity.
Qed.

Lemma OnUnobscuredRectUpdate_states (b : Build) (h : Host) (rect : gfx.Rect)
  (s s1 : Placeholder) (c : list HostCall) :
  OnUnobscuredRectUpdate b h rect s = Returns tt s1 c ->
  (ignores s rect = true /\ s1 = s /\ c = []) \/
  (ignores s rect = false /\ plugin_container h = true /\
   updated_from rect s s1 /\ exists c', c = classify_call h rect :: c').
Proof.
  unfold ignores, updated_from, OnUnobscuredRectUpdate. run.
  destruct (negb (is_some (plugin (base s))) || negb (finished_loading_ s)).
  { intros E. injection E as <- <-. left. auto. }
  destruct (gfx.eqb (unobscured_rect_ s) rect).
  { intros E. injection E as <- <-. left. auto. }
  simpl. run. destruct (plugin_container h); run; [|discriminate].
  fold (classify_call h rect). fold (classification h rect).
  destruct (is_delayed_placeholder_ s); run.
  { unfold modify. simpl. intros E. injection E as <- <-.
    right. repeat split; eauto. }
  destruct (is_blocked_for_power_saver_poster_ s); run.
  2:{ intros E. injection E as <- <-. right. repeat split; eauto. }
  destruct (negb (is_PERIPHERAL (classification h rect))); run.
  2:{ unfold modify. simpl. intros E. injection E as <- <-.
      right. split; [reflexivity|]. split; [reflexivity|].
      split; [|eauto]. right; right. repeat split.
      eexists. split; [left; reflexivity|reflexivity]. }
  match goal with |- context [MarkPluginEssential b h ?m] =>
    destruct (MarkPluginEssential b h m (set_unobscured_rect_ rect s))
      as [[] s' c'|f c'] eqn:E1 end.
  2:{ rewrite (bind_stops _ _ _ _ _ E1). discriminate. }
  rewrite (bind_returns _ _ _ _ _ _ E1). run.
  assert (St := MarkPluginEssential_states b h _ _ _ _ E1).
  destruct (negb (heuristic_run_before_ s') && _); run; unfold modify; simpl;
    intros E; injection E as <- <-;
    (right; split; [reflexivity|]; split; [reflexivity|]; split; [|eauto];
     right; right; repeat split; exists s'; split; [exact St|reflexivity]).
Qed.

Lemma updated_from_rect (rect : gfx.Rect) (s s1 : Placeholder) :
  updated_from rect s s1 -> unobscured_rect_ s1 = rect.
Proof.
  intros [[_ ->]|[(_ & _ & ->)|(_ & _ & s' & St & ->)]]; try reflexivity.
  destruct (marked_from_frame _ _ St)
    as ((_ & _ & _ & _ & _ & _ & _ & _ & _ & Fr & _) & _).
  simpl. rewrite Fr. reflexivity.
Qed.

(** X12.  A size update is acted on once: whatever the first update with a
    rect did, as soon as it has returned a further update with the same rect
    changes nothing and calls nothing, in any build and whatever the host
    answers then. *)
Theorem OnUnobscuredRectUpdate_once_per_rect (b b' : Build) (h h' : Host)
  (rect : gfx.Rect) (s s1 : Placeholder) (c : list HostCall) :
  OnUnobscuredRectUpdate b h rect s = Returns tt s1 c ->
  OnUnobscuredRectUpdate b' h' rect s1 = Returns tt s1 [].
Proof.
  intros E. apply OnUnobscuredRectUpdate_ignores.
  destruct (OnUnobscuredRectUpdate_states b h rect s s1 c E)
    as [(G & -> & _)|(_ & _ & U & _)]; [exact G|].
  unfold ignores. rewrite (updated_from_rect rect s s1 U), gfx_eqb_refl.
  apply orb_true_r.
Qed.

Lemma OnUnobscuredRectUpdate_once_per_rect_witness :
  exists s1,
    OnUnobscuredRectUpdate DcheckOn Sample.host Sample.small Sample.poster_loaded
    = Returns tt s1
        [classify_call Sample.host Sample.small;
         resize_call Sample.host Sample.small] /\
    OnUnobscuredRectUpdate DcheckOn Sample.host Sample.small s1
    = Returns tt s1 [].
Proof.
  eexists. split; [reflexivity|].
  apply (OnUnobscuredRectUpdate_once_per_rect DcheckOn DcheckOn Sample.host
           Sample.host Sample.small Sample.poster_loaded _
           [classify_call Sample.host Sample.small;
            resize_call Sample.host Sample.small] eq_refl).
Defined.

(** X13.  A throttled poster (power saver enabled, poster blocker set,
    loading allowed, not delayed) that receives an update past the early
    returns stays throttled exactly when the new size is classified
    peripheral: otherwise power saver is off and the poster blocker clear
    afterwards.  The load fires exactly when the size is not peripheral, no
    other blocker is set and the placeholder is not hidden. *)
Theorem poster_unthrottled_by_size (b : Build) (h : Host) (rect : gfx.Rect)
  (s : Placeholder) (p : WebPlugin) :
  plugin (base s) = Some p -> finished_loading_ s = true ->
  rect <> unobscured_rect_ s -> plugin_container h = true ->
  is_delayed_placeholder_ s = false -> allow_loading_ s = true ->
  is_blocked_for_power_saver_poster_ s = true ->
  power_saver_enabled_ s = true ->
  (exists s1 c,
     OnUnobscuredRectUpdate b h rect s = Returns tt s1 c /\
     power_saver_enabled_ s1 = is_PERIPHERAL (classification h rect) /\
     is_blocked_for_power_saver_poster_ s1 =
       is_PERIPHERAL (classification h rect)) /\
  load_fires (OnUnobscuredRectUpdate b h rect s) =
    negb (is_PERIPHERAL (classification h rect)) &&
    negb (is_blocked_for_background_tab_ s) &&
    negb (is_blocked_for_prerendering_ s) && negb (hidden (base s)).
Proof.
  intros Hp Hf Hr Hc Hd Ha Hb Hs.
  rewrite (OnUnobscuredRectUpdate_poster b h rect s p Hp Hf Hr Hc Hd Hb).
  destruct (is_PERIPHERAL (classification h rect)).
  { split; [|reflexivity]. eexists. eexists. split; [reflexivity|].
    simpl. auto. }
  set (m := if heuristic_run_before_ s
            then UNTHROTTLE_METHOD_BY_SIZE_CHANGE
            else UNTHROTTLE_METHOD_DO_NOT_RECORD).
  set (s0 := set_unobscured_rect_ rect s).
  assert (Ha0 : allow_loading_ s0 = true) by exact Ha.
  assert (Hs0 : power_saver_enabled_ s0 = true) by exact Hs.
  destruct (MarkPluginEssential_returns b h m s0 Ha0) as (s1 & c1 & E).
  assert (F : load_fires (MarkPluginEssential b h m s0) =
              negb (is_blocked_for_background_tab_ s) &&
              negb (is_blocked_for_prerendering_ s) && negb (hidden (base s))).
  { rewrite MarkPluginEssential_enabled by exact Hs0.
    rewrite load_fires_after, essential_report_no_load.
    replace (is_blocked_for_power_saver_poster_ s0) with true
      by (symmetry; exact Hb).
    rewrite load_unless_blocked_fires by exact Ha.
    unfold no_blocker. simpl. rewrite Hp. simpl.
    destruct (is_blocked_for_background_tab_ s),
      (is_blocked_for_prerendering_ s), (hidden (base s)); reflexivity. }
  assert (Q : is_blocked_for_power_saver_poster_ s1 = false).
  { rewrite MarkPluginEssential_enabled in E by exact Hs0.
    replace (is_blocked_for_power_saver_poster_ s0) with true in E
      by (symmetry; exact Hb).
    destruct (load_unless_blocked b h _) as [[] s2 c2|f c2] eqn:E2;
      simpl in E; [|discriminate E].
    injection E as <- _.
    destruct (load_unless_blocked_states b h _ _ _ E2) as [->| ->];
      reflexivity. }
  rewrite E in F. unfold load_fires in F. simpl in F.
  rewrite (bind_returns _ _ _ _ _ _ E). run. split.
  - destruct (negb (heuristic_run_before_ s1) && _); run; simpl;
      eexists; eexists; (split; [reflexivity|]); simpl;
      (split; [exact (MarkPluginEssential_returns_disabled b h m s0 s1 c1 E)
              |exact Q]).
  - destruct (negb (heuristic_run_before_ s1) && _); run;
      unfold load_fires; simpl; rewrite ?existsb_app, F; simpl;
      rewrite ?orb_false_r; reflexivity.
Qed.

Lemma poster_unthrottled_by_size_witness :
  load_fires (OnUnobscuredRectUpdate DcheckOn Sample.host Sample.big
                Sample.poster_loaded) = true /\
  load_fires (OnUnobscuredRectUpdate DcheckOn Sample.host Sample.small
                Sample.poster_loaded) = false.
Proof.
  destruct (poster_unthrottled_by_size DcheckOn Sample.host Sample.big
              Sample.poster_loaded Sample.placeholder_plugin
              eq_refl eq_refl ltac:(discriminate) eq_refl eq_refl eq_refl
              eq_refl eq_refl) as (_ & Big).
  destruct (poster_unthrottled_by_size DcheckOn Sample.host Sample.small
              Sample.poster_loaded Sample.placeholder_plugin
              eq_refl eq_refl ltac:(discriminate) eq_refl eq_refl eq_refl
              eq_refl eq_refl) as (_ & Small).
  split; [rewrite Big|rewrite Small]; reflexivity.
Defined.

(** X14.  Geometry reported before the placeholder has finished loading is
    dropped, and asked for again: with the plugin alive and its container
    there, an update with a new rect does nothing yet,
    [DidFinishLoadingCallback] ends by asking the container to report the
    geometry, and the same update is then acted on, starting with the
    classification of the new size. *)
Theorem geometry_asked_again (b : Build) (h : Host) (rect : gfx.Rect)
  (s : Placeholder) (p : WebPlugin) :
  plugin (base s) = Some p -> finished_loading_ s = false ->
  plugin_container h = true -> rect <> unobscured_rect_ s ->
  OnUnobscuredRectUpdate b h rect s = Returns tt s [] /\
  exists s1 c,
    DidFinishLoadingCallback h s = Returns tt s1 (c ++ [ContainerReportGeometry]) /\
    exists c',
      calls_of (OnUnobscuredRectUpdate b h rect s1) = classify_call h rect :: c'.
Proof.
  intros Hp Hf Hc Hr. split.
  - apply OnUnobscuredRectUpdate_ignores. unfold ignores. rewrite Hf.
    simpl. rewrite orb_true_r. reflexivity.
  - assert (D : exists c, DidFinishLoadingCallback h s =
                  Returns tt (set_finished_loading_ true s)
                    (c ++ [ContainerReportGeometry])).
    { unfold DidFinishLoadingCallback, UpdateMessage. run. simpl.
      rewrite Hp. cbn [is_some]. unfold CHECK. rewrite Hc.
      destruct (0 <? String.length (message_ s))%nat; run;
        (destruct (premade_throttler_ s) as [t|];
         [destruct (power_saver_enabled_ s)|]); run; simpl;
        rewrite ?Hp; run; simpl;
        first [exists []; reflexivity | eexists [_]; reflexivity
              | eexists [_; _]; reflexivity]. }
    destruct D as (c & D). exists (set_finished_loading_ true s), c.
    split; [exact D|].
    unfold OnUnobscuredRectUpdate. run. simpl. rewrite Hp. simpl.
    assert (E : gfx.eqb (unobscured_rect_ s) rect = false).
    { destruct (gfx.eqb (unobscured_rect_ s) rect) eqn:E; [|reflexivity].
      apply gfx_eqb_eq in E. symmetry in E. contradiction. }
    rewrite E. run. rewrite Hc. run. rewrite calls_of_after.
    fold (classify_call h rect). eexists. reflexivity.
Qed.

Lemma geometry_asked_again_witness :
  OnUnobscuredRectUpdate DcheckOn Sample.host Sample.big Sample.poster
    = Returns tt Sample.poster [] /\
  exists s1 c,
    DidFinishLoadingCallback Sample.host Sample.poster
      = Returns tt s1 (c ++ [ContainerReportGeometry]) /\
    exists c',
      calls_of (OnUnobscuredRectUpdate DcheckOn Sample.host Sample.big s1)
      = classify_call Sample.host Sample.big :: c'.
Proof.
  exact (geometry_asked_again DcheckOn Sample.host Sample.big Sample.poster
           Sample.placeholder_plugin eq_refl eq_refl eq_refl
           ltac:(discriminate)).
Defined.

(** ** What the handlers write *)

Lemma WasShown_states (b : Build) (h : Host) (s s1 : Placeholder)
  (c : list HostCall) :
  WasShown b h s = Returns tt s1 c ->
  s1 = s \/ s1 = set_is_blocked_for_background_tab_ false s \/
  s1 = set_premade_throttler_ None (set_is_blocked_for_background_tab_ false s).
Proof.
  destruct (is_blocked_for_background_tab_ s) eqn:Hb.
  - rewrite WasShown_blocked by exact Hb. intros E.
    destruct (load_unless_blocked_states b h _ _ _ E) as [->| ->]; auto.
  - rewrite WasShown_not_blocked by exact Hb. intros E.
    injection E as <- _. auto.
Qed.

Lemma OnSetIsPrerendering_states (b : Build) (h : Host) (ip : bool)
  (s s1 : Placeholder) (c : list HostCall) :
  OnSetIsPrerendering b h ip s = Returns tt s1 c ->
  s1 = s \/ s1 = set_is_blocked_for_prerendering_ false s \/
  s1 = set_premade_throttler_ None (set_is_blocked_for_prerendering_ false s).
Proof.
  assert (G : OnSetIsPrerendering b h ip s = Stops DcheckFailed [] \/
              OnSetIsPrerendering b h ip s = OnSetIsPrerendering b h false s).
  { destruct ip; [|auto]. destruct b; [left|right]; reflexivity. }
  destruct G as [-> | ->]; [discriminate|].
  destruct (is_blocked_for_prerendering_ s) eqn:Hb.
  - rewrite OnSetIsPrerendering_blocked by exact Hb. intros E.
    destruct (load_unless_blocked_states b h _ _ _ E) as [->| ->]; auto.
  - rewrite OnSetIsPrerendering_not_blocked by exact Hb. intros E.
    injection E as <- _. auto.
Qed.

Lemma OnLoadBlockedPlugins_states (b : Build) (h : Host) (id : string)
  (s s1 : Placeholder) (c : list HostCall) :
  OnLoadBlockedPlugins b h id s = Returns tt s1 c ->
  s1 = s \/ s1 = set_premade_throttler_ None s.
Proof.
  unfold OnLoadBlockedPlugins. run.
  destruct (negb _ && negb _).
  - intros E. injection E as <- _. auto.
  - run. destruct (LoadPlugin b h s) as [[] s2 c2|f c2] eqn:E2; simpl;
      intros E; [|discriminate E].
    injection E as <- _. exact (LoadPlugin_states b h s s2 c2 E2).
Qed.

Lemma LoadCallback_states (b : Build) (h : Host) (s s1 : Placeholder)
  (c : list HostCall) :
  LoadCallback b h s = Returns tt s1 c ->
  exists s', marked_from s s' /\ (s1 = s' \/ s1 = set_premade_throttler_ None s').
Proof.
  unfold LoadCallback. run.
  destruct (MarkPluginEssential b h UNTHROTTLE_METHOD_BY_CLICK s)
    as [[] s' c'|f c'] eqn:E1.
  2:{ rewrite (bind_stops _ _ _ _ _ E1). discriminate. }
  rewrite (bind_returns _ _ _ _ _ _ E1).
  destruct (LoadPlugin b h s') as [[] s2 c2|f c2] eqn:E2; simpl;
    intros E; [|discriminate E].
  injection E as <- _. exists s'.
  split; [exact (MarkPluginEssential_states b h _ s s' c' E1)|].
  exact (LoadPlugin_states b h s' s2 c2 E2).
Qed.

Lemma PluginDestroyed_states (h : Host) (s s1 : Placeholder)
  (c : list HostCall) :
  PluginDestroyed h s = Returns tt s1 c ->
  exists pb,
    s1 = set_base pb s \/
    s1 = set_base pb (set_power_saver_enabled_ false s) \/
    s1 = set_base pb
           (set_power_saver_enabled_ false (set_premade_throttler_ None s)).
Proof.
  unfold PluginDestroyed. run.
  destruct (power_saver_enabled_ s); run.
  - destruct (premade_throttler_ s) as [t|]; run.
    + destruct (GetWebPlugin t); run; [|discriminate].
      unfold modify. simpl. intros E. injection E as <- _. eauto.
    + destruct (is_blocked_for_power_saver_poster_ s); run;
        unfold modify; simpl; intros E; injection E as <- _; eauto.
  - unfold modify. simpl. intros E. injection E as <- _. eauto.
Qed.

Lemma DidFinishLoadingCallback_states (h : Host) (s s1 : Placeholder)
  (c : list HostCall) :
  DidFinishLoadingCallback h s = Returns tt s1 c ->
  s1 = set_finished_loading_ true s.
Proof.
  unfold DidFinishLoadingCallback, UpdateMessage. run. simpl.
  destruct (0 <? String.length (message_ s))%nat; run; simpl;
    destruct (plugin (base s)) as [p|]; cbn [is_some]; run;
    (destruct (premade_throttler_ s) as [t0|];
     [destruct (power_saver_enabled_ s)|]); run;
    unfold CHECK; try (destruct (plugin_container h)); run; simpl;
    intros E; first [discriminate E|injection E as <- _; reflexivity].
Qed.

Ltac frame_done :=
  unfold advances_but_poster; simpl;
  repeat split; intros; try assumption; try discriminate; try congruence.

(** Every handler of the file, [BlockForPowerSaverPoster] included: what it
    may have written once it has returned. *)
Lemma perform_frame (b : Build) (h : Host) (op : Operation)
  (s s1 : Placeholder) (c : list HostCall) :
  perform b h op s = Returns tt s1 c ->
  advances_but_poster s s1 /\
  (op <> OpBlockForPowerSaverPoster ->
   is_blocked_for_power_saver_poster_ s1 = true ->
   is_blocked_for_power_saver_poster_ s = true) /\
  (op <> OpWasShown ->
   is_blocked_for_background_tab_ s1 = is_blocked_for_background_tab_ s) /\
  ((forall ip, op <> OpOnSetIsPrerendering ip) ->
   is_blocked_for_prerendering_ s1 = is_blocked_for_prerendering_ s) /\
  (match op with
   | OpMarkPluginEssential _ | OpLoadCallback | OpOnUnobscuredRectUpdate _
   | OpBlockForPowerSaverPoster => True
   | _ => is_blocked_for_power_saver_poster_ s1 =
          is_blocked_for_power_saver_poster_ s
   end).
Proof.
  destruct op; simpl perform; intros E.
  - revert E. unfold BlockForPowerSaverPoster. run.
    destruct b, (is_blocked_for_power_saver_poster_ s); simpl DCHECK; run;
      unfold call; intros E; try discriminate E; injection E as <- _;
      frame_done.
  - destruct (MarkPluginEssential_states b h _ s s1 c E) as [->|[->|[->| ->]]];
      frame_done.
  - destruct (plugin (base s)) as [p|] eqn:Hp.
    + destruct (ReplacePlugin_returns h new_plugin s p Hp) as (c' & E' & _).
      rewrite E' in E. injection E as <- _. frame_done.
    + revert E. unfold ReplacePlugin. run. rewrite Hp. discriminate.
  - revert E. unfold SetMessage, UpdateMessage. run. simpl.
    destruct (finished_loading_ s) eqn:Hf; run; simpl;
      [destruct (plugin (base s))|]; unfold call, done, ret;
      intros E; injection E as <- _; frame_done.
  - revert E. unfold UpdateMessage. run.
    destruct (plugin (base s)); unfold call, done, ret;
      intros E; injection E as <- _; frame_done.
  - destruct (PluginDestroyed_states h s s1 c E) as (pb & [->|[->| ->]]);
      frame_done.
  - destruct (OnUnobscuredRectUpdate_states b h _ s s1 c E)
      as [(_ & -> & _)|(_ & _ & U & _)]; [frame_done|].
    destruct U as [[_ ->]|[(_ & _ & ->)|(_ & _ & s' & St & ->)]];
      [frame_done|frame_done|].
    destruct St as [->|[->|[->| ->]]]; frame_done.
  - destruct (WasShown_states b h s s1 c E) as [->|[->| ->]]; frame_done.
  - destruct (OnLoadBlockedPlugins_states b h _ s s1 c E) as [->| ->];
      frame_done.
  - destruct (OnSetIsPrerendering_states b h _ s s1 c E) as [->|[->| ->]];
      frame_done;
      match goal with H : forall ip, _ <> _ |- _ =>
        contradiction (H is_prerendering); reflexivity end.
  - destruct (LoadPlugin_states b h s s1 c E) as [->| ->]; frame_done.
  - destruct (LoadCallback_states b h s s1 c E) as (s' & St & [->| ->]);
      destruct St as [->|[->|[->| ->]]]; frame_done.
  - rewrite (DidFinishLoadingCallback_states h s s1 c E). frame_done.
  - revert E. unfold DidFinishIconRepositionForTestingCallback. run.
    destruct (plugin (base s)); [destruct (plugin_container h)|]; run;
      intros E; try discriminate E; injection E as <- _; frame_done.
  - revert E. unfold SetPluginInfo, modify. intros E. injection E as <- _.
    frame_done.
  - revert E. unfold SetIdentifier, modify. intros E. injection E as <- _.
    frame_done.
Qed.

(** X15.  No handler goes back.  Whatever operation of the file returns,
    loading is allowed or not as before, the tab and prerendering blockers
    are not set by it, power saver is not enabled again, a placeholder does
    not become delayed again, and [finished_loading_] and
    [heuristic_run_before_] are not reset; the poster blocker is set by
    [BlockForPowerSaverPoster] alone. *)
Theorem handlers_only_advance (b : Build) (h : Host) (op : Operation)
  (s s1 : Placeholder) (c : list HostCall) :
  perform b h op s = Returns tt s1 c ->
  advances_but_poster s s1 /\
  (op <> OpBlockForPowerSaverPoster -> advances s s1).
Proof.
  intros E. destruct (perform_frame b h op s s1 c E) as (A & P & _).
  split; [exact A|]. intros N. split; [exact A|exact (P N)].
Qed.

Lemma handlers_only_advance_witness :
  exists s1 c,
    perform DcheckOn Sample.host (OpOnUnobscuredRectUpdate Sample.big)
      Sample.poster_loaded = Returns tt s1 c /\
    advances Sample.poster_loaded s1.
Proof.
  eexists. eexists. split; [reflexivity|].
  apply (handlers_only_advance DcheckOn Sample.host
           (OpOnUnobscuredRectUpdate Sample.big) Sample.poster_loaded _ _
           eq_refl).
  discriminate.
Defined.

(** X16.  Each blocker has its own handlers.  The tab blocker is changed
    by [WasShown] only and the prerendering blocker by
    [OnSetIsPrerendering] only; the poster blocker is changed only by
    [BlockForPowerSaverPoster], which sets it, and by
    [MarkPluginEssential], directly or from a click or a size update. *)
Theorem blocker_owners (b : Build) (h : Host) (op : Operation)
  (s s1 : Placeholder) (c : list HostCall) :
  perform b h op s = Returns tt s1 c ->
  (op <> OpWasShown ->
   is_blocked_for_background_tab_ s1 = is_blocked_for_background_tab_ s) /\
  ((forall ip, op <> OpOnSetIsPrerendering ip) ->
   is_blocked_for_prerendering_ s1 = is_blocked_for_prerendering_ s) /\
  (match op with
   | OpMarkPluginEssential _ | OpLoadCallback | OpOnUnobscuredRectUpdate _
   | OpBlockForPowerSaverPoster => True
   | _ => is_blocked_for_power_saver_poster_ s1 =
          is_blocked_for_power_saver_poster_ s
   end).
Proof.
  intros E. destruct (perform_frame b h op s s1 c E) as (_ & _ & O). exact O.
Qed.

Lemma blocker_owners_witness :
  exists s1 c,
    perform DcheckOn Sample.host OpWasShown Sample.in_background_poster
      = Returns tt s1 c /\
    is_blocked_for_background_tab_ s1 = false /\
    is_blocked_for_power_saver_poster_ s1 = true.
Proof.
  eexists. eexists. split; [reflexivity|]. split; [reflexivity|].
  destruct (blocker_owners DcheckOn Sample.host OpWasShown
              Sample.in_background_poster _ _ eq_refl) as (_ & _ & Poster).
  exact Poster.
Defined.

(** ** What the handlers call *)

Lemma forallb_silent (Q P : HostCall -> bool) (l : list HostCall) :
  forallb Q l = true -> (forall c, Q c = true -> P c = false) ->
  existsb P l = false.
Proof.
  intros Hq Hp. induction l as [|c l IH]; [reflexivity|].
  simpl in *. apply andb_true_iff in Hq. destruct Hq as [Hc Hl].
  rewrite (Hp c Hc), (IH Hl). reflexivity.
Qed.

Lemma ReplacePlugin_vocabulary (h : Host) (np : option WebPlugin)
  (s : Placeholder) :
  forallb swap_call (calls_of (ReplacePlugin h np s)) = true.
Proof.
  unfold ReplacePlugin. run. destruct (plugin (base s)); [|reflexivity].
  destruct np as [n|]; [|reflexivity].
  destruct (plugin_container_at_swap h); cbn [negb]; [|reflexivity].
  run. destruct (plugin_needs_initialization s n); run.
  - destruct (initialize h n); cbn [negb].
    + destruct (element_plugin_container h); reflexivity.
    + destruct (new_plugin_container h n); reflexivity.
  - destruct (element_plugin_container h); reflexivity.
Qed.

Lemma LoadPlugin_vocabulary (b : Build) (h : Host) (s : Placeholder) :
  forallb load_call (calls_of (LoadPlugin b h s)) = true.
Proof.
  assert (W : forall l, forallb swap_call l = true -> forallb load_call l = true).
  { intros l Hl. apply forallb_forall. intros c Hc. unfold load_call.
    rewrite (proj1 (forallb_forall _ _) Hl c Hc). apply orb_true_r. }
  unfold LoadPlugin. run.
  destruct (hidden (base s)); [reflexivity|].
  destruct (negb (is_some (plugin (base s)))); [reflexivity|].
  destruct (negb (allow_loading_ s)); [destruct b; reflexivity|].
  destruct (premade_throttler_ s) as [t|]; run.
  - rewrite calls_of_after, calls_of_bind.
    assert (V := ReplacePlugin_vocabulary h (GetWebPlugin t) s).
    destruct (ReplacePlugin h (GetWebPlugin t) s); simpl in *;
      rewrite ?app_nil_r; apply W; exact V.
  - rewrite calls_of_after. simpl. apply W, ReplacePlugin_vocabulary.
Qed.

Lemma LoadPlugin_silent (P : HostCall -> bool) (b : Build) (h : Host)
  (s : Placeholder) :
  (forall c, load_call c = true -> P c = false) -> silent P (LoadPlugin b h s).
Proof.
  intros Hp. exact (forallb_silent load_call P _ (LoadPlugin_vocabulary b h s) Hp).
Qed.

Lemma load_unless_blocked_silent (P : HostCall -> bool) (b : Build) (h : Host)
  (s : Placeholder) :
  (forall c, load_call c = true -> P c = false) ->
  silent P (load_unless_blocked b h s).
Proof.
  intros Hp. unfold load_unless_blocked.
  destruct (LoadingBlocked_cases b s) as [E|E].
  - rewrite (bind_returns _ _ _ _ _ _ E), after_nil.
    destruct (negb (no_blocker s)); [reflexivity|].
    apply LoadPlugin_silent, Hp.
  - rewrite (bind_stops _ _ _ _ _ E). reflexivity.
Qed.

Lemma MarkPluginEssential_silent (P : HostCall -> bool) (b : Build) (h : Host)
  (m : PowerSaverUnthrottleMethod) (s : Placeholder) :
  (forall c, load_call c = true -> P c = false) ->
  existsb P (essential_report s m) = false ->
  silent P (MarkPluginEssential b h m s).
Proof.
  intros Hp Hr. destruct (power_saver_enabled_ s) eqn:Hs.
  - rewrite MarkPluginEssential_enabled by exact Hs.
    apply silent_after; [exact Hr|].
    destruct (is_blocked_for_power_saver_poster_ s); [|reflexivity].
    apply load_unless_blocked_silent, Hp.
  - rewrite MarkPluginEssential_disabled by exact Hs. reflexivity.
Qed.

Lemma essential_report_no_sentinel (s : Placeholder)
  (m : PowerSaverUnthrottleMethod) :
  existsb records_sentinel (essential_report s m) = false.
Proof.
  unfold essential_report. destruct (premade_throttler_ s); [reflexivity|].
  destruct m; reflexivity.
Qed.

Lemma load_call_no_sentinel (c : HostCall) :
  load_call c = true -> records_sentinel c = false.
Proof. destruct c; try reflexivity; discriminate. Qed.

Ltac silent_leaf :=
  unfold silent, call, modify, done, ret, stop; simpl; reflexivity.

(** A size update, when the calls it makes itself and those of
    [MarkPluginEssential] are free of [P]. *)
Lemma OnUnobscuredRectUpdate_silent (P : HostCall -> bool) (b : Build)
  (h : Host) (rect : gfx.Rect) (s : Placeholder) :
  (forall m, silent P (MarkPluginEssential b h m (set_unobscured_rect_ rect s))) ->
  (forall c, is_report c = false -> load_call c = false -> P c = false) ->
  silent P (OnUnobscuredRectUpdate b h rect s).
Proof.
  intros Hm Hp. unfold OnUnobscuredRectUpdate. run.
  destruct (negb (is_some (plugin (base s))) || negb (finished_loading_ s));
    [silent_leaf|].
  destruct (gfx.eqb (unobscured_rect_ s) rect); [silent_leaf|].
  run. destruct (plugin_container h); run; [|silent_leaf].
  apply silent_after; [simpl; rewrite Hp; reflexivity|].
  destruct (is_delayed_placeholder_ s); run.
  { unfold silent, modify. simpl. rewrite Hp; reflexivity. }
  destruct (is_blocked_for_power_saver_poster_ s); run; [|silent_leaf].
  apply silent_after; [simpl; rewrite Hp; reflexivity|].
  destruct (negb (is_PERIPHERAL _)); run; [|silent_leaf].
  apply silent_bind; [apply Hm|].
  intros [] s1 c _. run.
  destruct (negb (heuristic_run_before_ s1) && _); run;
    unfold silent, modify; simpl; rewrite ?Hp; reflexivity.
Qed.

Ltac silent_by H :=
  unfold silent, call, modify, done, ret, stop; simpl;
  rewrite ?H by reflexivity; reflexivity.

(** The operations that report nothing about unthrottling: for them, a
    property [P] of calls that holds of no call of the load and of no other
    call but a report holds of no call they make. *)
Lemma perform_silent (P : HostCall -> bool) (b : Build) (h : Host)
  (op : Operation) (s : Placeholder) :
  reports_nothing op = true ->
  (forall c, load_call c = true -> P c = false) ->
  (forall c, is_report c = false -> load_call c = false -> P c = false) ->
  silent P (perform b h op s).
Proof.
  intros Hop Hl Hp.
  destruct op; try discriminate Hop; simpl perform.
  - unfold BlockForPowerSaverPoster. run.
    destruct b, (is_blocked_for_power_saver_poster_ s); simpl DCHECK; run;
      silent_by Hp.
  - apply (forallb_silent swap_call); [apply ReplacePlugin_vocabulary|].
    intros c Hc. apply Hl. unfold load_call. rewrite Hc. apply orb_true_r.
  - unfold SetMessage, UpdateMessage. run. simpl.
    destruct (finished_loading_ s); run; simpl; [|silent_leaf].
    destruct (plugin (base s)); silent_by Hp.
  - unfold UpdateMessage. run. destruct (plugin (base s)); silent_by Hp.
  - destruct (is_blocked_for_background_tab_ s) eqn:E.
    + rewrite WasShown_blocked by exact E.
      apply load_unless_blocked_silent. exact Hl.
    + rewrite WasShown_not_blocked by exact E. reflexivity.
  - unfold OnLoadBlockedPlugins. run.
    destruct (negb _ && negb _); [silent_leaf|]. run.
    apply silent_after; [simpl; rewrite Hp; reflexivity|].
    apply LoadPlugin_silent. exact Hl.
  - destruct is_prerendering.
    + unfold OnSetIsPrerendering. destruct b; simpl DCHECK.
      * rewrite bind_stop. reflexivity.
      * run. destruct (is_blocked_for_prerendering_ s); run;
          [apply load_unless_blocked_silent; exact Hl|silent_leaf].
    + destruct (is_blocked_for_prerendering_ s) eqn:E.
      * rewrite OnSetIsPrerendering_blocked by exact E.
        apply load_unless_blocked_silent. exact Hl.
      * rewrite OnSetIsPrerendering_not_blocked by exact E. reflexivity.
  - apply LoadPlugin_silent. exact Hl.
  - unfold DidFinishLoadingCallback, UpdateMessage. run. simpl.
    destruct (0 <? String.length (message_ s))%nat; run; simpl;
      destruct (plugin (base s)); cbn [is_some]; run;
      (destruct (premade_throttler_ s) as [t0|];
       [destruct (power_saver_enabled_ s)|]); run;
      unfold CHECK; try (destruct (plugin_container h)); run;
      unfold silent; simpl; rewrite ?Hp by reflexivity;
      rewrite ?(Hl ContainerReportGeometry) by reflexivity; reflexivity.
  - unfold DidFinishIconRepositionForTestingCallback. run.
    destruct (plugin (base s)); [destruct (plugin_container h)|]; run;
      silent_by Hp.
  - silent_leaf.
  - silent_leaf.
Qed.

Lemma no_report_no_sentinel (c : HostCall) :
  is_report c = false -> load_call c = false -> records_sentinel c = false.
Proof. destruct c; try reflexivity; discriminate. Qed.

(** X17.  The sentinel never reaches the metric: no operation of the file,
    on any object and whatever the host answers, records
    [UNTHROTTLE_METHOD_DO_NOT_RECORD] as the method by which a plugin was
    unthrottled, not even [MarkPluginEssential] called with the sentinel. *)
Theorem sentinel_never_recorded (b : Build) (h : Host) (op : Operation)
  (s : Placeholder) :
  silent records_sentinel (perform b h op s).
Proof.
  assert (M : forall m s0,
            silent records_sentinel (MarkPluginEssential b h m s0)).
  { intros m s0. apply MarkPluginEssential_silent;
      [exact load_call_no_sentinel|apply essential_report_no_sentinel]. }
  destruct (reports_nothing op) eqn:Hop.
  { apply perform_silent;
      [exact Hop|exact load_call_no_sentinel|exact no_report_no_sentinel]. }
  destruct op; try discriminate Hop; simpl perform.
  - apply M.
  - unfold PluginDestroyed. run.
    destruct (power_saver_enabled_ s); run;
      [destruct (premade_throttler_ s) as [t|]; run;
       [destruct (GetWebPlugin t); run
       |destruct (is_blocked_for_power_saver_poster_ s); run]|];
      silent_leaf.
  - apply OnUnobscuredRectUpdate_silent;
      [intros m; apply M|exact no_report_no_sentinel].
  - unfold LoadCallback. run. apply silent_after; [reflexivity|].
    apply silent_bind; [apply M|].
    intros [] s1 c _. apply LoadPlugin_silent. exact load_call_no_sentinel.
Qed.

(** ** A placeholder that must not load *)

Lemma LoadPlugin_guarded (b : Build) (h : Host) (s : Placeholder) :
  may_load s = false -> calls_of (LoadPlugin b h s) = [].
Proof.
  unfold may_load. intros G.
  destruct (hidden (base s)) eqn:H1.
  { rewrite LoadPlugin_hidden by assumption. reflexivity. }
  destruct (plugin (base s)) as [p|] eqn:H2.
  2:{ rewrite LoadPlugin_no_plugin by assumption. reflexivity. }
  destruct (allow_loading_ s) eqn:H3; [discriminate G|].
  rewrite (LoadPlugin_not_allowed b h s p H1 H2 H3). destruct b; reflexivity.
Qed.

Lemma load_unless_blocked_guarded (b : Build) (h : Host) (s : Placeholder) :
  may_load s = false -> calls_of (load_unless_blocked b h s) = [].
Proof.
  intros G. unfold load_unless_blocked.
  destruct (LoadingBlocked_cases b s) as [E|E].
  - rewrite (bind_returns _ _ _ _ _ _ E), after_nil.
    destruct (negb (no_blocker s)); [reflexivity|].
    apply LoadPlugin_guarded, G.
  - rewrite (bind_stops _ _ _ _ _ E). reflexivity.
Qed.

Lemma MarkPluginEssential_guarded (b : Build) (h : Host)
  (m : PowerSaverUnthrottleMethod) (s : Placeholder) :
  may_load s = false ->
  calls_of (MarkPluginEssential b h m s) =
  if power_saver_enabled_ s then essential_report s m else [].
Proof.
  intros G. destruct (power_saver_enabled_ s) eqn:Hs.
  - rewrite MarkPluginEssential_enabled by exact Hs. rewrite calls_of_after.
    destruct (is_blocked_for_power_saver_poster_ s).
    + rewrite load_unless_blocked_guarded by exact G. apply app_nil_r.
    + apply app_nil_r.
  - rewrite MarkPluginEssential_disabled by exact Hs. reflexivity.
Qed.

Lemma MarkPluginEssential_guarded_silent (P : HostCall -> bool) (b : Build)
  (h : Host) (m : PowerSaverUnthrottleMethod) (s : Placeholder) :
  may_load s = false -> (forall c, is_report c = true -> P c = false) ->
  silent P (MarkPluginEssential b h m s).
Proof.
  intros G Hp. unfold silent. rewrite MarkPluginEssential_guarded by exact G.
  destruct (power_saver_enabled_ s); [|reflexivity].
  unfold essential_report. destruct (premade_throttler_ s); simpl.
  - rewrite Hp; reflexivity.
  - destruct (is_DO_NOT_RECORD m); simpl; [|rewrite Hp]; reflexivity.
Qed.

Lemma marked_from_may_load (s s1 : Placeholder) :
  marked_from s s1 -> may_load s1 = may_load s.
Proof. intros [->|[->|[->| ->]]]; reflexivity. Qed.

Lemma LoadCallback_guarded_silent (P : HostCall -> bool) (b : Build)
  (h : Host) (s : Placeholder) :
  may_load s = false -> (forall c, is_report c = true -> P c = false) ->
  P (RecordAction "Plugin_Load_Click") = false ->
  silent P (LoadCallback b h s).
Proof.
  intros G Hp Ha. unfold LoadCallback. run.
  apply silent_after; [simpl; rewrite Ha; reflexivity|].
  apply silent_bind; [apply MarkPluginEssential_guarded_silent; assumption|].
  intros [] s1 c E. unfold silent.
  rewrite LoadPlugin_guarded; [reflexivity|].
  rewrite (marked_from_may_load s s1
             (MarkPluginEssential_states b h _ s s1 c E)). exact G.
Qed.

Lemma load_call_guarded_silent (P : HostCall -> bool) (b : Build) (h : Host)
  (s : Placeholder) :
  may_load s = false ->
  silent P (LoadPlugin b h s) /\ silent P (load_unless_blocked b h s).
Proof.
  intros G. unfold silent.
  rewrite LoadPlugin_guarded, load_unless_blocked_guarded by exact G.
  split; reflexivity.
Qed.

(** X18.  A placeholder that is hidden, has lost its plugin or has not been
    allowed to load is never loaded: whatever operation of the file is
    performed on it, in any build and whatever the host answers, the
    premade plugin is not unhidden and the embedder is not asked for a
    plugin. *)
Theorem guarded_never_loads (b : Build) (h : Host) (op : Operation)
  (s : Placeholder) :
  hidden (base s) = true \/ plugin (base s) = None \/ allow_loading_ s = false ->
  load_fires (perform b h op s) = false.
Proof.
  intros H.
  assert (G : may_load s = false).
  { unfold may_load. destruct H as [->|[->| ->]]; simpl;
      rewrite ?andb_false_r; reflexivity. }
  clear H. change (silent starts_load (perform b h op s)).
  assert (R : forall c, is_report c = true -> starts_load c = false)
    by (destruct c; try reflexivity; discriminate).
  assert (N : forall c, is_report c = false -> load_call c = false ->
                        starts_load c = false).
  { intros c _. unfold load_call. intros E.
    apply orb_false_iff in E. exact (proj1 E). }
  destruct op; simpl perform.
  - unfold BlockForPowerSaverPoster. run.
    destruct b, (is_blocked_for_power_saver_poster_ s); simpl DCHECK; run;
      silent_leaf.
  - apply MarkPluginEssential_guarded_silent; assumption.
  - apply (forallb_silent swap_call); [apply ReplacePlugin_vocabulary|].
    destruct c; try reflexivity; discriminate.
  - unfold SetMessage, UpdateMessage. run. simpl.
    destruct (finished_loading_ s); run; simpl; [|silent_leaf].
    destruct (plugin (base s)); silent_leaf.
  - unfold UpdateMessage. run. destruct (plugin (base s)); silent_leaf.
  - unfold PluginDestroyed. run.
    destruct (power_saver_enabled_ s); run;
      [destruct (premade_throttler_ s) as [t|]; run;
       [destruct (GetWebPlugin t); run
       |destruct (is_blocked_for_power_saver_poster_ s); run]|];
      silent_leaf.
  - apply OnUnobscuredRectUpdate_silent; [|exact N].
    intros m. apply MarkPluginEssential_guarded_silent; assumption.
  - destruct (is_blocked_for_background_tab_ s) eqn:E.
    + rewrite WasShown_blocked by exact E.
      apply load_call_guarded_silent. exact G.
    + rewrite WasShown_not_blocked by exact E. reflexivity.
  - unfold OnLoadBlockedPlugins. run.
    destruct (negb _ && negb _); [silent_leaf|]. run.
    apply silent_after; [reflexivity|].
    apply load_call_guarded_silent. exact G.
  - destruct is_prerendering.
    + unfold OnSetIsPrerendering. destruct b; simpl DCHECK.
      * rewrite bind_stop. reflexivity.
      * run. destruct (is_blocked_for_prerendering_ s); run;
          [apply load_call_guarded_silent; exact G|silent_leaf].
    + destruct (is_blocked_for_prerendering_ s) eqn:E.
      * rewrite OnSetIsPrerendering_blocked by exact E.
        apply load_call_guarded_silent. exact G.
      * rewrite OnSetIsPrerendering_not_blocked by exact E. reflexivity.
  - apply load_call_guarded_silent. exact G.
  - apply LoadCallback_guarded_silent; [exact G|exact R|reflexivity].
  - unfold DidFinishLoadingCallback, UpdateMessage. run. simpl.
    destruct (0 <? String.length (message_ s))%nat; run; simpl;
      destruct (plugin (base s)); cbn [is_some]; run;
      (destruct (premade_throttler_ s) as [t0|];
       [destruct (power_saver_enabled_ s)|]); run;
      unfold CHECK; try (destruct (plugin_container h)); run; silent_leaf.
  - unfold DidFinishIconRepositionForTestingCallback. run.
    destruct (plugin (base s)); [destruct (plugin_container h)|]; run;
      silent_leaf.
  - silent_leaf.
  - silent_leaf.
Qed.

Lemma guarded_never_loads_witness :
  load_fires (perform DcheckOn Sample.host OpLoadCallback Sample.hidden_poster)
    = false /\
  load_fires (perform DcheckOn Sample.host OpLoadCallback Sample.poster) = true.
Proof.
  split; [|reflexivity].
  apply (guarded_never_loads DcheckOn Sample.host OpLoadCallback
           Sample.hidden_poster).
  left. reflexivity.
Defined.

(** With the placeholder's plugin gone, no call is made through it. *)
Lemma plugin_gone_silent (b : Build) (h : Host) (op : Operation)
  (s : Placeholder) :
  plugin (base s) = None -> silent uses_plugin (perform b h op s).
Proof.
  intros Hp.
  assert (G : may_load s = false).
  { unfold may_load. rewrite Hp. apply andb_false_r. }
  assert (R : forall c, is_report c = true -> uses_plugin c = false)
    by (destruct c; try reflexivity; discriminate).
  destruct op; simpl perform.
  - unfold BlockForPowerSaverPoster. run.
    destruct b, (is_blocked_for_power_saver_poster_ s); simpl DCHECK; run;
      silent_leaf.
  - apply MarkPluginEssential_guarded_silent; assumption.
  - unfold ReplacePlugin. run. rewrite Hp. reflexivity.
  - unfold SetMessage, UpdateMessage. run. simpl.
    destruct (finished_loading_ s); run; simpl; rewrite ?Hp; silent_leaf.
  - unfold UpdateMessage. run. rewrite Hp. reflexivity.
  - unfold PluginDestroyed. run.
    destruct (power_saver_enabled_ s); run;
      [destruct (premade_throttler_ s) as [t|]; run;
       [destruct (GetWebPlugin t); run
       |destruct (is_blocked_for_power_saver_poster_ s); run]|];
      silent_leaf.
  - rewrite OnUnobscuredRectUpdate_ignores; [reflexivity|].
    unfold ignores. rewrite Hp. reflexivity.
  - destruct (is_blocked_for_background_tab_ s) eqn:E.
    + rewrite WasShown_blocked by exact E.
      apply load_call_guarded_silent. exact G.
    + rewrite WasShown_not_blocked by exact E. reflexivity.
  - unfold OnLoadBlockedPlugins. run.
    destruct (negb _ && negb _); [silent_leaf|]. run.
    apply silent_after; [reflexivity|].
    apply load_call_guarded_silent. exact G.
  - destruct is_prerendering.
    + unfold OnSetIsPrerendering. destruct b; simpl DCHECK.
      * rewrite bind_stop. reflexivity.
      * run. destruct (is_blocked_for_prerendering_ s); run;
          [apply load_call_guarded_silent; exact G|silent_leaf].
    + destruct (is_blocked_for_prerendering_ s) eqn:E.
      * rewrite OnSetIsPrerendering_blocked by exact E.
        apply load_call_guarded_silent. exact G.
      * rewrite OnSetIsPrerendering_not_blocked by exact E. reflexivity.
  - apply load_call_guarded_silent. exact G.
  - apply LoadCallback_guarded_silent; [exact G|exact R|reflexivity].
  - unfold DidFinishLoadingCallback, UpdateMessage. run. simpl. rewrite Hp.
    destruct (0 <? String.length (message_ s))%nat; run; simpl;
      rewrite ?Hp; cbn [is_some]; run;
      (destruct (premade_throttler_ s) as [t0|];
       [destruct (power_saver_enabled_ s)|]); run; silent_leaf.
  - unfold DidFinishIconRepositionForTestingCallback. run. rewrite Hp.
    reflexivity.
  - silent_leaf.
  - silent_leaf.
Qed.

Lemma no_null_dereference_after {A} (c : list HostCall) (o : Outcome A) :
  no_null_dereference o -> no_null_dereference (after c o).
Proof. destruct o as [a s c'|[] c']; exact (fun H => H). Qed.

Lemma no_null_dereference_bind {A B} (m : M A) (k : A -> M B)
  (s : Placeholder) :
  no_null_dereference (m s) ->
  (forall a s1 c, m s = Returns a s1 c -> no_null_dereference (k a s1)) ->
  no_null_dereference (bind m k s).
Proof.
  intros Hm Hk. destruct (m s) as [a s1 c|f c] eqn:E.
  - rewrite (bind_returns _ _ _ _ _ _ E). apply no_null_dereference_after.
    exact (Hk a s1 c eq_refl).
  - rewrite (bind_stops _ _ _ _ _ E). exact Hm.
Qed.

Lemma LoadPlugin_no_null_dereference (b : Build) (h : Host) (s : Placeholder) :
  no_null_dereference (LoadPlugin b h s).
Proof.
  destruct (LoadPlugin_cases b h s) as [[c ->]|[[c ->]| ->]]; exact I.
Qed.

Lemma load_unless_blocked_no_null_dereference (b : Build) (h : Host)
  (s : Placeholder) :
  no_null_dereference (load_unless_blocked b h s).
Proof.
  unfold load_unless_blocked.
  destruct (LoadingBlocked_cases b s) as [E|E].
  - rewrite (bind_returns _ _ _ _ _ _ E), after_nil.
    destruct (negb (no_blocker s)); [exact I|].
    apply LoadPlugin_no_null_dereference.
  - rewrite (bind_stops _ _ _ _ _ E). exact I.
Qed.

Lemma MarkPluginEssential_no_null_dereference (b : Build) (h : Host)
  (m : PowerSaverUnthrottleMethod) (s : Placeholder) :
  no_null_dereference (MarkPluginEssential b h m s).
Proof.
  destruct (power_saver_enabled_ s) eqn:Hs.
  - rewrite MarkPluginEssential_enabled by exact Hs.
    apply no_null_dereference_after.
    destruct (is_blocked_for_power_saver_poster_ s); [|exact I].
    apply load_unless_blocked_no_null_dereference.
  - rewrite MarkPluginEssential_disabled by exact Hs. exact I.
Qed.

Ltac deref_leaf :=
  unfold call, modify, done, ret, stop; cbv beta;
  first [exact I | apply no_null_dereference_after; exact I].

(** With the placeholder's plugin gone, the operations other than
    [PluginDestroyed] and [DidFinishIconRepositionForTestingCallback]
    dereference no null pointer. *)
Lemma plugin_gone_no_null_dereference (b : Build) (h : Host) (op : Operation)
  (s : Placeholder) :
  plugin (base s) = None ->
  op <> OpPluginDestroyed ->
  op <> OpDidFinishIconRepositionForTestingCallback ->
  no_null_dereference (perform b h op s).
Proof.
  intros Hp N1 N2. destruct op; simpl perform.
  - unfold BlockForPowerSaverPoster. run.
    destruct b, (is_blocked_for_power_saver_poster_ s); simpl DCHECK; run;
      deref_leaf.
  - apply MarkPluginEssential_no_null_dereference.
  - unfold ReplacePlugin. run. rewrite Hp. exact I.
  - unfold SetMessage, UpdateMessage. run. simpl.
    destruct (finished_loading_ s); run; simpl; rewrite ?Hp; deref_leaf.
  - unfold UpdateMessage. run. rewrite Hp. exact I.
  - contradiction N1. reflexivity.
  - rewrite OnUnobscuredRectUpdate_ignores; [exact I|].
    unfold ignores. rewrite Hp. reflexivity.
  - destruct (is_blocked_for_background_tab_ s) eqn:E.
    + rewrite WasShown_blocked by exact E.
      apply load_unless_blocked_no_null_dereference.
    + rewrite WasShown_not_blocked by exact E. exact I.
  - unfold OnLoadBlockedPlugins. run.
    destruct (negb _ && negb _); [exact I|]. run.
    apply no_null_dereference_after, LoadPlugin_no_null_dereference.
  - destruct is_prerendering.
    + unfold OnSetIsPrerendering. destruct b; simpl DCHECK.
      * rewrite bind_stop. exact I.
      * run. destruct (is_blocked_for_prerendering_ s); run;
          [apply load_unless_blocked_no_null_dereference|exact I].
    + destruct (is_blocked_for_prerendering_ s) eqn:E.
      * rewrite OnSetIsPrerendering_blocked by exact E.
        apply load_unless_blocked_no_null_dereference.
      * rewrite OnSetIsPrerendering_not_blocked by exact E. exact I.
  - apply LoadPlugin_no_null_dereference.
  - unfold LoadCallback. run. apply no_null_dereference_after.
    apply no_null_dereference_bind;
      [apply MarkPluginEssential_no_null_dereference|].
    intros [] s1 c _. apply LoadPlugin_no_null_dereference.
  - unfold DidFinishLoadingCallback, UpdateMessage. run. simpl. rewrite Hp.
    destruct (0 <? String.length (message_ s))%nat; run; simpl;
      rewrite ?Hp; cbn [is_some]; run;
      (destruct (premade_throttler_ s) as [t0|];
       [destruct (power_saver_enabled_ s)|]); run; deref_leaf.
  - contradiction N2. reflexivity.
  - exact I.
  - exact I.
Qed.

(** X19.  Once the placeholder's plugin is gone, the operations of the file
    other than [DidFinishIconRepositionForTestingCallback] do not go through
    it: none touches the container, runs a script, asks for a
    classification or for a new plugin, or allow-lists an origin, and none
    dereferences a null pointer, except that [PluginDestroyed] still
    dereferences the plugin of a held premade throttler.
    [DidFinishIconRepositionForTestingCallback] alone uses [plugin()]
    unchecked: it dereferences the null pointer before any call. *)
Theorem plugin_gone_untouched (b : Build) (h : Host) (op : Operation)
  (s : Placeholder) :
  plugin (base s) = None ->
  (op <> OpDidFinishIconRepositionForTestingCallback ->
   silent uses_plugin (perform b h op s) /\
   (op <> OpPluginDestroyed -> no_null_dereference (perform b h op s))) /\
  perform b h OpDidFinishIconRepositionForTestingCallback s =
    Stops NullDereference [].
Proof.
  intros Hp. split.
  - intros N. split; [apply plugin_gone_silent; exact Hp|].
    intros N'. apply plugin_gone_no_null_dereference; assumption.
  - simpl. unfold DidFinishIconRepositionForTestingCallback. run.
    rewrite Hp. reflexivity.
Qed.

Lemma plugin_gone_untouched_witness :
  silent uses_plugin
    (perform DcheckOn Sample.host (OpOnUnobscuredRectUpdate Sample.big)
       Sample.torn_down) /\
  no_null_dereference
    (perform DcheckOn Sample.host OpLoadCallback Sample.torn_down) /\
  calls_of (perform DcheckOn Sample.host OpLoadCallback Sample.torn_down) =
  [RecordAction "Plugin_Load_Click";
   RecordUnthrottleMethodMetric UNTHROTTLE_METHOD_BY_CLICK] /\
  perform DcheckOn Sample.host OpDidFinishIconRepositionForTestingCallback
    Sample.torn_down = Stops NullDereference [].
Proof.
  destruct (plugin_gone_untouched DcheckOn Sample.host
              (OpOnUnobscuredRectUpdate Sample.big) Sample.torn_down eq_refl)
    as (Update & Icon).
  destruct (plugin_gone_untouched DcheckOn Sample.host OpLoadCallback
              Sample.torn_down eq_refl) as (Click & _).
  split; [exact (proj1 (Update ltac:(discriminate)))|].
  split; [exact (proj2 (Click ltac:(discriminate)) ltac:(discriminate))|].
  split; [reflexivity|exact Icon].
Defined.

(** ** One report per placeholder *)

Lemma reports_after {A} (c : list HostCall) (o : Outcome A) :
  reports (after c o) = (List.length (filter is_report c) + reports o)%nat.
Proof.
  unfold reports. rewrite calls_of_after, filter_app. apply length_app.
Qed.

Lemma silent_reports {A} (o : Outcome A) :
  silent is_report o -> reports o = 0%nat.
Proof.
  unfold silent, reports. intros H.
  induction (calls_of o) as [|c l IH]; [reflexivity|].
  simpl in *. apply orb_false_iff in H. destruct H as [Hc Hl].
  rewrite Hc. exact (IH Hl).
Qed.

Lemma reports_bind {A B} (m : M A) (k : A -> M B) (s : Placeholder) :
  reports (bind m k s) =
  match m s with
  | Returns a s1 _ => (reports (m s) + reports (k a s1))%nat
  | Stops _ _ => reports (m s)
  end.
Proof.
  destruct (m s) as [a s1 c|f c] eqn:E.
  - rewrite (bind_returns _ _ _ _ _ _ E), reports_after. reflexivity.
  - rewrite (bind_stops _ _ _ _ _ E). reflexivity.
Qed.

Lemma load_call_no_report (c : HostCall) :
  load_call c = true -> is_report c = false.
Proof. destruct c; try reflexivity; discriminate. Qed.

Lemma essential_report_once (s : Placeholder) (m : PowerSaverUnthrottleMethod) :
  (List.length (filter is_report (essential_report s m)) <= 1)%nat.
Proof.
  unfold essential_report. destruct (premade_throttler_ s); simpl; [lia|].
  destruct (is_DO_NOT_RECORD m); simpl; lia.
Qed.

Lemma MarkPluginEssential_reports (b : Build) (h : Host)
  (m : PowerSaverUnthrottleMethod) (s : Placeholder) :
  (reports (MarkPluginEssential b h m s) <= 1)%nat /\
  (power_saver_enabled_ s = false ->
   reports (MarkPluginEssential b h m s) = 0%nat).
Proof.
  destruct (power_saver_enabled_ s) eqn:Hs.
  - split; [|discriminate].
    rewrite MarkPluginEssential_enabled by exact Hs. rewrite reports_after.
    assert (Z : reports
                  (if is_blocked_for_power_saver_poster_ s
                   then load_unless_blocked b h
                          (set_is_blocked_for_power_saver_poster_ false
                             (set_power_saver_enabled_ false s))
                   else Returns tt (set_power_saver_enabled_ false s) [])
                = 0%nat).
    { destruct (is_blocked_for_power_saver_poster_ s); [|reflexivity].
      apply silent_reports, load_unless_blocked_silent.
      exact load_call_no_report. }
    rewrite Z. assert (L := essential_report_once s m). lia.
  - rewrite MarkPluginEssential_disabled by exact Hs.
    split; [unfold reports; simpl; lia|reflexivity].
Qed.

(** The reports of one operation: at most one, none with power saver off,
    and none if power saver is still on afterwards. *)
Lemma perform_reports (b : Build) (h : Host) (op : Operation)
  (s : Placeholder) :
  (reports (perform b h op s) <= 1)%nat /\
  (power_saver_enabled_ s = false -> reports (perform b h op s) = 0%nat) /\
  (forall s1 c, perform b h op s = Returns tt s1 c ->
                power_saver_enabled_ s1 = true ->
                reports (perform b h op s) = 0%nat).
Proof.
  destruct (reports_nothing op) eqn:Hop.
  { assert (Z : reports (perform b h op s) = 0%nat).
    { apply silent_reports, perform_silent;
        [exact Hop|exact load_call_no_report|auto]. }
    rewrite Z. repeat split; auto. }
  destruct op; try discriminate Hop; simpl perform.
  - destruct (MarkPluginEssential_reports b h method s) as (L & Z).
    split; [exact L|]. split; [exact Z|].
    intros s1 c E Hs.
    rewrite (MarkPluginEssential_returns_disabled b h method s s1 c E) in Hs.
    discriminate Hs.
  - unfold PluginDestroyed. run.
    destruct (power_saver_enabled_ s) eqn:Hs; run;
      [destruct (premade_throttler_ s) as [t|]; run;
       [destruct (GetWebPlugin t); run
       |destruct (is_blocked_for_power_saver_poster_ s); run]|];
      unfold modify, reports; simpl;
      (split; [lia|]); (split; [intros E; first [discriminate E|reflexivity]|]);
      intros s1 c E; first [discriminate E|injection E as <- _; simpl];
      intros E'; first [discriminate E'|reflexivity].
  - unfold OnUnobscuredRectUpdate. run.
    assert (Z0 : forall (s0 : Placeholder) (l : list HostCall),
              existsb is_report l = false ->
              (reports (@Returns unit tt s0 l) <= 1)%nat /\
              (power_saver_enabled_ s = false ->
               reports (@Returns unit tt s0 l) = 0%nat) /\
              (forall s1 c, @Returns unit tt s0 l = Returns tt s1 c ->
                            power_saver_enabled_ s1 = true ->
                            reports (@Returns unit tt s0 l) = 0%nat)).
    { intros s0 l Hl.
      assert (Z : reports (@Returns unit tt s0 l) = 0%nat)
        by (apply silent_reports; exact Hl).
      rewrite Z. repeat split; auto. }
    destruct (negb (is_some (plugin (base s))) || negb (finished_loading_ s));
      [apply Z0; reflexivity|].
    destruct (gfx.eqb (unobscured_rect_ s) unobscured_rect);
      [apply Z0; reflexivity|].
    run. destruct (plugin_container h); run.
    2:{ unfold reports. simpl. repeat split; try lia; discriminate. }
    destruct (is_delayed_placeholder_ s); run;
      [unfold modify; simpl; apply Z0; reflexivity|].
    destruct (is_blocked_for_power_saver_poster_ s); run;
      [|apply Z0; reflexivity].
    destruct (negb (is_PERIPHERAL _)); run;
      [|unfold modify; simpl; apply Z0; reflexivity].
    rewrite reports_after. simpl.
    match goal with |- context [MarkPluginEssential b h ?m] =>
      destruct (MarkPluginEssential_reports b h m
                  (set_unobscured_rect_ unobscured_rect s)) as (L & Z);
      destruct (MarkPluginEssential b h m
                  (set_unobscured_rect_ unobscured_rect s))
        as [[] s' c'|f c'] eqn:E1
    end.
    + rewrite (bind_returns _ _ _ _ _ _ E1), reports_after.
      assert (Pw := MarkPluginEssential_returns_disabled b h _ _ _ _ E1).
      assert (K : forall o : Outcome unit,
                o = Returns tt (set_heuristic_run_before_ true s') [] \/
                o = Returns tt (set_heuristic_run_before_ true s')
                      [WhitelistContentOrigin (content_origin h)] ->
                (List.length (filter is_report c') + reports o <= 1)%nat /\
                (power_saver_enabled_ s = false ->
                 (List.length (filter is_report c') + reports o)%nat = 0%nat) /\
                (forall l s1 c,
                   @Returns unit tt (set_heuristic_run_before_ true s') l
                   = Returns tt s1 c ->
                   power_saver_enabled_ s1 = true ->
                   (List.length (filter is_report c') + reports o)%nat = 0%nat)).
      { intros o Ho.
        assert (Zo : reports o = 0%nat) by (destruct Ho as [->| ->]; reflexivity).
        rewrite Zo. unfold reports in L, Z. simpl in L, Z.
        split; [lia|]. split; [intros Hs; rewrite (Z Hs); reflexivity|].
        intros l s1 c E Hs1. injection E as <- _.
        simpl in Hs1. rewrite Pw in Hs1. discriminate Hs1. }
      run.
      destruct (negb (heuristic_run_before_ s') && _); run; unfold modify;
        simpl;
        match goal with
        | |- (_ + reports ?o <= 1)%nat /\ _ =>
            destruct (K o ltac:(auto)) as (K1 & K2 & K3);
            split; [exact K1|split; [exact K2|]];
            intros s1 c E; exact (K3 _ s1 c E)
        end.
    + rewrite (bind_stops _ _ _ _ _ E1). unfold reports in *. simpl in *.
      split; [lia|]. split; [intros Hs; rewrite (Z Hs); reflexivity|].
      discriminate.
  - unfold LoadCallback. run. rewrite reports_after. simpl.
    destruct (MarkPluginEssential_reports b h UNTHROTTLE_METHOD_BY_CLICK s)
      as (L & Z).
    rewrite reports_bind.
    destruct (MarkPluginEssential b h UNTHROTTLE_METHOD_BY_CLICK s)
      as [[] s' c'|f c'] eqn:E1.
    + assert (Zl : reports (LoadPlugin b h s') = 0%nat)
        by (apply silent_reports, LoadPlugin_silent; exact load_call_no_report).
      rewrite Zl, Nat.add_0_r.
      split; [exact L|]. split; [exact Z|].
      intros s1 c E Hs1. exfalso.
      assert (Pw := MarkPluginEssential_returns_disabled b h _ _ _ _ E1).
      rewrite (bind_returns _ _ _ _ _ _ E1) in E.
      destruct (LoadPlugin b h s') as [[] s2 c2|f c2] eqn:E2; simpl in E;
        [|discriminate E].
      injection E as <- _.
      destruct (LoadPlugin_states b h s' s2 c2 E2) as [->| ->];
        simpl in Hs1; rewrite Pw in Hs1; discriminate Hs1.
    + split; [exact L|]. split; [exact Z|].
      rewrite (bind_stops _ _ _ _ _ E1). discriminate.
Qed.

(** X20.  A placeholder reports at most once how its plugin was
    unthrottled.  Over any sequence of operations of the file, from any
    object and whatever the host answers, at most one call goes to the
    unthrottle metric or to the throttler's [MarkPluginEssential] (the
    count of a plugin never unthrottled included), and none at all when
    power saver was not enabled at the start. *)
Theorem unthrottling_reported_once (b : Build) (h : Host)
  (ops : list Operation) (s : Placeholder) :
  (reports (perform_all b h ops s) <= 1)%nat /\
  (power_saver_enabled_ s = false -> reports (perform_all b h ops s) = 0%nat).
Proof.
  revert s. induction ops as [|op rest IH]; intros s.
  { unfold reports. simpl. split; [lia|reflexivity]. }
  simpl perform_all. rewrite reports_bind.
  destruct (perform_reports b h op s) as (L & Z & K).
  destruct (perform b h op s) as [[] s1 c|f c] eqn:E.
  2:{ split; [exact L|exact Z]. }
  destruct (IH s1) as (L1 & Z1).
  destruct (perform_frame b h op s s1 c E) as ((_ & _ & _ & Mono & _) & _).
  destruct (power_saver_enabled_ s1) eqn:Hs1.
  - rewrite (K s1 c eq_refl Hs1). split; [exact L1|].
    intros Hs. rewrite (Mono eq_refl) in Hs. discriminate Hs.
  - rewrite (Z1 eq_refl), Nat.add_0_r. split; [exact L|exact Z].
Qed.

Lemma unthrottling_reported_once_witness :
  reports (perform_all DcheckOn Sample.host
             [OpOnUnobscuredRectUpdate Sample.small; OpLoadCallback;
              OpMarkPluginEssential UNTHROTTLE_METHOD_BY_WHITELIST;
              OpPluginDestroyed]
             Sample.loaded) = 0%nat /\
  reports (perform_all DcheckOn Sample.host
             [OpOnUnobscuredRectUpdate Sample.small; OpLoadCallback;
              OpMarkPluginEssential UNTHROTTLE_METHOD_BY_WHITELIST;
              OpPluginDestroyed]
             Sample.poster_loaded) = 1%nat.
Proof.
  split; [|reflexivity].
  apply (unthrottling_reported_once DcheckOn Sample.host
           [OpOnUnobscuredRectUpdate Sample.small; OpLoadCallback;
            OpMarkPluginEssential UNTHROTTLE_METHOD_BY_WHITELIST;
            OpPluginDestroyed] Sample.loaded).
  reflexivity.
Defined.

(** ** Blocking for the poster *)

(** X21.  [BlockForPowerSaverPoster], on a placeholder allowed to load that
    is not yet blocked for the poster, registers the content origin as
    peripheral and sets the blocker; from then on [LoadingBlocked] answers
    true, and neither [WasShown] nor [OnSetIsPrerendering(false)] loads the
    plugin, whatever else is blocked.  Blocking a second time is fatal in a
    build with [DCHECK]s on. *)
Theorem BlockForPowerSaverPoster_holds_back (b : Build) (h : Host)
  (s : Placeholder) :
  is_blocked_for_power_saver_poster_ s = false -> allow_loading_ s = true ->
  exists s1,
    BlockForPowerSaverPoster b h s =
    Returns tt s1 [RegisterPeripheralPlugin (content_origin h)] /\
    LoadingBlocked b s1 = Returns true s1 [] /\
    load_fires (WasShown b h s1) = false /\
    load_fires (OnSetIsPrerendering b h false s1) = false /\
    BlockForPowerSaverPoster DcheckOn h s1 = Stops DcheckFailed [].
Proof.
  intros Hb Ha. exists (set_is_blocked_for_power_saver_poster_ true s).
  split; [|split; [|split; [|split]]].
  - unfold BlockForPowerSaverPoster. run. rewrite Hb. simpl negb.
    rewrite DCHECK_true. run. reflexivity.
  - rewrite LoadingBlocked_allowed by exact Ha. unfold no_blocker. simpl.
    rewrite orb_true_r. reflexivity.
  - destruct (is_blocked_for_background_tab_ s) eqn:E.
    + rewrite WasShown_blocked by exact E.
      rewrite load_unless_blocked_fires by exact Ha.
      unfold no_blocker. simpl. reflexivity.
    + rewrite WasShown_not_blocked by exact E. reflexivity.
  - destruct (is_blocked_for_prerendering_ s) eqn:E.
    + rewrite OnSetIsPrerendering_blocked by exact E.
      rewrite load_unless_blocked_fires by exact Ha.
      unfold no_blocker. simpl. rewrite orb_true_r. reflexivity.
    + rewrite OnSetIsPrerendering_not_blocked by exact E. reflexivity.
  - unfold BlockForPowerSaverPoster. run. reflexivity.
Qed.

Lemma BlockForPowerSaverPoster_holds_back_witness :
  exists s1,
    BlockForPowerSaverPoster DcheckOn Sample.host Sample.in_background =
    Returns tt s1 [RegisterPeripheralPlugin (content_origin Sample.host)] /\
    load_fires (WasShown DcheckOn Sample.host s1) = false /\
    load_fires (WasShown DcheckOn Sample.host Sample.in_background) = true.
Proof.
  destruct (BlockForPowerSaverPoster_holds_back DcheckOn Sample.host
              Sample.in_background eq_refl eq_refl)
    as (s1 & Blocked & _ & Shown & _).
  exists s1. split; [exact Blocked|]. split; [exact Shown|reflexivity].
Defined.

(** ** Marking essential on a size update *)




